(** * The Grand Residences: listing page and REST relay

    A shallow embedding of the parts of [script.js] (the browser side:
    [fetchFlats], [handleApplyFilters], [handleCurrencyChange],
    [formatPrice], [parseAmenities], the favourites functions and the
    auth-state callback of [initialize]) and of [index.js] (the
    [GET /api/flats] handler), followed by the properties of the
    specification that concern them. *)

From Stdlib Require Import QArith Qround ZArith Ascii String List Bool Lia DecimalString.
From stdpp Require Import base option list strings gmap.

Set Warnings "-register-all".

Local Open Scope string_scope.
Local Open Scope list_scope.

(** ** JavaScript values *)

(** A JS number.  A finite double is a rational, so finite numbers are
    carried as rationals; [NaN] and the two infinities are separate. *)
Inductive number : Type :=
| NaN
| Infinity (negative : bool)
| Finite (q : Q).

(** The values that a Firestore document, [JSON.parse] or a form control
    can hand to the script. *)
Inductive JsValue : Type :=
| JUndefined
| JNull
| JBool (b : bool)
| JNum (n : number)
| JStr (s : string)
| JArr (items : list JsValue)
| JObj (props : list (string * JsValue)).

(** [a <= b] on numbers, as [<=] (and Firestore's range filters) read it:
    every comparison with [NaN] is false. *)
Definition num_le (a b : number) : bool :=
  match a, b with
  | NaN, _ | _, NaN => false
  | Infinity true, _ => true
  | _, Infinity false => true
  | Infinity false, _ => false
  | _, Infinity true => false
  | Finite x, Finite y => Qle_bool x y
  end.

Definition num_is_zero (n : number) : bool :=
  match n with
  | Finite q => Qeq_bool q 0
  | _ => false
  end.

(** ToBoolean. *)
Definition truthy (v : JsValue) : bool :=
  match v with
  | JUndefined | JNull => false
  | JBool b => b
  | JNum NaN => false
  | JNum n => negb (num_is_zero n)
  | JStr s => negb (String.eqb s "")
  | JArr _ | JObj _ => true
  end.

(** [a || b]. *)
Definition js_or (a b : JsValue) : JsValue := if truthy a then a else b.

Definition is_string (v : JsValue) : bool :=
  match v with JStr _ => true | _ => false end.

(** [===] on primitives (objects and arrays are compared by identity in
    JS, which the embedding does not carry: they are never equal here). *)
Definition strict_eq (a b : JsValue) : bool :=
  match a, b with
  | JUndefined, JUndefined | JNull, JNull => true
  | JBool x, JBool y => Bool.eqb x y
  | JNum (Finite x), JNum (Finite y) => Qeq_bool x y
  | JNum (Infinity x), JNum (Infinity y) => Bool.eqb x y
  | JStr x, JStr y => String.eqb x y
  | _, _ => false
  end.

(** ** String methods *)

Definition startsWith (s : string) (c : ascii) : bool :=
  match s with
  | String c' _ => Ascii.eqb c' c
  | EmptyString => false
  end.

Fixpoint endsWith (s : string) (c : ascii) : bool :=
  match s with
  | EmptyString => false
  | String c' EmptyString => Ascii.eqb c' c
  | String _ s' => endsWith s' c
  end.

(** [s.includes(c)] for a one-character needle. *)
Fixpoint includes_char (s : string) (c : ascii) : bool :=
  match s with
  | EmptyString => false
  | String c' s' => Ascii.eqb c' c || includes_char s' c
  end.

(** The text of [s] before its first [c] (all of [s] when it has none). *)
Fixpoint before_char (c : ascii) (s : string) : string :=
  match s with
  | EmptyString => EmptyString
  | String c' s' => if Ascii.eqb c' c then EmptyString else String c' (before_char c s')
  end.

(** The text of [s] after its first [c] (empty when it has none). *)
Fixpoint after_char (c : ascii) (s : string) : string :=
  match s with
  | EmptyString => EmptyString
  | String c' s' => if Ascii.eqb c' c then s' else after_char c s'
  end.

(** [s.split(c)] for a one-character separator: the pieces between the
    separators, in order; a string without separator is one piece. *)
Fixpoint split_char (c : ascii) (s : string) : list string :=
  match s with
  | EmptyString => [EmptyString]
  | String c' s' =>
      if Ascii.eqb c' c then EmptyString :: split_char c s'
      else match split_char c s' with
           | piece :: pieces => String c' piece :: pieces
           | [] => [String c' EmptyString]
           end
  end.

(** ** parseFloat *)

(** [parseFloat] trims leading white space, then reads the longest prefix
    that is a [StrDecimalLiteral]; without such a prefix the result is
    [NaN].  The value is the decimal's exact rational (the engine rounds
    it to the nearest double, which no property below depends on).  White
    space is the ASCII part of the JS set. *)
Definition is_white_space (c : ascii) : bool :=
  match N_of_ascii c with
  | 9%N | 10%N | 11%N | 12%N | 13%N | 32%N => true
  | _ => false
  end.

Fixpoint trimStart (s : string) : string :=
  match s with
  | String c s' => if is_white_space c then trimStart s' else s
  | EmptyString => s
  end.

Definition digit_of (c : ascii) : option Z :=
  let n := Z.of_N (N_of_ascii c) in
  if (48 <=? n)%Z && (n <=? 57)%Z then Some (n - 48)%Z else None.

(** The leading [DecimalDigits] of [s] and what follows them. *)
Fixpoint decimalDigits (s : string) : list Z * string :=
  match s with
  | String c s' =>
      match digit_of c with
      | Some d => let '(ds, rest) := decimalDigits s' in (d :: ds, rest)
      | None => ([], s)
      end
  | EmptyString => ([], s)
  end.

Definition digits_value (ds : list Z) : Z :=
  fold_left (fun acc d => (10 * acc + d)%Z) ds 0%Z.

(** The value of the [ExponentPart] that [s] starts with, [0] when it
    starts with none ([e] or [E], an optional sign, at least one digit). *)
Definition exponentPart (s : string) : Z :=
  match s with
  | String c s' =>
      if Ascii.eqb c "e" || Ascii.eqb c "E" then
        let '(sign, s'') :=
          match s' with
          | String "+" r => (1%Z, r)
          | String "-" r => ((-1)%Z, r)
          | _ => (1%Z, s')
          end in
        match fst (decimalDigits s'') with
        | [] => 0%Z
        | ds => (sign * digits_value ds)%Z
        end
      else 0%Z
  | EmptyString => 0%Z
  end.

Definition decimal (ds : list Z) (exponent : Z) : Q :=
  Qred (inject_Z (digits_value ds) * Qpower (10 # 1) exponent).

Definition strUnsignedDecimalLiteral (s : string) : number :=
  if String.prefix "Infinity" s then Infinity false
  else
    let '(int_part, rest) := decimalDigits s in
    match rest with
    | String "." rest' =>
        let '(frac_part, rest'') := decimalDigits rest' in
        match int_part ++ frac_part with
        | [] => NaN
        | ds => Finite (decimal ds (exponentPart rest'' - Z.of_nat (length frac_part)))
        end
    | _ =>
        match int_part with
        | [] => NaN
        | ds => Finite (decimal ds (exponentPart rest))
        end
    end.

Definition num_neg (n : number) : number :=
  match n with
  | NaN => NaN
  | Infinity b => Infinity (negb b)
  | Finite q => Finite (Qred (- q))
  end.

Definition parseFloat (s : string) : number :=
  match trimStart s with
  | String "+" s' => strUnsignedDecimalLiteral s'
  | String "-" s' => num_neg (strUnsignedDecimalLiteral s')
  | s' => strUnsignedDecimalLiteral s'
  end.

(** ** Documents, queries and the document store *)

(** A document snapshot of the [flats] collection: the store-assigned id
    and the stored fields. *)
Record DocSnap : Type := {
  doc_id : string;
  doc_data : gmap string JsValue
}.

(** [{ id: doc.id, ...doc.data() }]: the fields are spread after [id], so
    a stored field called [id] wins. *)
Definition flat_of_doc (d : DocSnap) : gmap string JsValue :=
  doc_data d ∪ {[ "id" := JStr (doc_id d) ]}.

(** [flat.name]: a missing property reads as [undefined]. *)
Definition prop (flat : gmap string JsValue) (name : string) : JsValue :=
  default JUndefined (flat !! name).

Inductive FieldPath : Type :=
| FieldName (name : string)
| DocumentId.

Inductive WhereOp : Type := OpEq | OpGe | OpLe | OpIn.

Inductive QueryConstraint : Type :=
| Where (field : FieldPath) (op : WhereOp) (value : JsValue)
| OrderBy (field : string) (direction : string)
| StartAfter (cursor : DocSnap)
| Limit (count : nat).

(** A query: the collection and the constraints in the order in which
    [query(ref, constraint)] added them. *)
Record Query : Type := {
  collectionName : string;
  constraints : list QueryConstraint
}.

Definition collection (name : string) : Query :=
  {| collectionName := name; constraints := [] |}.

Definition query (q : Query) (c : QueryConstraint) : Query :=
  {| collectionName := collectionName q; constraints := constraints q ++ [c] |}.

(** The document store, as the script sees it.  [getDocs q] is the page
    the store answers with, or [None] when the call rejects (transport
    failure, or a query the store refuses); [getDoc_fails] and
    [setDoc_fails] say when a read or a write of [users/uid] rejects. *)
Class Store : Type := {
  getDocs : Query -> option (list DocSnap);
  getDoc_fails : string -> bool;
  setDoc_fails : string -> bool
}.

(** The parts of the JS engine that the script calls and that are taken
    as given: [JSON.parse] ([None] is a [SyntaxError]), the [*] operator
    with its coercions, and [Intl.NumberFormat('en-US', {style:
    'currency', currency, 0 fraction digits}).format] ([None] is the
    [RangeError] of a malformed currency code). *)
Class JsRuntime : Type := {
  JSON_parse : string -> option JsValue;
  js_times : JsValue -> JsValue -> JsValue;
  NumberFormat_format : string -> JsValue -> option string
}.

(** ** Configuration *)

Module CONFIG.

Definition exchangeRates : gmap string Q :=
  list_to_map
    [ ("USD", 1 # 1); ("EUR", 92 # 100); ("GBP", 79 # 100); ("CAD", 136 # 100);
      ("AUD", 152 # 100); ("JPY", 156 # 1); ("INR", 833 # 10); ("BRL", 508 # 100);
      ("ZAR", 185 # 10); ("NZD", 163 # 100); ("CHF", 90 # 100); ("SGD", 135 # 100);
      ("HKD", 78 # 10); ("SEK", 108 # 10); ("NOK", 108 # 10); ("DKK", 68 # 10);
      ("PLN", 39 # 10); ("MXN", 166 # 10); ("AED", 367 # 100); ("SAR", 375 # 100);
      ("RUB", 89 # 1); ("TRY", 322 # 10); ("THB", 366 # 10); ("IDR", 16200 # 1);
      ("MYR", 47 # 10); ("PHP", 585 # 10); ("VND", 25400 # 1); ("KRW", 1360 # 1);
      ("EGP", 477 # 10) ].

Definition flatsPerPage : nat := 6.
Definition skeletonCount : nat := 6.

End CONFIG.

(** [CONFIG.exchangeRates[currency]]. *)
Definition exchangeRate (currency : string) : JsValue :=
  match CONFIG.exchangeRates !! currency with
  | Some rate => JNum (Finite rate)
  | None => JUndefined
  end.

(** ** The state of the page *)

Record Filters : Type := {
  offerType : string;
  flatType : string;
  minPrice : string;
  maxPrice : string;
  sortBy : string;
  searchTerm : string;
  showFavorites : bool
}.

(** What a flat card shows of its flat: the id it carries, the price
    text, the offer type and the amenities as stored (their
    capitalisation and icons, like the rest of the card's markup, are
    text that is computed without failing and is read by nothing). *)
Record Card : Type := {
  card_flat_id : JsValue;
  card_price : string;
  card_offerType : string;
  card_amenities : list string
}.

(** A child of the [flatsList] container. *)
Inductive Node : Type :=
| SkeletonCard
| FlatCard (card : Card).

(** The script's global variables, the elements of the page it writes
    to, and the surroundings it talks to. *)
Record World : Type := {
  (* global variables *)
  allFlatsData : list (gmap string JsValue);
  displayedFlatsCount : nat;
  lastVisibleFlat : option DocSnap;
  favorites : list string;
  currentCurrency : string;
  currentFilters : Filters;
  (* the page *)
  elements_flatsList : bool;      (* [elements.flatsList] is set *)
  document_flatsList : bool;      (* the document has [#flatsList] *)
  flatsList : list Node;          (* children of [#flatsList] *)
  loadMoreBtn_hidden : bool;
  noFlatsMessage_hidden : bool;
  noFlatsMessage_text : string;
  toasts : list (string * string); (* message and type, oldest first *)
  (* the surroundings *)
  localStorage_favorites : option (list string);
  currentUser : option string;    (* [auth.currentUser.uid] *)
  users : gmap string (list string); (* [favorites] of [users/uid] *)
  requests : list Query           (* queries sent to the store, oldest first *)
}.

Definition set_allFlatsData v (w : World) : World :=
  {| allFlatsData := v; displayedFlatsCount := displayedFlatsCount w;
     lastVisibleFlat := lastVisibleFlat w; favorites := favorites w;
     currentCurrency := currentCurrency w; currentFilters := currentFilters w;
     elements_flatsList := elements_flatsList w; document_flatsList := document_flatsList w;
     flatsList := flatsList w; loadMoreBtn_hidden := loadMoreBtn_hidden w;
     noFlatsMessage_hidden := noFlatsMessage_hidden w;
     noFlatsMessage_text := noFlatsMessage_text w; toasts := toasts w;
     localStorage_favorites := localStorage_favorites w; currentUser := currentUser w;
     users := users w; requests := requests w |}.

Definition set_displayedFlatsCount v (w : World) : World :=
  {| allFlatsData := allFlatsData w; displayedFlatsCount := v;
     lastVisibleFlat := lastVisibleFlat w; favorites := favorites w;
     currentCurrency := currentCurrency w; currentFilters := currentFilters w;
     elements_flatsList := elements_flatsList w; document_flatsList := document_flatsList w;
     flatsList := flatsList w; loadMoreBtn_hidden := loadMoreBtn_hidden w;
     noFlatsMessage_hidden := noFlatsMessage_hidden w;
     noFlatsMessage_text := noFlatsMessage_text w; toasts := toasts w;
     localStorage_favorites := localStorage_favorites w; currentUser := currentUser w;
     users := users w; requests := requests w |}.

Definition set_lastVisibleFlat v (w : World) : World :=
  {| allFlatsData := allFlatsData w; displayedFlatsCount := displayedFlatsCount w;
     lastVisibleFlat := v; favorites := favorites w;
     currentCurrency := currentCurrency w; currentFilters := currentFilters w;
     elements_flatsList := elements_flatsList w; document_flatsList := document_flatsList w;
     flatsList := flatsList w; loadMoreBtn_hidden := loadMoreBtn_hidden w;
     noFlatsMessage_hidden := noFlatsMessage_hidden w;
     noFlatsMessage_text := noFlatsMessage_text w; toasts := toasts w;
     localStorage_favorites := localStorage_favorites w; currentUser := currentUser w;
     users := users w; requests := requests w |}.

Definition set_favorites v (w : World) : World :=
  {| allFlatsData := allFlatsData w; displayedFlatsCount := displayedFlatsCount w;
     lastVisibleFlat := lastVisibleFlat w; favorites := v;
     currentCurrency := currentCurrency w; currentFilters := currentFilters w;
     elements_flatsList := elements_flatsList w; document_flatsList := document_flatsList w;
     flatsList := flatsList w; loadMoreBtn_hidden := loadMoreBtn_hidden w;
     noFlatsMessage_hidden := noFlatsMessage_hidden w;
     noFlatsMessage_text := noFlatsMessage_text w; toasts := toasts w;
     localStorage_favorites := localStorage_favorites w; currentUser := currentUser w;
     users := users w; requests := requests w |}.

Definition set_currentCurrency v (w : World) : World :=
  {| allFlatsData := allFlatsData w; displayedFlatsCount := displayedFlatsCount w;
     lastVisibleFlat := lastVisibleFlat w; favorites := favorites w;
     currentCurrency := v; currentFilters := currentFilters w;
     elements_flatsList := elements_flatsList w; document_flatsList := document_flatsList w;
     flatsList := flatsList w; loadMoreBtn_hidden := loadMoreBtn_hidden w;
     noFlatsMessage_hidden := noFlatsMessage_hidden w;
     noFlatsMessage_text := noFlatsMessage_text w; toasts := toasts w;
     localStorage_favorites := localStorage_favorites w; currentUser := currentUser w;
     users := users w; requests := requests w |}.

Definition set_currentFilters v (w : World) : World :=
  {| allFlatsData := allFlatsData w; displayedFlatsCount := displayedFlatsCount w;
     lastVisibleFlat := lastVisibleFlat w; favorites := favorites w;
     currentCurrency := currentCurrency w; currentFilters := v;
     elements_flatsList := elements_flatsList w; document_flatsList := document_flatsList w;
     flatsList := flatsList w; loadMoreBtn_hidden := loadMoreBtn_hidden w;
     noFlatsMessage_hidden := noFlatsMessage_hidden w;
     noFlatsMessage_text := noFlatsMessage_text w; toasts := toasts w;
     localStorage_favorites := localStorage_favorites w; currentUser := currentUser w;
     users := users w; requests := requests w |}.

Definition set_elements_flatsList v (w : World) : World :=
  {| allFlatsData := allFlatsData w; displayedFlatsCount := displayedFlatsCount w;
     lastVisibleFlat := lastVisibleFlat w; favorites := favorites w;
     currentCurrency := currentCurrency w; currentFilters := currentFilters w;
     elements_flatsList := v; document_flatsList := document_flatsList w;
     flatsList := flatsList w; loadMoreBtn_hidden := loadMoreBtn_hidden w;
     noFlatsMessage_hidden := noFlatsMessage_hidden w;
     noFlatsMessage_text := noFlatsMessage_text w; toasts := toasts w;
     localStorage_favorites := localStorage_favorites w; currentUser := currentUser w;
     users := users w; requests := requests w |}.

Definition set_flatsList v (w : World) : World :=
  {| allFlatsData := allFlatsData w; displayedFlatsCount := displayedFlatsCount w;
     lastVisibleFlat := lastVisibleFlat w; favorites := favorites w;
     currentCurrency := currentCurrency w; currentFilters := currentFilters w;
     elements_flatsList := elements_flatsList w; document_flatsList := document_flatsList w;
     flatsList := v; loadMoreBtn_hidden := loadMoreBtn_hidden w;
     noFlatsMessage_hidden := noFlatsMessage_hidden w;
     noFlatsMessage_text := noFlatsMessage_text w; toasts := toasts w;
     localStorage_favorites := localStorage_favorites w; currentUser := currentUser w;
     users := users w; requests := requests w |}.

Definition set_loadMoreBtn_hidden v (w : World) : World :=
  {| allFlatsData := allFlatsData w; displayedFlatsCount := displayedFlatsCount w;
     lastVisibleFlat := lastVisibleFlat w; favorites := favorites w;
     currentCurrency := currentCurrency w; currentFilters := currentFilters w;
     elements_flatsList := elements_flatsList w; document_flatsList := document_flatsList w;
     flatsList := flatsList w; loadMoreBtn_hidden := v;
     noFlatsMessage_hidden := noFlatsMessage_hidden w;
     noFlatsMessage_text := noFlatsMessage_text w; toasts := toasts w;
     localStorage_favorites := localStorage_favorites w; currentUser := currentUser w;
     users := users w; requests := requests w |}.

Definition set_noFlatsMessage_hidden v (w : World) : World :=
  {| allFlatsData := allFlatsData w; displayedFlatsCount := displayedFlatsCount w;
     lastVisibleFlat := lastVisibleFlat w; favorites := favorites w;
     currentCurrency := currentCurrency w; currentFilters := currentFilters w;
     elements_flatsList := elements_flatsList w; document_flatsList := document_flatsList w;
     flatsList := flatsList w; loadMoreBtn_hidden := loadMoreBtn_hidden w;
     noFlatsMessage_hidden := v;
     noFlatsMessage_text := noFlatsMessage_text w; toasts := toasts w;
     localStorage_favorites := localStorage_favorites w; currentUser := currentUser w;
     users := users w; requests := requests w |}.

Definition set_noFlatsMessage_text v (w : World) : World :=
  {| allFlatsData := allFlatsData w; displayedFlatsCount := displayedFlatsCount w;
     lastVisibleFlat := lastVisibleFlat w; favorites := favorites w;
     currentCurrency := currentCurrency w; currentFilters := currentFilters w;
     elements_flatsList := elements_flatsList w; document_flatsList := document_flatsList w;
     flatsList := flatsList w; loadMoreBtn_hidden := loadMoreBtn_hidden w;
     noFlatsMessage_hidden := noFlatsMessage_hidden w;
     noFlatsMessage_text := v; toasts := toasts w;
     localStorage_favorites := localStorage_favorites w; currentUser := currentUser w;
     users := users w; requests := requests w |}.

Definition set_toasts v (w : World) : World :=
  {| allFlatsData := allFlatsData w; displayedFlatsCount := displayedFlatsCount w;
     lastVisibleFlat := lastVisibleFlat w; favorites := favorites w;
     currentCurrency := currentCurrency w; currentFilters := currentFilters w;
     elements_flatsList := elements_flatsList w; document_flatsList := document_flatsList w;
     flatsList := flatsList w; loadMoreBtn_hidden := loadMoreBtn_hidden w;
     noFlatsMessage_hidden := noFlatsMessage_hidden w;
     noFlatsMessage_text := noFlatsMessage_text w; toasts := v;
     localStorage_favorites := localStorage_favorites w; currentUser := currentUser w;
     users := users w; requests := requests w |}.

Definition set_localStorage_favorites v (w : World) : World :=
  {| allFlatsData := allFlatsData w; displayedFlatsCount := displayedFlatsCount w;
     lastVisibleFlat := lastVisibleFlat w; favorites := favorites w;
     currentCurrency := currentCurrency w; currentFilters := currentFilters w;
     elements_flatsList := elements_flatsList w; document_flatsList := document_flatsList w;
     flatsList := flatsList w; loadMoreBtn_hidden := loadMoreBtn_hidden w;
     noFlatsMessage_hidden := noFlatsMessage_hidden w;
     noFlatsMessage_text := noFlatsMessage_text w; toasts := toasts w;
     localStorage_favorites := v; currentUser := currentUser w;
     users := users w; requests := requests w |}.

Definition set_currentUser v (w : World) : World :=
  {| allFlatsData := allFlatsData w; displayedFlatsCount := displayedFlatsCount w;
     lastVisibleFlat := lastVisibleFlat w; favorites := favorites w;
     currentCurrency := currentCurrency w; currentFilters := currentFilters w;
     elements_flatsList := elements_flatsList w; document_flatsList := document_flatsList w;
     flatsList := flatsList w; loadMoreBtn_hidden := loadMoreBtn_hidden w;
     noFlatsMessage_hidden := noFlatsMessage_hidden w;
     noFlatsMessage_text := noFlatsMessage_text w; toasts := toasts w;
     localStorage_favorites := localStorage_favorites w; currentUser := v;
     users := users w; requests := requests w |}.

Definition set_users v (w : World) : World :=
  {| allFlatsData := allFlatsData w; displayedFlatsCount := displayedFlatsCount w;
     lastVisibleFlat := lastVisibleFlat w; favorites := favorites w;
     currentCurrency := currentCurrency w; currentFilters := currentFilters w;
     elements_flatsList := elements_flatsList w; document_flatsList := document_flatsList w;
     flatsList := flatsList w; loadMoreBtn_hidden := loadMoreBtn_hidden w;
     noFlatsMessage_hidden := noFlatsMessage_hidden w;
     noFlatsMessage_text := noFlatsMessage_text w; toasts := toasts w;
     localStorage_favorites := localStorage_favorites w; currentUser := currentUser w;
     users := v; requests := requests w |}.

Definition set_requests v (w : World) : World :=
  {| allFlatsData := allFlatsData w; displayedFlatsCount := displayedFlatsCount w;
     lastVisibleFlat := lastVisibleFlat w; favorites := favorites w;
     currentCurrency := currentCurrency w; currentFilters := currentFilters w;
     elements_flatsList := elements_flatsList w; document_flatsList := document_flatsList w;
     flatsList := flatsList w; loadMoreBtn_hidden := loadMoreBtn_hidden w;
     noFlatsMessage_hidden := noFlatsMessage_hidden w;
     noFlatsMessage_text := noFlatsMessage_text w; toasts := toasts w;
     localStorage_favorites := localStorage_favorites w; currentUser := currentUser w;
     users := users w; requests := v |}.

(** ** Programs: state and exceptions *)

Inductive Error : Type :=
| StoreError     (* a rejected store call *)
| TypeError
| RangeError.

Inductive Outcome (A : Type) : Type :=
| Returned (a : A)
| Threw (e : Error).

Arguments Returned {A} a.
Arguments Threw {A} e.

(** A piece of script: it runs on a world, returns or throws, and leaves
    a world behind. *)
Definition Prog (A : Type) : Type := World -> Outcome A * World.

Definition ret {A} (a : A) : Prog A := fun w => (Returned a, w).

Definition throw {A} (e : Error) : Prog A := fun w => (Threw e, w).

Definition bind {A B} (m : Prog A) (k : A -> Prog B) : Prog B :=
  fun w =>
    match m w with
    | (Returned a, w') => k a w'
    | (Threw e, w') => (Threw e, w')
    end.

Notation "x <- m ;; k" := (bind m (fun x => k))
  (at level 100, m at next level, right associativity).
Notation "m ;; k" := (bind m (fun _ => k))
  (at level 100, right associativity).

(** [try { m } catch (error) { handler }]. *)
Definition try_catch {A} (m : Prog A) (handler : Error -> Prog A) : Prog A :=
  fun w =>
    match m w with
    | (Returned a, w') => (Returned a, w')
    | (Threw e, w') => handler e w'
    end.

(** A call of an [async] function that is not awaited: what it throws
    rejects its own promise and reaches nobody.  The call is run to its
    end where it is made: one handler runs at a time, and no other
    handler runs while a call waits for the store. *)
Definition not_awaited (m : Prog unit) : Prog unit :=
  try_catch m (fun _ => ret tt).

Definition gets {A} (f : World -> A) : Prog A := fun w => (Returned (f w), w).

Definition modify (f : World -> World) : Prog unit := fun w => (Returned tt, f w).

(** [list.forEach(body)]. *)
Fixpoint forEach {A} (l : list A) (body : A -> Prog unit) : Prog unit :=
  match l with
  | [] => ret tt
  | x :: l' => body x ;; forEach l' body
  end.

(** [list.map(body)] for a body that may throw. *)
Fixpoint mapProg {A B} (l : list A) (body : A -> Prog B) : Prog (list B) :=
  match l with
  | [] => ret []
  | x :: l' => y <- body x ;; ys <- mapProg l' body ;; ret (y :: ys)
  end.

(** The world a program leaves, and what it returned. *)
Definition exec {A} (m : Prog A) (w : World) : World := snd (m w).
Definition outcome {A} (m : Prog A) (w : World) : Outcome A := fst (m w).

(** ** Utility functions *)

(** [showToast(message, type)]; the toast container is appended to the
    body by [initialize] before any handler can run. *)
Definition showToast (message type : string) : Prog unit :=
  modify (fun w => set_toasts (toasts w ++ [(message, type)]) w).

(** [showSkeletons(count)]: the list is emptied and [count] placeholders
    are appended. *)
Definition showSkeletons (count : nat) : Prog unit :=
  modify (set_flatsList (replicate count SkeletonCard)).

(** [hideSkeletons()] has an empty body. *)
Definition hideSkeletons : Prog unit := ret tt.

(** The values of the filter controls when [Apply] is pressed. *)
Record FilterControls : Type := {
  offerTypeFilter : string;
  flatTypeFilter : string;
  minPriceFilter : string;
  maxPriceFilter : string;
  sortByFilter : string;
  favoriteToggleButton : bool
}.

Section Script.

Context {R : JsRuntime} {S : Store}.

(** [formatPrice(price)]. *)
Definition formatPrice (price : JsValue) : Prog string :=
  currency <- gets currentCurrency ;;
  let convertedPrice := js_times price (exchangeRate currency) in
  match NumberFormat_format currency convertedPrice with
  | Some text => ret text
  | None => throw RangeError
  end.

Definition bracketed (s : string) : bool := startsWith s "[" && endsWith s "]".

(** [parseAmenities(amenitiesData)].  The two [JSON.parse] calls sit in
    [try] blocks whose [catch] logs and returns the empty array. *)
Definition parseAmenities (amenitiesData : JsValue) : JsValue :=
  if negb (truthy amenitiesData) then JArr []
  else
    match amenitiesData with
    | JArr items =>
        match items with
        | [JStr s] =>
            if bracketed s then
              match JSON_parse s with
              | Some parsed => parsed
              | None => JArr []
              end
            else JArr (List.filter is_string items)
        | _ => JArr (List.filter is_string items)
        end
    | JStr s =>
        if bracketed s then
          match JSON_parse s with
          | Some parsed => parsed
          | None => JArr []
          end
        else JArr []
    | _ => JArr []
    end.

(** [amenity.toLowerCase()] and [capitalizeFirstLetter(amenity)] for
    one parsed amenity: a [TypeError] unless it is a string. *)
Definition amenity_label (amenity : JsValue) : Prog string :=
  match amenity with
  | JStr s => ret s
  | _ => throw TypeError
  end.

(** [createFlatCard(flat)]: the card, or the exception one of the
    interpolations of its markup throws.  These are, in the order of
    the template: [formatPrice(flat.price || 0)];
    [capitalizeFirstLetter(flat.offerType || 'unknown')], whose
    [charAt] exists on strings only; the [map] over the parsed
    amenities.  A parse result that is no array (the JSON grammar
    excludes it, see [JSON_arrays]) has a [length] that is
    not above zero, or none at all. *)
Definition createFlatCard (flat : gmap string JsValue) : Prog Card :=
  let parsedAmenities := parseAmenities (js_or (prop flat "amenities") (JArr [])) in
  price <- formatPrice (js_or (prop flat "price") (JNum (Finite 0))) ;;
  offer <- match js_or (prop flat "offerType") (JStr "unknown") with
           | JStr s => ret s
           | _ => throw TypeError
           end ;;
  amenities <- match parsedAmenities with
               | JArr items => mapProg items amenity_label
               | JUndefined | JNull => throw TypeError
               | JStr s => if String.eqb s "" then ret [] else throw TypeError
               | _ => ret []
               end ;;
  ret {| card_flat_id := js_or (prop flat "id") (JStr "unknown");
         card_price := price;
         card_offerType := offer;
         card_amenities := amenities |}.

(** ** Fetching flats *)

(** The [if (reset)] block of [fetchFlats]. *)
Definition resetPagination (w : World) : World :=
  set_noFlatsMessage_hidden true
    (set_loadMoreBtn_hidden true
      (set_flatsList []
        (set_lastVisibleFlat None
          (set_displayedFlatsCount 0
            (set_allFlatsData [] w))))).

Definition when_ (b : bool) (c : QueryConstraint) (q : Query) : Query :=
  if b then query q c else q.

(** The [where] constraints of [fetchFlats] on the fields of a flat. *)
Definition filterConstraints (f : Filters) (q : Query) : Query :=
  let q := when_ (negb (String.eqb (offerType f) "all"))
             (Where (FieldName "offerType") OpEq (JStr (offerType f))) q in
  let q := when_ (negb (String.eqb (flatType f) "all"))
             (Where (FieldName "type") OpEq (JStr (flatType f))) q in
  let q := when_ (truthy (JStr (minPrice f)))
             (Where (FieldName "price") OpGe (JNum (parseFloat (minPrice f)))) q in
  let q := when_ (truthy (JStr (maxPrice f)))
             (Where (FieldName "price") OpLe (JNum (parseFloat (maxPrice f)))) q in
  q.

(** The [orderBy] chain of [fetchFlats]. *)
Definition orderConstraint (f : Filters) : QueryConstraint :=
  if String.eqb (sortBy f) "price-asc" then OrderBy "price" "asc"
  else if String.eqb (sortBy f) "price-desc" then OrderBy "price" "desc"
  else if String.eqb (sortBy f) "area-asc" then OrderBy "area" "asc"
  else if String.eqb (sortBy f) "area-desc" then OrderBy "area" "desc"
  else OrderBy "price" "desc".

(** The end of the query: ordering, the cursor when one is held, and
    the page size. *)
Definition orderAndPage (f : Filters) (cursor : option DocSnap) (q : Query) : Query :=
  let q := query q (orderConstraint f) in
  let q := match cursor with
           | Some d => query q (StartAfter d)
           | None => q
           end in
  query q (Limit CONFIG.flatsPerPage).

(** The query [fetchFlats] builds from the filters, the favourites and
    the cursor; [None] is the early [return] taken when only
    favourites are asked for and there is none.  Building a constraint
    is taken not to throw: a query the store refuses is refused by
    [getDocs]. *)
Definition composeQuery (f : Filters) (favs : list string)
    (cursor : option DocSnap) : option Query :=
  let q := filterConstraints f (collection "flats") in
  if showFavorites f && (0 <? length favs)%nat then
    Some (orderAndPage f cursor (query q (Where DocumentId OpIn (JArr (JStr <$> favs)))))
  else if showFavorites f && (length favs =? 0)%nat then None
  else Some (orderAndPage f cursor q).

(** The guard at the head of [fetchFlats]: the container is looked up
    again when [elements.flatsList] is not set. *)
Definition locate_flatsList : Prog bool :=
  cached <- gets elements_flatsList ;;
  if cached then ret true
  else
    found <- gets document_flatsList ;;
    modify (set_elements_flatsList found) ;;
    ret found.

(** [await getDocs(q)]: one request to the store. *)
Definition await_getDocs (q : Query) : Prog (list DocSnap) :=
  modify (fun w => set_requests (requests w ++ [q]) w) ;;
  match getDocs q with
  | Some docs => ret docs
  | None => throw StoreError
  end.

(** [elements.flatsList.appendChild(createFlatCard(flat))]. *)
Definition appendCard (flat : gmap string JsValue) : Prog unit :=
  card <- createFlatCard flat ;;
  modify (fun w => set_flatsList (flatsList w ++ [FlatCard card]) w).

Definition showNoFlatsMessage (text : string) : Prog unit :=
  modify (set_noFlatsMessage_hidden false) ;;
  modify (set_noFlatsMessage_text text).

(** What [fetchFlats] does with the documents of the page it was
    sent. *)
Definition showPage (reset : bool) (docs : list DocSnap) : Prog unit :=
  let fetchedFlats := flat_of_doc <$> docs in
  if (0 <? length fetchedFlats)%nat then
    modify (fun w => set_allFlatsData (allFlatsData w ++ fetchedFlats) w) ;;
    modify (set_flatsList []) ;;
    forEach fetchedFlats appendCard ;;
    modify (set_lastVisibleFlat (last docs)) ;;
    modify (fun w =>
      set_displayedFlatsCount (displayedFlatsCount w + length fetchedFlats) w) ;;
    modify (set_loadMoreBtn_hidden
      (negb (length fetchedFlats =? CONFIG.flatsPerPage)%nat)) ;;
    modify (set_noFlatsMessage_hidden true)
  else
    modify (set_flatsList []) ;;
    (if reset then
       showNoFlatsMessage "No apartments found matching your criteria."
     else showToast "No more apartments to load." "info") ;;
    modify (set_loadMoreBtn_hidden true).

(** The [try] block of [fetchFlats]. *)
Definition fetchAttempt (reset : bool) : Prog unit :=
  f <- gets currentFilters ;;
  favs <- gets favorites ;;
  cursor <- gets lastVisibleFlat ;;
  match composeQuery f favs cursor with
  | None =>
      hideSkeletons ;;
      modify (set_flatsList []) ;;
      showNoFlatsMessage "No favorite apartments found." ;;
      modify (set_loadMoreBtn_hidden true)
  | Some q =>
      docs <- await_getDocs q ;;
      showPage reset docs
  end.

(** Its [catch] block. *)
Definition fetchFailed : Prog unit :=
  showToast "Error loading apartments." "error" ;;
  modify (set_flatsList []) ;;
  showNoFlatsMessage "Error loading apartments.".

(** [fetchFlats(reset)], run from its call to the end of what follows
    its one [await].  [updateFavoriteIconsInDisplay], which restyles
    the heart icons, and the console output are left out. *)
Definition fetchFlats (reset : bool) : Prog unit :=
  found <- locate_flatsList ;;
  if negb found then
    showToast "Error: Apartment display area not found. Please refresh the page." "error"
  else
    showSkeletons CONFIG.skeletonCount ;;
    (if reset then modify resetPagination else ret tt) ;;
    try_catch (fetchAttempt reset) (fun _ => fetchFailed).

(** ** Event handlers *)

Definition applyControls (c : FilterControls) (f : Filters) : Filters :=
  {| offerType := offerTypeFilter c;
     flatType := flatTypeFilter c;
     minPrice := minPriceFilter c;
     maxPrice := maxPriceFilter c;
     sortBy := sortByFilter c;
     searchTerm := searchTerm f;
     showFavorites := favoriteToggleButton c |}.

(** [handleApplyFilters()]; [None] stands for a page that lacks one of
    the six controls. *)
Definition handleApplyFilters (controls : option FilterControls) : Prog unit :=
  match controls with
  | None => showToast "Error: Filter controls are missing." "error"
  | Some c =>
      modify (fun w => set_currentFilters (applyControls c (currentFilters w)) w) ;;
      not_awaited (fetchFlats true)
  end.

Definition handleLoadMore : Prog unit := not_awaited (fetchFlats false).

(** [handleCurrencyChange()], for the value of the currency switcher. *)
Definition handleCurrencyChange (currency : string) : Prog unit :=
  modify (set_currentCurrency currency) ;;
  modify (set_flatsList []) ;;
  flats <- gets allFlatsData ;;
  forEach flats appendCard.

(** ** Favourites *)

(** [await getDoc(doc(db, "users", uid))]: the favourites of the user's
    record, [None] when there is no record. *)
Definition await_getDoc (uid : string) : Prog (option (list string)) :=
  if getDoc_fails uid then throw StoreError
  else gets (fun w => users w !! uid).

(** [await setDoc(userDocRef, { favorites }, { merge: true })]. *)
Definition await_setDoc (uid : string) (favs : list string) : Prog unit :=
  if setDoc_fails uid then throw StoreError
  else modify (fun w => set_users (<[uid := favs]> (users w)) w).

(** [list.splice(list.indexOf(x), 1)] for an [x] that occurs. *)
Fixpoint remove_first (x : string) (l : list string) : list string :=
  match l with
  | [] => []
  | y :: l' => if String.eqb y x then l' else y :: remove_first x l'
  end.

Definition includes (l : list string) (x : string) : bool :=
  existsb (String.eqb x) l.

(** [toggleFavorite(flatId, buttonElement)]. *)
Definition toggleFavorite (flatId : string) : Prog unit :=
  user <- gets currentUser ;;
  match user with
  | None => showToast "Please log in to manage favorites." "info"
  | Some uid =>
      try_catch
        (record <- await_getDoc uid ;;
         let userFavorites := default [] record in
         userFavorites <-
           (if includes userFavorites flatId then
              modify (fun w =>
                set_favorites (List.filter (fun id => negb (String.eqb id flatId)) (favorites w)) w) ;;
              showToast "Removed from favorites." "info" ;;
              ret (remove_first flatId userFavorites)
            else
              modify (fun w => set_favorites (favorites w ++ [flatId]) w) ;;
              showToast "Added to favorites!" "success" ;;
              ret (userFavorites ++ [flatId])) ;;
         await_setDoc uid userFavorites ;;
         modify (fun w => set_localStorage_favorites (Some (favorites w)) w) ;;
         f <- gets currentFilters ;;
         if showFavorites f then not_awaited (fetchFlats true) else ret tt)
        (fun _ => showToast "Error updating favorites. Please try again." "error")
  end.

Definition forgetFavorites : Prog unit :=
  modify (set_favorites []) ;;
  modify (set_localStorage_favorites None).

(** [loadFavorites(uid)]. *)
Definition loadFavorites (uid : string) : Prog unit :=
  try_catch
    (record <- await_getDoc uid ;;
     match record with
     | Some favs =>
         modify (set_favorites favs) ;;
         modify (set_localStorage_favorites (Some favs))
     | None => forgetFavorites
     end)
    (fun _ =>
       forgetFavorites ;;
       showToast "Error loading your favorites." "error").

(** The callback that [initialize] hands to [onAuthStateChanged], for
    the user the auth provider reports (uid and e-mail), [None] once
    nobody is signed in.  [loadFavorites] is called first but waits
    for its [getDoc]; what follows that [await] runs after the rest of
    the callback, in which [fetchFlats] composes its query.  The
    changes of visibility of the account links, [fetchApartmentDetails]
    and [displayRecentlyViewed] are left out. *)
Definition authStateChanged (user : option (string * string)) : Prog unit :=
  modify (set_currentUser (fst <$> user)) ;;
  match user with
  | Some (uid, email) =>
      showToast (String.append "Welcome back, " (String.append email "!")) "success" ;;
      not_awaited (fetchFlats true) ;;
      not_awaited (loadFavorites uid)
  | None =>
      forgetFavorites ;;
      not_awaited (fetchFlats true)
  end.

End Script.

(** ** What is observed of a fetch *)

Section Observations.

Context {R : JsRuntime} {S : Store}.

(** The container of the list can be found. *)
Definition flatsList_available (w : World) : bool :=
  elements_flatsList w || document_flatsList w.

(** The query that [fetchFlats(reset)] composes in world [w]: a reset
    drops the cursor first. *)
Definition fetchQuery (reset : bool) (w : World) : option Query :=
  composeQuery (currentFilters w) (favorites w)
    (if reset then None else lastVisibleFlat w).

(** [createFlatCard(flat)] returns a card. *)
Definition renders (w : World) (flat : gmap string JsValue) : bool :=
  match outcome (createFlatCard flat) w with
  | Returned _ => true
  | Threw _ => false
  end.

(** The page of a successful [fetchFlats(reset)]: the store answered
    the query and the [try] block ran to its end.  [None] when the
    fetch sends no query or ends in the [catch] block. *)
Definition fetchedPage (reset : bool) (w : World) : option (list DocSnap) :=
  if flatsList_available w then
    match fetchQuery reset w with
    | Some q =>
        match getDocs q with
        | Some docs =>
            if forallb (fun d => renders w (flat_of_doc d)) docs then Some docs else None
        | None => None
        end
    | None => None
    end
  else None.

(** [fetchFlats(reset)] sends a query that the store rejects. *)
Definition fetchRejected (reset : bool) (w : World) : bool :=
  flatsList_available w &&
  match fetchQuery reset w with
  | Some q => bool_decide (getDocs q = None)
  | None => false
  end.

(** The text shown for a price in a currency: the stored price times
    the currency's rate, formatted. *)
Definition priceText (currency : string) (price : JsValue) : option string :=
  NumberFormat_format currency (js_times price (exchangeRate currency)).

End Observations.

(** A flat satisfies the active filters: the offer type and the flat
    type when they are not [all], the price bounds when they are given. *)
Definition satisfies_filters (f : Filters) (flat : gmap string JsValue) : Prop :=
  (offerType f <> "all" -> prop flat "offerType" = JStr (offerType f)) /\
  (flatType f <> "all" -> prop flat "type" = JStr (flatType f)) /\
  (minPrice f <> "" ->
     exists price, prop flat "price" = JNum price /\
                   num_le (parseFloat (minPrice f)) price = true) /\
  (maxPrice f <> "" ->
     exists price, prop flat "price" = JNum price /\
                   num_le price (parseFloat (maxPrice f)) = true).

Definition is_price_bound (c : QueryConstraint) : bool :=
  match c with
  | Where (FieldName name) (OpGe | OpLe) _ => String.eqb name "price"
  | _ => false
  end.

(** The price predicates of a query, in order. *)
Definition priceBounds (q : Query) : list QueryConstraint :=
  List.filter is_price_bound (constraints q).

(** A JSON text that begins with a bracket denotes an array. *)
Definition JSON_arrays (R : JsRuntime) : Prop :=
  forall s v, startsWith s "[" = true -> JSON_parse s = Some v ->
    exists items, v = JArr items.

(** ** The REST relay ([index.js]) *)

Module Relay.

(** [req.query] of [GET /api/flats]: each parameter as the text given
    for it in the URL, or absent. *)
Record FlatsRequest : Type := {
  query_offerType : option string;
  query_flatType : option string;
  query_minPrice : option string;
  query_maxPrice : option string;
  query_sortBy : option string
}.

(** The calls on the Admin SDK's query, in order. *)
Inductive Clause : Type :=
| where_ (field op : string) (value : JsValue)
| orderBy (field direction : JsValue).

(** [const [field, direction] = parts]. *)
Definition destructure2 (parts : list JsValue) : JsValue * JsValue :=
  (nth 0 parts JUndefined, nth 1 parts JUndefined).

(** [sortBy.includes('-') ? sortBy.split('-') : [sortBy, 'asc']]. *)
Definition fieldAndDirection (sortBy : string) : JsValue * JsValue :=
  destructure2
    (if includes_char sortBy "-" then JStr <$> split_char "-" sortBy
     else [JStr sortBy; JStr "asc"]).

(** The query that the handler builds before [query.get()]. *)
Definition flatsQuery (r : FlatsRequest) : list Clause :=
  let query := [] in
  let query :=
    match query_offerType r with
    | Some offerType =>
        if truthy (JStr offerType) && negb (String.eqb offerType "all")
        then query ++ [where_ "offerType" "==" (JStr offerType)] else query
    | None => query
    end in
  let query :=
    match query_flatType r with
    | Some flatType =>
        if truthy (JStr flatType) && negb (String.eqb flatType "all")
        then query ++ [where_ "type" "==" (JStr flatType)] else query
    | None => query
    end in
  let query :=
    match query_minPrice r with
    | Some minPrice =>
        if truthy (JStr minPrice)
        then query ++ [where_ "price" ">=" (JNum (parseFloat minPrice))] else query
    | None => query
    end in
  let query :=
    match query_maxPrice r with
    | Some maxPrice =>
        if truthy (JStr maxPrice)
        then query ++ [where_ "price" "<=" (JNum (parseFloat maxPrice))] else query
    | None => query
    end in
  let query :=
    match query_sortBy r with
    | Some sortBy =>
        if truthy (JStr sortBy)
        then let '(field, direction) := fieldAndDirection sortBy in
             query ++ [orderBy field direction]
        else query
    | None => query
    end in
  query.

(** The ordering clauses of a query. *)
Definition orderings (query : list Clause) : list (JsValue * JsValue) :=
  omap (fun c => match c with
                 | orderBy field direction => Some (field, direction)
                 | where_ _ _ _ => None
                 end) query.

End Relay.

(** The [where] constraints on the fields of a flat that the filters
    call for, in the order in which [fetchFlats] adds them. *)
Definition fieldFilters (f : Filters) : list QueryConstraint :=
  (if negb (String.eqb (offerType f) "all")
   then [Where (FieldName "offerType") OpEq (JStr (offerType f))] else []) ++
  (if negb (String.eqb (flatType f) "all")
   then [Where (FieldName "type") OpEq (JStr (flatType f))] else []) ++
  (if negb (String.eqb (minPrice f) "")
   then [Where (FieldName "price") OpGe (JNum (parseFloat (minPrice f)))] else []) ++
  (if negb (String.eqb (maxPrice f) "")
   then [Where (FieldName "price") OpLe (JNum (parseFloat (maxPrice f)))] else []).

(** The world when the script has been loaded into a page that has the
    list container: the initial values of the global variables, for the
    favourites that local storage holds and the records of the store. *)
Definition initialWorld (stored : option (list string))
    (records : gmap string (list string)) : World :=
  {| allFlatsData := [];
     displayedFlatsCount := 0;
     lastVisibleFlat := None;
     favorites := default [] stored;
     currentCurrency := "USD";
     currentFilters :=
       {| offerType := "all"; flatType := "all"; minPrice := ""; maxPrice := "";
          sortBy := "price-desc"; searchTerm := ""; showFavorites := false |};
     elements_flatsList := false;
     document_flatsList := true;
     flatsList := [];
     loadMoreBtn_hidden := true;
     noFlatsMessage_hidden := true;
     noFlatsMessage_text := "";
     toasts := [];
     localStorage_favorites := stored;
     currentUser := None;
     users := records;
     requests := [] |}.

(** ** What the store promises

    [matches d c]: document [d] satisfies constraint [c] of a query.
    Equality compares the stored value with the operand; a range filter
    holds for a stored number on the right side of the bound; [in] on
    the document id looks the id up in the operand.  Ordering, cursor
    and page size select among the matching documents and exclude none
    by themselves. *)
Definition matches (d : DocSnap) (c : QueryConstraint) : bool :=
  match c with
  | Where (FieldName name) OpEq v =>
      match doc_data d !! name with
      | Some x => strict_eq x v
      | None => false
      end
  | Where (FieldName name) OpGe (JNum bound) =>
      match doc_data d !! name with
      | Some (JNum x) => num_le bound x
      | _ => false
      end
  | Where (FieldName name) OpLe (JNum bound) =>
      match doc_data d !! name with
      | Some (JNum x) => num_le x bound
      | _ => false
      end
  | Where DocumentId OpIn (JArr ids) => existsb (strict_eq (JStr (doc_id d))) ids
  | Where _ _ _ => false
  | OrderBy _ _ | StartAfter _ | Limit _ => true
  end.

(** A store honours its queries when every document of every page it
    returns satisfies every constraint of the query. *)
Definition honours_queries (S : Store) : Prop :=
  forall q docs, getDocs q = Some docs ->
    forall d, In d docs -> forall c, In c (constraints q) -> matches d c = true.

(** ** A reference engine and a reference store

    Executable instances of the two interfaces, on which the examples
    below run.  The engine reads JSON without [\u] escapes, multiplies
    numbers exactly and prints a price as its currency code and the
    nearest integer.  The store keeps one collection in memory and
    answers a query the way Firestore documents it. *)

Module Reference.

Definition quote : ascii := "034"%char.
Definition backslash : ascii := "092"%char.

Definition json_white_space (c : ascii) : bool :=
  match N_of_ascii c with
  | 9%N | 10%N | 13%N | 32%N => true
  | _ => false
  end.

Fixpoint skip_ws (s : string) : string :=
  match s with
  | String c s' => if json_white_space c then skip_ws s' else s
  | EmptyString => s
  end.

Fixpoint drop_chars (n : nat) (s : string) : string :=
  match n, s with
  | S n', String _ s' => drop_chars n' s'
  | _, _ => s
  end.

Definition unescape (c : ascii) : option ascii :=
  if Ascii.eqb c quote then Some quote
  else if Ascii.eqb c backslash then Some backslash
  else if Ascii.eqb c "/" then Some "/"%char
  else if Ascii.eqb c "b" then Some "008"%char
  else if Ascii.eqb c "f" then Some "012"%char
  else if Ascii.eqb c "n" then Some "010"%char
  else if Ascii.eqb c "r" then Some "013"%char
  else if Ascii.eqb c "t" then Some "009"%char
  else None.

(** The characters of a string literal after its opening quote, and
    what follows the closing quote. *)
Fixpoint read_string (s : string) : option (string * string) :=
  match s with
  | EmptyString => None
  | String c s' =>
      if Ascii.eqb c quote then Some (EmptyString, s')
      else if Ascii.eqb c backslash then
        match s' with
        | String e s'' =>
            match unescape e, read_string s'' with
            | Some c', Some (text, rest) => Some (String c' text, rest)
            | _, _ => None
            end
        | EmptyString => None
        end
      else if (N_of_ascii c <? 32)%N then None
      else
        match read_string s' with
        | Some (text, rest) => Some (String c text, rest)
        | None => None
        end
  end.

(** The fraction of a JSON number: nothing, or a dot and at least one
    digit. *)
Definition read_fraction (s : string) : option (list Z * string) :=
  match s with
  | String "." s' =>
      match decimalDigits s' with
      | ([], _) => None
      | (ds, rest) => Some (ds, rest)
      end
  | _ => Some ([], s)
  end.

(** The exponent of a JSON number: nothing, or [e], an optional sign
    and at least one digit. *)
Definition read_exponent (s : string) : option (Z * string) :=
  match s with
  | String c s' =>
      if Ascii.eqb c "e" || Ascii.eqb c "E" then
        let '(sign, s'') :=
          match s' with
          | String "+" r => (1%Z, r)
          | String "-" r => ((-1)%Z, r)
          | _ => (1%Z, s')
          end in
        match decimalDigits s'' with
        | ([], _) => None
        | (ds, rest) => Some ((sign * digits_value ds)%Z, rest)
        end
      else Some (0%Z, s)
  | EmptyString => Some (0%Z, s)
  end.

(** A JSON number at the head of [s]. *)
Definition read_number (s : string) : option (number * string) :=
  let '(negative, s) :=
    match s with
    | String "-" s' => (true, s')
    | _ => (false, s)
    end in
  match decimalDigits s with
  | ([], _) => None
  | (d :: ds, rest) =>
      if (d =? 0)%Z && negb (length ds =? 0)%nat then None
      else
        match read_fraction rest with
        | Some (fs, rest') =>
            match read_exponent rest' with
            | Some (exponent, rest'') =>
                let value := decimal (d :: ds ++ fs) (exponent - Z.of_nat (length fs)) in
                Some (Finite (if negative then Qred (- value) else value), rest'')
            | None => None
            end
        | None => None
        end
  end.

Fixpoint read_value (fuel : nat) (s : string) : option (JsValue * string) :=
  match fuel with
  | O => None
  | S fuel =>
      match skip_ws s with
      | String "[" s' =>
          match skip_ws s' with
          | String "]" rest => Some (JArr [], rest)
          | _ =>
              match read_items fuel s' with
              | Some (items, rest) => Some (JArr items, rest)
              | None => None
              end
          end
      | String "{" s' =>
          match skip_ws s' with
          | String "}" rest => Some (JObj [], rest)
          | _ =>
              match read_members fuel s' with
              | Some (members, rest) => Some (JObj members, rest)
              | None => None
              end
          end
      | String c s' =>
          if Ascii.eqb c quote then
            match read_string s' with
            | Some (text, rest) => Some (JStr text, rest)
            | None => None
            end
          else if String.prefix "null" (String c s') then
            Some (JNull, drop_chars 4 (String c s'))
          else if String.prefix "true" (String c s') then
            Some (JBool true, drop_chars 4 (String c s'))
          else if String.prefix "false" (String c s') then
            Some (JBool false, drop_chars 5 (String c s'))
          else
            match read_number (String c s') with
            | Some (n, rest) => Some (JNum n, rest)
            | None => None
            end
      | EmptyString => None
      end
  end
with read_items (fuel : nat) (s : string) : option (list JsValue * string) :=
  match fuel with
  | O => None
  | S fuel =>
      match read_value fuel s with
      | Some (item, rest) =>
          match skip_ws rest with
          | String "]" rest' => Some ([item], rest')
          | String "," rest' =>
              match read_items fuel rest' with
              | Some (items, rest'') => Some (item :: items, rest'')
              | None => None
              end
          | _ => None
          end
      | None => None
      end
  end
with read_members (fuel : nat) (s : string)
    : option (list (string * JsValue) * string) :=
  match fuel with
  | O => None
  | S fuel =>
      match skip_ws s with
      | String c s' =>
          if Ascii.eqb c quote then
            match read_string s' with
            | Some (key, rest) =>
                match skip_ws rest with
                | String ":" rest' =>
                    match read_value fuel rest' with
                    | Some (value, rest'') =>
                        match skip_ws rest'' with
                        | String "}" rest3 => Some ([(key, value)], rest3)
                        | String "," rest3 =>
                            match read_members fuel rest3 with
                            | Some (members, rest4) => Some ((key, value) :: members, rest4)
                            | None => None
                            end
                        | _ => None
                        end
                    | None => None
                    end
                | _ => None
                end
            | None => None
            end
          else None
      | EmptyString => None
      end
  end.

Definition parse (s : string) : option JsValue :=
  match read_value (2 * String.length s + 2) s with
  | Some (v, rest) =>
      match skip_ws rest with
      | EmptyString => Some v
      | _ => None
      end
  | None => None
  end.

(** *** The engine *)

Definition num_mul (a b : number) : number :=
  match a, b with
  | NaN, _ | _, NaN => NaN
  | Finite x, Finite y => Finite (Qred (x * y))
  | Infinity s, Infinity t => Infinity (xorb s t)
  | Infinity s, Finite y | Finite y, Infinity s =>
      if Qeq_bool y 0 then NaN else Infinity (xorb s (negb (Qle_bool 0 y)))
  end.

(** ToNumber, for the operands that need no parsing. *)
Definition toNumber (v : JsValue) : number :=
  match v with
  | JNum n => n
  | JNull => Finite 0
  | JBool b => Finite (if b then 1 else 0)
  | _ => NaN
  end.

Definition times (a b : JsValue) : JsValue := JNum (num_mul (toNumber a) (toNumber b)).

Definition is_letter (c : ascii) : bool :=
  let n := N_of_ascii c in
  ((65 <=? n) && (n <=? 90) || (97 <=? n) && (n <=? 122))%N.

Definition well_formed_currency (code : string) : bool :=
  match code with
  | String a (String b (String c EmptyString)) => is_letter a && is_letter b && is_letter c
  | _ => false
  end.

(** The integer nearest to [q], halves away from zero. *)
Definition round (q : Q) : Z :=
  if Qle_bool 0 q then Qfloor (q + (1 # 2)) else (- Qfloor (- q + (1 # 2)))%Z.

Definition format (currency : string) (v : JsValue) : option string :=
  if well_formed_currency currency then
    Some (String.append currency
            (String.append " "
               match toNumber v with
               | NaN => "NaN"
               | Infinity false => "Infinity"
               | Infinity true => "-Infinity"
               | Finite q => NilZero.string_of_int (Z.to_int (round q))
               end))
  else None.

#[export] Instance engine : JsRuntime :=
  {| JSON_parse := parse; js_times := times; NumberFormat_format := format |}.

(** *** The store *)

Definition sort_key (field : string) (d : DocSnap) : option number :=
  match doc_data d !! field with
  | Some (JNum n) => Some n
  | _ => None
  end.

Definition before (field direction : string) (a b : DocSnap) : bool :=
  match sort_key field a, sort_key field b with
  | Some x, Some y => if String.eqb direction "desc" then num_le y x else num_le x y
  | _, _ => true
  end.

Fixpoint insert_sorted (field direction : string) (d : DocSnap) (l : list DocSnap)
    : list DocSnap :=
  match l with
  | [] => [d]
  | d' :: l' =>
      if before field direction d d' then d :: l
      else d' :: insert_sorted field direction d l'
  end.

(** Ordering keeps the documents that have the field (as a number
    here) and sorts them; documents with equal keys keep their order. *)
Definition order (field direction : string) (l : list DocSnap) : list DocSnap :=
  foldr (insert_sorted field direction) []
    (List.filter (fun d => bool_decide (is_Some (sort_key field d))) l).

(** The documents after the one the cursor points to. *)
Fixpoint after_cursor (cursor : DocSnap) (l : list DocSnap) : list DocSnap :=
  match l with
  | [] => []
  | d :: l' => if String.eqb (doc_id d) (doc_id cursor) then l' else after_cursor cursor l'
  end.

Definition apply_constraint (c : QueryConstraint) (l : list DocSnap) : list DocSnap :=
  match c with
  | Where _ _ _ => List.filter (fun d => matches d c) l
  | OrderBy field direction => order field direction l
  | StartAfter cursor => after_cursor cursor l
  | Limit n => take n l
  end.

Definition answer (docs : list DocSnap) (q : Query) : list DocSnap :=
  fold_left (fun l c => apply_constraint c l) (constraints q) docs.

(** A store that holds [docs] in the collection [flats]; it rejects
    every call while [online] is false. *)
Definition store (docs : list DocSnap) (online : bool) : Store :=
  {| getDocs q := if online then Some (answer docs q) else None;
     getDoc_fails _ := negb online;
     setDoc_fails _ := negb online |}.

(** *** Sample data *)

Definition flat (id offer type : string) (price area : Q) : DocSnap :=
  {| doc_id := id;
     doc_data := {[ "offerType" := JStr offer; "type" := JStr type;
                    "price" := JNum (Finite price); "area" := JNum (Finite area) ]} |}.

(** Six flats to rent and two for sale. *)
Definition flats : list DocSnap :=
  [ flat "f1" "rent" "studio" 900 30; flat "f2" "rent" "1BR" 1200 45;
    flat "f3" "sale" "2BR" 250000 80; flat "f4" "rent" "2BR" 1800 75;
    flat "f5" "rent" "studio" 1000 32; flat "f6" "rent" "1BR" 1500 50;
    flat "f7" "sale" "1BR" 180000 48; flat "f8" "rent" "2BR" 2000 85 ].

Definition controls (offer type min max sort : string) (favs : bool) : FilterControls :=
  {| offerTypeFilter := offer; flatTypeFilter := type; minPriceFilter := min;
     maxPriceFilter := max; sortByFilter := sort; favoriteToggleButton := favs |}.

(** The page just loaded, nobody signed in, nothing stored. *)
Definition loaded : World := initialWorld None ∅.

(** The store with the sample flats, reachable or not. *)
Definition online : Store := store flats true.
Definition offline : Store := store flats false.

(** The page after the flats to rent have been asked for, dearest
    first: the six of them fill the page. *)
Definition rentals : World :=
  exec (handleApplyFilters (R := engine) (S := online)
          (Some (controls "rent" "all" "" "" "price-desc" false))) loaded.

(** The page with the favourites switch on and no favourite. *)
Definition only_favorites : World :=
  set_currentFilters
    (applyControls (controls "all" "all" "" "" "price-desc" true) (currentFilters loaded))
    loaded.

(** Ann signs in; her record holds one favourite. *)
Definition ann_signed_in : World :=
  exec (authStateChanged (R := engine) (S := online) (Some ("u1", "ann@example.com")))
    (initialWorld None {[ "u1" := ["f2"] ]}).

(** The prices on the cards of the list. *)
Definition shown_prices (w : World) : list string :=
  card_price <$>
    omap (fun n => match n with FlatCard c => Some c | SkeletonCard => None end)
      (flatsList w).

(** A text in double quotes. *)
Definition quoted (s : string) : string :=
  String quote (String.append s (String quote EmptyString)).

(** The text [["gym","pool"]] with its quotes. *)
Definition serialized_amenities : string :=
  String.append "[" (String.append (quoted "gym")
    (String.append "," (String.append (quoted "pool") "]"))).

End Reference.

From Stdlib Require Import Sorted Lqa.

(** ** More of the script: query shape, lightbox, recently viewed,
    forms *)

(** The place of a constraint in a query: equality filters come before
    range filters, these before the membership filter, then the
    ordering, the cursor and the page size. *)
Definition constraint_rank (c : QueryConstraint) : nat :=
  match c with
  | Where _ OpEq _ => 0
  | Where _ (OpGe | OpLe) _ => 1
  | Where _ OpIn _ => 2
  | OrderBy _ _ => 3
  | StartAfter _ => 4
  | Limit _ => 5
  end.

Definition with_searchTerm (text : string) (f : Filters) : Filters :=
  {| offerType := offerType f; flatType := flatType f; minPrice := minPrice f;
     maxPrice := maxPrice f; sortBy := sortBy f; searchTerm := text;
     showFavorites := showFavorites f |}.

(** *** The lightbox *)

(** Which of the lightbox's elements [initializeElements] found. *)
Record LightboxElements : Type := {
  lightboxModal : bool;
  lightboxImage : bool;
  lightboxPrevBtn : bool;
  lightboxNextBtn : bool
}.

(** The two lightbox variables and what the lightbox functions write on
    the page.  The images are the array handed to [openLightbox]. *)
Record Lightbox : Type := {
  currentLightboxImages : list JsValue;
  currentLightboxIndex : Z;
  lightboxImage_src : JsValue;
  lightboxModal_hidden : bool;
  lightboxModal_active : bool;
  lightboxPrevBtn_hidden : bool;
  lightboxNextBtn_hidden : bool;
  body_overflow_hidden : bool
}.

(** [array[index]]: [undefined] outside the array. *)
Definition element_at (l : list JsValue) (index : Z) : JsValue :=
  if (index <? 0)%Z then JUndefined else nth (Z.to_nat index) l JUndefined.

(** [updateLightboxNavButtons()]. *)
Definition updateLightboxNavButtons (els : LightboxElements) (lb : Lightbox) : Lightbox :=
  if negb (lightboxPrevBtn els) || negb (lightboxNextBtn els) then lb
  else
    {| currentLightboxImages := currentLightboxImages lb;
       currentLightboxIndex := currentLightboxIndex lb;
       lightboxImage_src := lightboxImage_src lb;
       lightboxModal_hidden := lightboxModal_hidden lb;
       lightboxModal_active := lightboxModal_active lb;
       lightboxPrevBtn_hidden := (currentLightboxIndex lb =? 0)%Z;
       lightboxNextBtn_hidden :=
         (currentLightboxIndex lb =? Z.of_nat (length (currentLightboxImages lb)) - 1)%Z;
       body_overflow_hidden := body_overflow_hidden lb |}.

(** [openLightbox(imageUrls, startIndex)]: on a page without the modal
    or the image it only shows a toast. *)
Definition openLightbox (els : LightboxElements) (imageUrls : list JsValue)
    (startIndex : Z) (w : World) (lb : Lightbox) : World * Lightbox :=
  if negb (lightboxModal els) || negb (lightboxImage els) then
    (exec (showToast "Lightbox not available." "error") w, lb)
  else
    (w,
     updateLightboxNavButtons els
       {| currentLightboxImages := imageUrls;
          currentLightboxIndex := startIndex;
          lightboxImage_src := element_at imageUrls startIndex;
          lightboxModal_hidden := false;
          lightboxModal_active := true;
          lightboxPrevBtn_hidden := lightboxPrevBtn_hidden lb;
          lightboxNextBtn_hidden := lightboxNextBtn_hidden lb;
          body_overflow_hidden := true |}).

(** [navigateLightbox(direction)]: the index is moved and brought back
    between the first and the last image; writing the source of an
    image element that the page lacks is a [TypeError]. *)
Definition navigateLightbox (els : LightboxElements) (direction : Z)
    (lb : Lightbox) : Outcome unit * Lightbox :=
  let count := Z.of_nat (length (currentLightboxImages lb)) in
  let index := (currentLightboxIndex lb + direction)%Z in
  let index := if (index <? 0)%Z then 0%Z
               else if (index >=? count)%Z then (count - 1)%Z
               else index in
  let moved :=
    {| currentLightboxImages := currentLightboxImages lb;
       currentLightboxIndex := index;
       lightboxImage_src := lightboxImage_src lb;
       lightboxModal_hidden := lightboxModal_hidden lb;
       lightboxModal_active := lightboxModal_active lb;
       lightboxPrevBtn_hidden := lightboxPrevBtn_hidden lb;
       lightboxNextBtn_hidden := lightboxNextBtn_hidden lb;
       body_overflow_hidden := body_overflow_hidden lb |} in
  if lightboxImage els then
    (Returned tt,
     updateLightboxNavButtons els
       {| currentLightboxImages := currentLightboxImages lb;
          currentLightboxIndex := index;
          lightboxImage_src := element_at (currentLightboxImages lb) index;
          lightboxModal_hidden := lightboxModal_hidden lb;
          lightboxModal_active := lightboxModal_active lb;
          lightboxPrevBtn_hidden := lightboxPrevBtn_hidden lb;
          lightboxNextBtn_hidden := lightboxNextBtn_hidden lb;
          body_overflow_hidden := body_overflow_hidden lb |})
  else (Threw TypeError, moved).

(** [closeLightbox()]. *)
Definition closeLightbox (els : LightboxElements) (lb : Lightbox) : Outcome unit * Lightbox :=
  if lightboxModal els then
    (Returned tt,
     {| currentLightboxImages := currentLightboxImages lb;
        currentLightboxIndex := currentLightboxIndex lb;
        lightboxImage_src := lightboxImage_src lb;
        lightboxModal_hidden := true;
        lightboxModal_active := false;
        lightboxPrevBtn_hidden := lightboxPrevBtn_hidden lb;
        lightboxNextBtn_hidden := lightboxNextBtn_hidden lb;
        body_overflow_hidden := false |})
  else (Threw TypeError, lb).

(** Clicks on the previous and next buttons, one after the other; a
    click whose handler throws leaves the later clicks their turn. *)
Fixpoint navigations (els : LightboxElements) (directions : list Z) (lb : Lightbox)
    : Lightbox :=
  match directions with
  | [] => lb
  | d :: ds => navigations els ds (snd (navigateLightbox els d lb))
  end.

(** *** Recently viewed flats *)

Definition recentlyViewedLimit : nat := 3.

(** A child of the recently-viewed container. *)
Inductive RecentNode : Type :=
| NoRecentMessage
| RecentCard (card : Card).

(** The [recentlyViewed] variable, its copy in local storage and the
    children of the container. *)
Record Viewed : Type := {
  recentlyViewed : list (gmap string JsValue);
  localStorage_recentlyViewed : option (list (gmap string JsValue));
  recentlyViewedList : list RecentNode
}.

Section RecentlyViewed.

Context {R : JsRuntime}.

(** [recentlyViewed.forEach(flat => list.appendChild(createFlatCard(flat)))];
    making a card leaves the world as it is. *)
Fixpoint appendRecentCards (w : World) (flats : list (gmap string JsValue)) (v : Viewed)
    : Outcome unit * Viewed :=
  match flats with
  | [] => (Returned tt, v)
  | flat :: flats' =>
      match outcome (createFlatCard flat) w with
      | Returned card =>
          appendRecentCards w flats'
            {| recentlyViewed := recentlyViewed v;
               localStorage_recentlyViewed := localStorage_recentlyViewed v;
               recentlyViewedList := recentlyViewedList v ++ [RecentCard card] |}
      | Threw e => (Threw e, v)
      end
  end.

(** [displayRecentlyViewed()], for a page that has the container or
    not. *)
Definition displayRecentlyViewed (has_list : bool) (w : World) (v : Viewed)
    : Outcome unit * Viewed :=
  if negb has_list then (Returned tt, v)
  else if (length (recentlyViewed v) =? 0)%nat then
    (Returned tt,
     {| recentlyViewed := recentlyViewed v;
        localStorage_recentlyViewed := localStorage_recentlyViewed v;
        recentlyViewedList := [NoRecentMessage] |})
  else
    let kept := List.filter (fun flat => truthy (prop flat "id")) (recentlyViewed v) in
    appendRecentCards w kept
      {| recentlyViewed := kept;
         localStorage_recentlyViewed := localStorage_recentlyViewed v;
         recentlyViewedList := [] |}.

(** What [addToRecentlyViewed(flat)] makes of the list before it stores
    and shows it. *)
Definition withRecent (flat : gmap string JsValue) (l : list (gmap string JsValue))
    : list (gmap string JsValue) :=
  let l := List.filter (fun item => negb (strict_eq (prop item "id") (prop flat "id"))) l in
  let l := flat :: l in
  if (recentlyViewedLimit <? length l)%nat then take recentlyViewedLimit l else l.

(** [addToRecentlyViewed(flat)], local storage taking the write. *)
Definition addToRecentlyViewed (has_list : bool) (flat : gmap string JsValue)
    (w : World) (v : Viewed) : Outcome unit * Viewed :=
  let l := withRecent flat (recentlyViewed v) in
  displayRecentlyViewed has_list w
    {| recentlyViewed := l;
       localStorage_recentlyViewed := Some l;
       recentlyViewedList := recentlyViewedList v |}.

End RecentlyViewed.

(** No two flats of the list have the same id. *)
Definition distinct_ids (l : list (gmap string JsValue)) : Prop :=
  ForallOrdPairs (fun a b => strict_eq (prop a "id") (prop b "id") = false) l.

(** The favourites in memory are the cached list (none when nothing is
    cached). *)
Definition cache_mirrors_memory (w : World) : Prop :=
  favorites w = default [] (localStorage_favorites w).

(** *** Inquiries: the contact form and the relay *)

(** How an inquiry is dated: by the store ([serverTimestamp()], the
    relay) or by the browser ([new Date()], the form). *)
Inductive Stamp : Type := ServerTimestamp | ClientDate.

(** A document of the [inquiries] collection. *)
Record Inquiry : Type := {
  inquiry_name : JsValue;
  inquiry_email : JsValue;
  inquiry_message : JsValue;
  inquiry_timestamp : Stamp
}.

(** [object.key] for a value read from JSON: the last member of that
    name of an object, [undefined] on anything else that has
    properties. *)
Definition member (v : JsValue) (key : string) : JsValue :=
  match v with
  | JObj props =>
      default JUndefined
        (last (omap (fun p => if String.eqb (fst p) key then Some (snd p) else None) props))
  | _ => JUndefined
  end.

Module RelayApi.

(** What a handler answers: [res.status(...).json(...)]. *)
Inductive Body : Type :=
| FlatsBody (flats : list (gmap string JsValue))
| FlatBody (flat : gmap string JsValue)
| ErrorBody (error : string)
| MessageBody (message : string).

Record Response : Type := {
  status : nat;
  body : Body
}.

(** The Admin SDK as the handlers use it: [query.get()], the read of
    [flats/id] ([None] rejects, [Some None] is a document that does
    not exist) and whether [collection('inquiries').add] rejects. *)
Class AdminStore : Type := {
  query_get : list Relay.Clause -> option (list DocSnap);
  doc_get : string -> option (option DocSnap);
  add_fails : Inquiry -> bool
}.

Section Handlers.

Context {A : AdminStore}.

(** [GET /api/flats]. *)
Definition getFlats (r : Relay.FlatsRequest) : Response :=
  match query_get (Relay.flatsQuery r) with
  | Some docs => {| status := 200; body := FlatsBody (flat_of_doc <$> docs) |}
  | None => {| status := 500; body := ErrorBody "Failed to fetch apartments" |}
  end.

(** [GET /api/flats/:id]. *)
Definition getFlat (id : string) : Response :=
  match doc_get id with
  | Some (Some flatDoc) => {| status := 200; body := FlatBody (flat_of_doc flatDoc) |}
  | Some None => {| status := 404; body := ErrorBody "Apartment not found" |}
  | None => {| status := 500; body := ErrorBody "Failed to fetch apartment" |}
  end.

(** [POST /api/inquiries], for what the body parser left in [req.body]
    and the inquiries stored so far.  Destructuring [undefined] or
    [null] throws inside the [try]. *)
Definition postInquiry (req_body : JsValue) (stored : list Inquiry)
    : Response * list Inquiry :=
  let failed := {| status := 500; body := ErrorBody "Failed to submit inquiry" |} in
  match req_body with
  | JUndefined | JNull => (failed, stored)
  | _ =>
      let name := member req_body "name" in
      let email := member req_body "email" in
      let message := member req_body "message" in
      if negb (truthy name) || negb (truthy email) || negb (truthy message) then
        ({| status := 400; body := ErrorBody "All fields are required" |}, stored)
      else
        let inquiry := {| inquiry_name := name; inquiry_email := email;
                          inquiry_message := message;
                          inquiry_timestamp := ServerTimestamp |} in
        if add_fails inquiry then (failed, stored)
        else ({| status := 201; body := MessageBody "Inquiry submitted successfully" |},
              stored ++ [inquiry])
  end.

End Handlers.

End RelayApi.

(** The clause of the relay that says what a constraint of the browser's
    query says; the browser's favourites filter, cursor and page size
    have none. *)
Definition relay_clause (c : QueryConstraint) : option Relay.Clause :=
  match c with
  | Where (FieldName name) OpEq v => Some (Relay.where_ name "==" v)
  | Where (FieldName name) OpGe v => Some (Relay.where_ name ">=" v)
  | Where (FieldName name) OpLe v => Some (Relay.where_ name "<=" v)
  | OrderBy field direction => Some (Relay.orderBy (JStr field) (JStr direction))
  | _ => None
  end.

(** The request that carries the filters to the relay. *)
Definition request_of (f : Filters) : Relay.FlatsRequest :=
  {| Relay.query_offerType := Some (offerType f);
     Relay.query_flatType := Some (flatType f);
     Relay.query_minPrice := Some (minPrice f);
     Relay.query_maxPrice := Some (maxPrice f);
     Relay.query_sortBy := Some (sortBy f) |}.

(** The contact form: the three inputs and the message under them. *)
Record ContactForm : Type := {
  contactName : string;
  contactEmail : string;
  contactMessage : string;
  formMessage_text : string;
  formMessage_color : string
}.

(** [handleContactFormSubmit(event)] on a page that has the form, for
    the values the form's inputs take on [reset()], the answer of
    [addDoc] and the inquiries stored so far. *)
Definition handleContactFormSubmit (defaults : string * string * string)
    (addDoc_fails : Inquiry -> bool) (form : ContactForm) (stored : list Inquiry)
    (w : World) : ContactForm * list Inquiry * World :=
  let name := contactName form in
  let email := contactEmail form in
  let message := contactMessage form in
  let say text color :=
    {| contactName := contactName form; contactEmail := contactEmail form;
       contactMessage := contactMessage form;
       formMessage_text := text; formMessage_color := color |} in
  if negb (truthy (JStr name)) || negb (truthy (JStr email)) || negb (truthy (JStr message))
  then (say "Please fill in all fields." "red", stored, w)
  else
    let inquiry := {| inquiry_name := JStr name; inquiry_email := JStr email;
                      inquiry_message := JStr message; inquiry_timestamp := ClientDate |} in
    if addDoc_fails inquiry then
      (say "Failed to send message. Please try again." "red", stored,
       exec (showToast "Failed to send inquiry." "error") w)
    else
      ({| contactName := fst (fst defaults); contactEmail := snd (fst defaults);
          contactMessage := snd defaults;
          formMessage_text := "Your message has been sent!";
          formMessage_color := "green" |},
       stored ++ [inquiry],
       exec (showToast "Inquiry sent successfully!" "success") w).

(** *** The sign-in form *)

(** The call on the authentication provider. *)
Inductive AuthCall : Type :=
| signInWithEmailAndPassword (email password : string)
| createUserWithEmailAndPassword (email password : string).

(** Its answer: resolved, or rejected with an error of that [code] and
    [message]. *)
Inductive AuthAnswer : Type :=
| Resolved
| Rejected (code : JsValue) (message : string).

(** The [authMode] variable, the two inputs, the error line and the
    three labels that follow the mode. *)
Record AuthForm : Type := {
  authMode : string;
  authEmailInput : string;
  authPasswordInput : string;
  authErrorMessage_text : string;
  authErrorMessage_hidden : bool;
  authModeToggle_text : string;
  authSubmitBtn_text : string;
  toggleAuthModeLink_html : string
}.

Definition set_authError (text : string) (hidden : bool) (form : AuthForm) : AuthForm :=
  {| authMode := authMode form;
     authEmailInput := authEmailInput form;
     authPasswordInput := authPasswordInput form;
     authErrorMessage_text := text;
     authErrorMessage_hidden := hidden;
     authModeToggle_text := authModeToggle_text form;
     authSubmitBtn_text := authSubmitBtn_text form;
     toggleAuthModeLink_html := toggleAuthModeLink_html form |}.

(** The message of the [catch] block of [handleAuth]. *)
Definition authFailureMessage (code : JsValue) (message : string) : string :=
  if truthy code then
    if strict_eq code (JStr "auth/invalid-email") then "Invalid email address format."
    else if strict_eq code (JStr "auth/user-disabled") then "Your account has been disabled."
    else if strict_eq code (JStr "auth/user-not-found")
            || strict_eq code (JStr "auth/wrong-password") then "Invalid email or password."
    else if strict_eq code (JStr "auth/email-already-in-use")
    then "This email is already registered."
    else if strict_eq code (JStr "auth/weak-password")
    then "Password should be at least 6 characters."
    else if strict_eq code (JStr "auth/too-many-requests")
    then "Too many failed login attempts. Please try again later."
    else String.append "Authentication failed: " message
  else "An unknown error occurred.".

(** [handleAuth(event)] on a page that has the form: the form and the
    world after it, and the calls it made on the provider. *)
Definition handleAuth (provider : AuthCall -> AuthAnswer) (form : AuthForm) (w : World)
    : AuthForm * list AuthCall * World :=
  let email := authEmailInput form in
  let password := authPasswordInput form in
  if negb (truthy (JStr email)) || negb (truthy (JStr password)) then
    (set_authError "Email and password are required." false form, [], w)
  else
    let call :=
      if String.eqb (authMode form) "login"
      then signInWithEmailAndPassword email password
      else createUserWithEmailAndPassword email password in
    match provider call with
    | Resolved =>
        (set_authError "" true form, [call],
         exec (showToast
                 (if String.eqb (authMode form) "login" then "Logged in successfully!"
                  else "Registration successful! Welcome!") "success") w)
    | Rejected code message =>
        let text := authFailureMessage code message in
        (set_authError text false form, [call], exec (showToast text "error") w)
    end.

(** [toggleAuthMode()]. *)
Definition toggleAuthMode (form : AuthForm) : AuthForm :=
  if String.eqb (authMode form) "login" then
    {| authMode := "register";
       authEmailInput := authEmailInput form;
       authPasswordInput := "";
       authErrorMessage_text := "";
       authErrorMessage_hidden := true;
       authModeToggle_text := "Register";
       authSubmitBtn_text := "Register";
       toggleAuthModeLink_html := "Already have an account? Login" |}
  else
    {| authMode := "login";
       authEmailInput := authEmailInput form;
       authPasswordInput := "";
       authErrorMessage_text := "";
       authErrorMessage_hidden := true;
       authModeToggle_text := "Login";
       authSubmitBtn_text := "Login";
       toggleAuthModeLink_html := "Don't have an account? Register" |}.

(** The labels say the mode. *)
Definition labels_follow_mode (form : AuthForm) : Prop :=
  (authMode form = "login" /\ authModeToggle_text form = "Login" /\
   authSubmitBtn_text form = "Login" /\
   toggleAuthModeLink_html form = "Don't have an account? Register") \/
  (authMode form = "register" /\ authModeToggle_text form = "Register" /\
   authSubmitBtn_text form = "Register" /\
   toggleAuthModeLink_html form = "Already have an account? Login").

(** *** The counter *)

(** [Math.min(a, b)] on rationals. *)
Definition Math_min (a b : Q) : Q := if Qle_bool a b then a else b.

(** [initCounter(element)]: the texts that the element shows, one for
    each animation frame that runs, for the number in [data-target] and
    the time stamps of the frames.  [startTime] is set by a frame that
    finds it [null] or zero; the frame that finds the progress complete
    writes the target over its own value and asks for no other frame.
    Numbers are rationals here, not doubles. *)
Fixpoint animateCount (target : Q) (startTime : option Q) (frames : list Q) : list Q :=
  match frames with
  | [] => []
  | currentTime :: later =>
      let startTime :=
        match startTime with
        | Some t => if Qeq_bool t 0 then currentTime else t
        | None => currentTime
        end in
      let progress := Math_min ((currentTime - startTime) / 2000) 1 in
      let value := inject_Z (Qfloor (progress * (target - 0) + 0)) in
      if negb (Qle_bool 1 progress) then value :: animateCount target (Some startTime) later
      else [target]
  end.

Definition initCounter (target : Q) (frames : list Q) : list Q :=
  animateCount target None frames.

(** *** More sample data *)

Module Samples.
Import Reference.

(** The rentals, dearest first. *)
Definition rentals_page : list DocSnap :=
  [ flat "f8" "rent" "2BR" 2000 85; flat "f4" "rent" "2BR" 1800 75;
    flat "f6" "rent" "1BR" 1500 50; flat "f2" "rent" "1BR" 1200 45;
    flat "f5" "rent" "studio" 1000 32; flat "f1" "rent" "studio" 900 30 ].

(** The six dearest flats of the store. *)
Definition dearest_page : list DocSnap :=
  [ flat "f3" "sale" "2BR" 250000 80; flat "f7" "sale" "1BR" 180000 48;
    flat "f8" "rent" "2BR" 2000 85; flat "f4" "rent" "2BR" 1800 75;
    flat "f6" "rent" "1BR" 1500 50; flat "f2" "rent" "1BR" 1200 45 ].

(** A flat whose offer type was stored as a number. *)
Definition mislabelled : DocSnap :=
  {| doc_id := "f9";
     doc_data := {[ "offerType" := JNum (Finite 1); "price" := JNum (Finite 500) ]} |}.

(** A store that holds one sound flat and the mislabelled one. *)
Definition flawed : Store := store [flat "f1" "rent" "studio" 900 30; mislabelled] true.

(** The query of the page just loaded. *)
Definition first_query : Query :=
  {| collectionName := "flats"; constraints := [OrderBy "price" "desc"; Limit 6] |}.

(** A store that can be read but refuses every write. *)
Definition read_only : Store :=
  {| getDocs q := Some (answer flats q);
     getDoc_fails _ := false;
     setDoc_fails _ := true |}.

(** Favourite two-room rentals from 1000, smallest first. *)
Definition chosen : Filters :=
  applyControls (controls "rent" "2BR" "1000" "" "area-asc" true) (currentFilters loaded).

Definition chosen_query : Query :=
  {| collectionName := "flats";
     constraints := [Where (FieldName "offerType") OpEq (JStr "rent");
                     Where (FieldName "type") OpEq (JStr "2BR");
                     Where (FieldName "price") OpGe (JNum (Finite 1000));
                     Where DocumentId OpIn (JArr [JStr "f4"]);
                     OrderBy "area" "asc"; Limit 6] |}.

(** The relay's store: the sample flats, whatever the query. *)
Definition admin : RelayApi.AdminStore :=
  {| RelayApi.query_get _ := Some flats;
     RelayApi.doc_get id := Some (List.find (fun d => String.eqb (doc_id d) id) flats);
     RelayApi.add_fails _ := false |}.

(** A page with every element of the lightbox, and the lightbox before
    it is first opened. *)
Definition whole_lightbox : LightboxElements :=
  {| lightboxModal := true; lightboxImage := true;
     lightboxPrevBtn := true; lightboxNextBtn := true |}.

Definition closed_lightbox : Lightbox :=
  {| currentLightboxImages := []; currentLightboxIndex := 0;
     lightboxImage_src := JStr ""; lightboxModal_hidden := true;
     lightboxModal_active := false; lightboxPrevBtn_hidden := false;
     lightboxNextBtn_hidden := false; body_overflow_hidden := false |}.

Definition three_images : list JsValue := [JStr "a.jpg"; JStr "b.jpg"; JStr "c.jpg"].

End Samples.
(** * Properties *)

Section Rendering.

Context {R : JsRuntime} {S : Store}.

Lemma formatPrice_run price w :
  formatPrice price w =
    (match priceText (currentCurrency w) price with
     | Some text => Returned text
     | None => Threw RangeError
     end, w).
Proof.
  unfold formatPrice, priceText, bind, gets, ret, throw.
  destruct (NumberFormat_format _ _); reflexivity.
Qed.

Lemma amenity_labels_run items w :
  mapProg items amenity_label w = (fst (mapProg items amenity_label w), w).
Proof.
  induction items as [|item items IH]; [reflexivity|].
  cbn. unfold bind. destruct item; try reflexivity.
  cbn. rewrite IH. cbn.
  destruct (fst (mapProg items amenity_label w)); reflexivity.
Qed.

Lemma amenity_labels_any_world items w w' :
  fst (mapProg items amenity_label w) = fst (mapProg items amenity_label w').
Proof.
  induction items as [|item items IH]; [reflexivity|].
  cbn. unfold bind. destruct item; try reflexivity.
  cbn. rewrite (amenity_labels_run items w), (amenity_labels_run items w'), IH.
  cbn. destruct (fst (mapProg items amenity_label w')); reflexivity.
Qed.

(** Making a card changes nothing. *)
Lemma createFlatCard_world flat w : exec (createFlatCard flat) w = w.
Proof.
  unfold exec, createFlatCard, bind. rewrite formatPrice_run.
  destruct (priceText _ _); [|reflexivity].
  destruct (js_or (prop flat "offerType") _); try reflexivity.
  cbn.
  destruct (parseAmenities _) as [| | | | s' |items|]; try reflexivity.
  - destruct (String.eqb s' ""); reflexivity.
  - rewrite amenity_labels_run. cbn.
    destruct (fst (mapProg items amenity_label w)); reflexivity.
Qed.

(** The card depends on the world through the current currency only. *)
Lemma createFlatCard_currency flat w w' :
  currentCurrency w = currentCurrency w' ->
  outcome (createFlatCard flat) w = outcome (createFlatCard flat) w'.
Proof.
  intros Hc. unfold outcome, createFlatCard, bind. rewrite !formatPrice_run, Hc.
  destruct (priceText _ _); [|reflexivity].
  destruct (js_or (prop flat "offerType") _); try reflexivity.
  cbn.
  destruct (parseAmenities _) as [| | | | s' |items|]; try reflexivity.
  - destruct (String.eqb s' ""); reflexivity.
  - rewrite (amenity_labels_run items w), (amenity_labels_run items w'),
      (amenity_labels_any_world items w w'). cbn.
    destruct (fst (mapProg items amenity_label w')); reflexivity.
Qed.

Lemma createFlatCard_run flat w :
  createFlatCard flat w = (outcome (createFlatCard flat) w, w).
Proof.
  pose proof (createFlatCard_world flat w) as Hw. unfold exec, outcome in *.
  destruct (createFlatCard flat w); cbn in *; congruence.
Qed.

Lemma renders_currency flat w w' :
  currentCurrency w = currentCurrency w' -> renders w flat = renders w' flat.
Proof. intros Hc. unfold renders. rewrite (createFlatCard_currency flat w w' Hc). reflexivity. Qed.

Lemma all_render_currency flats w w' :
  currentCurrency w = currentCurrency w' ->
  forallb (renders w) flats = forallb (renders w') flats.
Proof.
  intros Hc. induction flats as [|flat flats IH]; [reflexivity|].
  cbn. rewrite IH, (renders_currency flat w w' Hc). reflexivity.
Qed.

(** A card that is made shows the price text of the flat's stored
    price in the current currency. *)
Lemma createFlatCard_price flat w card :
  outcome (createFlatCard flat) w = Returned card ->
  priceText (currentCurrency w) (js_or (prop flat "price") (JNum (Finite 0)))
    = Some (card_price card).
Proof.
  unfold outcome, createFlatCard, bind. rewrite formatPrice_run.
  destruct (priceText _ _) as [text|]; [|discriminate].
  destruct (js_or (prop flat "offerType") _); try discriminate.
  cbn.
  destruct (parseAmenities _) as [| | | | s' |items|];
    try discriminate; try (intros [= <-]; reflexivity).
  - destruct (String.eqb s' ""); [|discriminate]. intros [= <-]. reflexivity.
  - rewrite amenity_labels_run. cbn.
    destruct (fst (mapProg items amenity_label w)); [|discriminate].
    intros [= <-]. reflexivity.
Qed.

Lemma appendCard_run flat w :
  appendCard flat w =
    match outcome (createFlatCard flat) w with
    | Returned card => (Returned tt, set_flatsList (flatsList w ++ [FlatCard card]) w)
    | Threw e => (Threw e, w)
    end.
Proof.
  unfold appendCard, bind. rewrite createFlatCard_run.
  destruct (outcome (createFlatCard flat) w); reflexivity.
Qed.

(** Rendering a list of flats only appends children to the list
    container. *)
Lemma render_world flats w :
  exists nodes,
    exec (forEach flats appendCard) w = set_flatsList (flatsList w ++ nodes) w.
Proof.
  revert w. induction flats as [|flat flats IH]; intros w.
  - exists []. destruct w. cbn. rewrite app_nil_r. reflexivity.
  - unfold exec. cbn. unfold bind. rewrite appendCard_run.
    destruct (outcome (createFlatCard flat) w) as [card|e].
    + destruct (IH (set_flatsList (flatsList w ++ [FlatCard card]) w)) as [nodes Hn].
      exists (FlatCard card :: nodes). unfold exec in Hn. rewrite Hn. cbn.
      rewrite <- app_assoc. reflexivity.
    + exists []. destruct w. cbn. rewrite app_nil_r. reflexivity.
Qed.

(** Rendering returns exactly when every flat renders. *)
Lemma render_outcome flats w :
  outcome (forEach flats appendCard) w =
    Returned tt <-> forallb (renders w) flats = true.
Proof.
  revert w. induction flats as [|flat flats IH]; intros w.
  - cbn. split; reflexivity.
  - unfold outcome. cbn. unfold bind. rewrite appendCard_run. unfold renders at 1.
    destruct (outcome (createFlatCard flat) w) as [card|e]; cbn.
    + unfold outcome in IH. rewrite IH.
      rewrite (all_render_currency flats _ w); reflexivity.
    + split; discriminate.
Qed.


End Rendering.

Section Fetching.

Context {R : JsRuntime} {S : Store}.

Lemma showPage_empty reset w :
  showPage reset [] w =
    (Returned tt,
     set_loadMoreBtn_hidden true
       (if reset then
          set_noFlatsMessage_text "No apartments found matching your criteria."
            (set_noFlatsMessage_hidden false (set_flatsList [] w))
        else set_toasts (toasts w ++ [("No more apartments to load.", "info")])
               (set_flatsList [] w))).
Proof. destruct reset; reflexivity. Qed.

(** A page with documents: the flats are merged first, then rendered;
    cursor, count and buttons are set only when rendering returns. *)
Lemma showPage_nonempty reset d docs w :
  exists nodes,
    showPage reset (d :: docs) w =
      let flats := flat_of_doc <$> (d :: docs) in
      let w1 := set_flatsList [] (set_allFlatsData (allFlatsData w ++ flats) w) in
      if forallb (renders w) flats then
        (Returned tt,
         set_noFlatsMessage_hidden true
           (set_loadMoreBtn_hidden (negb (length flats =? CONFIG.flatsPerPage)%nat)
             (set_displayedFlatsCount (displayedFlatsCount w + length flats)
               (set_lastVisibleFlat (last (d :: docs)) (set_flatsList nodes w1)))))
      else (outcome (forEach flats appendCard) w1, set_flatsList nodes w1).
Proof.
  unfold showPage.
  assert (Hlen : (0 <? length (flat_of_doc <$> d :: docs))%nat = true) by reflexivity.
  rewrite Hlen. clear Hlen. cbv zeta.
  generalize (flat_of_doc <$> d :: docs). intros flats.
  set (w1 := set_flatsList [] (set_allFlatsData (allFlatsData w ++ flats) w)).
  destruct (render_world flats w1) as [nodes Hnodes].
  exists nodes.
  pose proof (render_outcome flats w1) as Hout.
  rewrite (all_render_currency flats w1 w) in Hout by reflexivity.
  unfold exec, outcome in *.
  unfold bind at 1. unfold modify at 1.
  unfold bind at 1. unfold modify at 1. fold w1.
  unfold bind at 1.
  destruct (forEach flats appendCard w1) as [[[]|e] w2]; cbn in Hnodes, Hout; subst w2.
  - rewrite (proj1 Hout eq_refl). reflexivity.
  - destruct (forallb (renders w) flats); [|reflexivity].
    destruct Hout as [_ Hout]. discriminate (Hout eq_refl).
Qed.

(** The world in which the [try] block of [fetchFlats] starts. *)
Lemma fetchFlats_try reset w :
  flatsList_available w = true ->
  fetchFlats reset w =
    try_catch (fetchAttempt reset) (fun _ => fetchFailed)
      ((if reset then resetPagination else id)
         (set_flatsList (replicate CONFIG.skeletonCount SkeletonCard)
            (set_elements_flatsList true w))).
Proof.
  unfold flatsList_available, fetchFlats, locate_flatsList. intros Hav.
  unfold bind, gets.
  destruct (elements_flatsList w) eqn:Hel.
  - replace (set_elements_flatsList true w) with w
      by (destruct w; cbn in *; subst; reflexivity).
    destruct reset; reflexivity.
  - cbn in Hav. rewrite Hav. destruct reset; reflexivity.
Qed.

Lemma fetchAttempt_run reset w :
  fetchAttempt reset w =
    match composeQuery (currentFilters w) (favorites w) (lastVisibleFlat w) with
    | None =>
        (Returned tt,
         set_loadMoreBtn_hidden true
           (set_noFlatsMessage_text "No favorite apartments found."
              (set_noFlatsMessage_hidden false (set_flatsList [] w))))
    | Some q =>
        match getDocs q with
        | Some docs => showPage reset docs (set_requests (requests w ++ [q]) w)
        | None => (Threw StoreError, set_requests (requests w ++ [q]) w)
        end
    end.
Proof.
  unfold fetchAttempt, await_getDocs, bind, gets, modify.
  destruct (composeQuery _ _ _) as [q|]; [|reflexivity].
  destruct (getDocs q); reflexivity.
Qed.

(** What one call of [fetchFlats] leaves behind, case by case: the
    early return without favourites, a rejected query, a page. *)
Lemma fetchFlats_cases reset w :
  flatsList_available w = true ->
  let w' := exec (fetchFlats reset) w in
  let kept := if reset then [] else allFlatsData w in
  let cursor := if reset then None else lastVisibleFlat w in
  (currentFilters w' = currentFilters w /\ favorites w' = favorites w /\
   currentCurrency w' = currentCurrency w /\
   localStorage_favorites w' = localStorage_favorites w /\
   users w' = users w /\ currentUser w' = currentUser w) /\
  flatsList_available w' = true /\
  outcome (fetchFlats reset) w = Returned tt /\
  match fetchQuery reset w with
  | None =>
      requests w' = requests w /\ allFlatsData w' = kept /\
      lastVisibleFlat w' = cursor /\ flatsList w' = [] /\
      noFlatsMessage_hidden w' = false /\
      noFlatsMessage_text w' = "No favorite apartments found." /\
      loadMoreBtn_hidden w' = true /\ toasts w' = toasts w
  | Some q =>
      requests w' = requests w ++ [q] /\
      match getDocs q with
      | None =>
          allFlatsData w' = kept /\ lastVisibleFlat w' = cursor /\
          flatsList w' = [] /\
          noFlatsMessage_hidden w' = false /\
          noFlatsMessage_text w' = "Error loading apartments." /\
          toasts w' = toasts w ++ [("Error loading apartments.", "error")]
      | Some docs =>
          allFlatsData w' = kept ++ (flat_of_doc <$> docs) /\
          (forallb (fun d => renders w (flat_of_doc d)) docs = true ->
           lastVisibleFlat w' = match last docs with
                                | Some d => Some d
                                | None => cursor
                                end /\
           loadMoreBtn_hidden w' = negb (length docs =? CONFIG.flatsPerPage)%nat)
      end
  end.
Proof.
  intros Hav. cbv zeta. unfold exec, outcome. rewrite (fetchFlats_try reset w Hav).
  unfold fetchQuery.
  set (w0 := (if reset then resetPagination else id) _).
  assert (Hf : currentFilters w0 = currentFilters w) by (destruct reset; reflexivity).
  assert (Hfav : favorites w0 = favorites w) by (destruct reset; reflexivity).
  assert (Hcur : lastVisibleFlat w0 = if reset then None else lastVisibleFlat w)
    by (destruct reset; reflexivity).
  assert (Hall : allFlatsData w0 = if reset then [] else allFlatsData w)
    by (destruct reset; reflexivity).
  unfold try_catch. rewrite fetchAttempt_run, Hf, Hfav, Hcur.
  destruct (composeQuery _ _ _) as [q|].
  - destruct (getDocs q) as [docs|].
    + set (w1 := set_requests (requests w0 ++ [q]) w0).
      destruct docs as [|d docs].
      * rewrite showPage_empty. subst w1 w0.
        destruct reset; cbn; rewrite ?app_nil_r; repeat split; reflexivity.
      * destruct (showPage_nonempty reset d docs w1) as [nodes ->]. cbv zeta.
        replace (forallb (renders w1) (flat_of_doc <$> d :: docs))
          with (forallb (fun d => renders w (flat_of_doc d)) (d :: docs)).
        2:{ rewrite (all_render_currency _ w1 w) by (subst w1 w0; destruct reset; reflexivity).
            generalize (d :: docs). intros l. induction l as [|x l IH]; [reflexivity|].
            cbn. rewrite IH. reflexivity. }
        destruct (forallb _ (d :: docs)) eqn:Hrender.
        -- subst w1 w0. destruct reset; cbn; repeat split; try reflexivity.
           all: first [ rewrite length_fmap; reflexivity
                      | rewrite last_cons; destruct (last docs); reflexivity ].
        -- destruct (outcome _ _) as [[]|e]; subst w1 w0;
             destruct reset; cbn; repeat split; try reflexivity; discriminate.
    + subst w0. destruct reset; cbn; repeat split; reflexivity.
  - subst w0. destruct reset; cbn; repeat split; reflexivity.
Qed.

End Fetching.

(** ** The composed query *)

Lemma when_constraints b c q :
  constraints (when_ b c q) = constraints q ++ (if b then [c] else []).
Proof. destruct b; cbn; [reflexivity|]. rewrite app_nil_r. reflexivity. Qed.

Lemma filterConstraints_constraints f q :
  constraints (filterConstraints f q) = constraints q ++ fieldFilters f.
Proof.
  unfold filterConstraints, fieldFilters. rewrite !when_constraints.
  cbn [truthy]. rewrite <- !app_assoc. reflexivity.
Qed.

Lemma filterConstraints_collection f q :
  collectionName (filterConstraints f q) = collectionName q.
Proof.
  unfold filterConstraints, when_.
  destruct (negb (String.eqb (offerType f) "all")), (negb (String.eqb (flatType f) "all")),
    (truthy (JStr (minPrice f))), (truthy (JStr (maxPrice f))); reflexivity.
Qed.

Lemma orderAndPage_collection f cursor q :
  collectionName (orderAndPage f cursor q) = collectionName q.
Proof. destruct cursor; reflexivity. Qed.

Lemma orderAndPage_constraints f cursor q :
  constraints (orderAndPage f cursor q) =
    constraints q ++ orderConstraint f ::
      match cursor with Some d => [StartAfter d] | None => [] end ++ [Limit CONFIG.flatsPerPage].
Proof.
  unfold orderAndPage. destruct cursor; cbn; rewrite <- ?app_assoc; reflexivity.
Qed.

(** Every composed query is on [flats] and is made of the field
    filters, the favourites filter when favourites are asked for, the
    ordering, the cursor when there is one, and the page size. *)
Lemma composeQuery_constraints f favs cursor q :
  composeQuery f favs cursor = Some q ->
  collectionName q = "flats" /\
  constraints q =
    fieldFilters f ++
    (if showFavorites f then [Where DocumentId OpIn (JArr (JStr <$> favs))] else []) ++
    orderConstraint f ::
      match cursor with Some d => [StartAfter d] | None => [] end ++ [Limit CONFIG.flatsPerPage].
Proof.
  unfold composeQuery.
  destruct (showFavorites f); cbn [andb].
  - destruct favs as [|fav favs]; cbn [length Nat.ltb Nat.leb Nat.eqb]; [discriminate|].
    intros [= <-].
    split; [rewrite orderAndPage_collection; cbn; apply filterConstraints_collection|].
    rewrite orderAndPage_constraints. cbn [constraints query].
    rewrite filterConstraints_constraints. cbn [constraints collection app].
    rewrite <- app_assoc. reflexivity.
  - intros [= <-].
    split; [rewrite orderAndPage_collection; apply filterConstraints_collection|].
    rewrite orderAndPage_constraints, filterConstraints_constraints. reflexivity.
Qed.

Lemma composeQuery_no_favorites f cursor :
  showFavorites f = true -> composeQuery f [] cursor = None.
Proof. intros Hf. unfold composeQuery. rewrite Hf. reflexivity. Qed.

Lemma orderConstraint_is_ordering f :
  exists field direction, orderConstraint f = OrderBy field direction.
Proof.
  unfold orderConstraint.
  repeat (match goal with |- context [if ?b then _ else _] => destruct b end);
    eauto.
Qed.

Lemma priceBounds_composed f favs cursor q :
  composeQuery f favs cursor = Some q ->
  priceBounds q =
    (if String.eqb (minPrice f) "" then []
     else [Where (FieldName "price") OpGe (JNum (parseFloat (minPrice f)))]) ++
    (if String.eqb (maxPrice f) "" then []
     else [Where (FieldName "price") OpLe (JNum (parseFloat (maxPrice f)))]).
Proof.
  intros Hq. destruct (composeQuery_constraints _ _ _ _ Hq) as [_ Hc].
  unfold priceBounds. rewrite Hc. unfold fieldFilters.
  destruct (orderConstraint_is_ordering f) as (field & direction & ->).
  rewrite !List.filter_app.
  destruct (String.eqb (offerType f) "all"), (String.eqb (flatType f) "all"),
    (String.eqb (minPrice f) ""), (String.eqb (maxPrice f) ""),
    (showFavorites f), cursor; reflexivity.
Qed.

(** A document that satisfies the field filters of a query gives a flat
    that satisfies the filters. *)
Lemma flat_of_doc_prop d name :
  name <> "id" -> prop (flat_of_doc d) name = default JUndefined (doc_data d !! name).
Proof.
  intros Hne. unfold prop, flat_of_doc.
  rewrite lookup_union, lookup_singleton_ne by congruence.
  destruct (doc_data d !! name); reflexivity.
Qed.

Lemma strict_eq_string x s : strict_eq x (JStr s) = true -> x = JStr s.
Proof.
  destruct x as [| | | [] | s' | | ]; cbn; try discriminate.
  intros Heq. apply String.eqb_eq in Heq. congruence.
Qed.

Lemma matches_satisfies f d :
  (forall c, In c (fieldFilters f) -> matches d c = true) ->
  satisfies_filters f (flat_of_doc d).
Proof.
  intros Hall. unfold satisfies_filters.
  rewrite !flat_of_doc_prop by discriminate.
  repeat split.
  - intros Hne. apply String.eqb_neq in Hne.
    specialize (Hall (Where (FieldName "offerType") OpEq (JStr (offerType f)))).
    unfold fieldFilters in Hall. rewrite Hne in Hall. cbn in Hall.
    specialize (Hall (or_introl eq_refl)).
    destruct (doc_data d !! "offerType"); [|discriminate].
    cbn. apply strict_eq_string. exact Hall.
  - intros Hne. apply String.eqb_neq in Hne.
    specialize (Hall (Where (FieldName "type") OpEq (JStr (flatType f)))).
    unfold fieldFilters in Hall. rewrite Hne in Hall.
    assert (Hin : matches d (Where (FieldName "type") OpEq (JStr (flatType f))) = true).
    { apply Hall. rewrite !in_app_iff. right. left. left. reflexivity. }
    cbn in Hin. destruct (doc_data d !! "type"); [|discriminate].
    cbn. apply strict_eq_string. exact Hin.
  - intros Hne. apply String.eqb_neq in Hne.
    assert (Hin : matches d (Where (FieldName "price") OpGe
                               (JNum (parseFloat (minPrice f)))) = true).
    { apply Hall. unfold fieldFilters. rewrite Hne, !in_app_iff.
      right. right. left. left. reflexivity. }
    cbn in Hin. destruct (doc_data d !! "price") as [[| | |price| | |]|]; try discriminate.
    exists price. split; [reflexivity|exact Hin].
  - intros Hne. apply String.eqb_neq in Hne.
    assert (Hin : matches d (Where (FieldName "price") OpLe
                               (JNum (parseFloat (maxPrice f)))) = true).
    { apply Hall. unfold fieldFilters. rewrite Hne, !in_app_iff.
      right. right. right. left. reflexivity. }
    cbn in Hin. destruct (doc_data d !! "price") as [[| | |price| | |]|]; try discriminate.
    exists price. split; [reflexivity|exact Hin].
Qed.

(** ** The reference instances meet what is assumed of them *)

Module ReferenceFacts.
Import Reference.

Lemma read_value_bracket fuel s v rest :
  read_value fuel (String "[" s) = Some (v, rest) -> exists items, v = JArr items.
Proof.
  destruct fuel as [|fuel]; [discriminate|].
  cbn [read_value skip_ws json_white_space]. 
  change (json_white_space "[") with false. cbv iota.
  destruct (skip_ws s) as [|c s'].
  - destruct (read_items fuel s) as [[items r]|]; [|discriminate].
    intros [= <- _]. eauto.
  - destruct (Ascii.eqb_spec c "]") as [->|Hne].
    + intros [= <- _]. eauto.
    + assert (Hrest : forall (o : option (JsValue * string)),
                (match c with
                 | "]"%char => Some (JArr [], s')
                 | _ => o
                 end) = o).
      { intros o. destruct c as [[] [] [] [] [] [] [] []]; try reflexivity.
        contradiction Hne; reflexivity. }
      rewrite Hrest.
      destruct (read_items fuel s) as [[items r]|]; [|discriminate].
      intros [= <- _]. eauto.
Qed.

(** The reference reader turns a text that begins with a bracket into
    an array or into nothing. *)
Lemma parse_arrays : JSON_arrays engine.
Proof.
  intros s v Hs. cbn [JSON_parse engine]. unfold parse.
  destruct s as [|c s]; [discriminate|].
  cbn in Hs. apply Ascii.eqb_eq in Hs. subst c.
  destruct (read_value _ _) as [[v' rest]|] eqn:Hread; [|discriminate].
  destruct (skip_ws rest); [|discriminate].
  intros [= <-]. eapply read_value_bracket. exact Hread.
Qed.

Lemma insert_sorted_In field direction d l x :
  In x (insert_sorted field direction d l) -> x = d \/ In x l.
Proof.
  induction l as [|d' l IH]; cbn.
  - intros [<-|[]]. left. reflexivity.
  - destruct (before field direction d d'); cbn.
    + intros [<-|Hin]; [left; reflexivity|right; exact Hin].
    + intros [<-|Hin]; [right; left; reflexivity|].
      destruct (IH Hin) as [->|Hl]; [left; reflexivity|right; right; exact Hl].
Qed.

Lemma order_In field direction l x : In x (order field direction l) -> In x l.
Proof.
  unfold order. induction l as [|d l IH]; cbn; [tauto|].
  destruct (bool_decide _); cbn.
  - intros Hin. destruct (insert_sorted_In _ _ _ _ _ Hin) as [->|Hl]; [left; reflexivity|].
    right. apply IH. exact Hl.
  - intros Hin. right. apply IH. exact Hin.
Qed.

Lemma after_cursor_In cursor l x : In x (after_cursor cursor l) -> In x l.
Proof.
  induction l as [|d l IH]; cbn; [tauto|].
  destruct (String.eqb _ _); [tauto|]. intros Hin. right. apply IH. exact Hin.
Qed.

Lemma take_In (n : nat) (l : list DocSnap) x : In x (take n l) -> In x l.
Proof.
  revert n. induction l as [|d l IH]; intros [|n]; cbn; try tauto.
  intros [<-|Hin]; [left; reflexivity|right; apply (IH n); exact Hin].
Qed.

(** A constraint only removes documents, and what it leaves satisfies it. *)
Lemma apply_constraint_In c l x :
  In x (apply_constraint c l) -> In x l /\ matches x c = true.
Proof.
  destruct c as [field op value|field direction|cursor|n]; cbn [apply_constraint].
  - intros Hin. apply List.filter_In in Hin. exact Hin.
  - intros Hin. split; [eapply order_In; exact Hin|reflexivity].
  - intros Hin. split; [eapply after_cursor_In; exact Hin|reflexivity].
  - intros Hin. split; [eapply take_In; exact Hin|reflexivity].
Qed.

Lemma answer_In cs : forall l x,
  In x (fold_left (fun l c => apply_constraint c l) cs l) ->
  In x l /\ forall c, In c cs -> matches x c = true.
Proof.
  induction cs as [|c cs IH]; intros l x; cbn.
  - intros Hin. split; [exact Hin|tauto].
  - intros Hin. destruct (IH _ _ Hin) as [Hc Hcs].
    destruct (apply_constraint_In _ _ _ Hc) as [Hl Hm].
    split; [exact Hl|]. intros c' [<-|Hin']; [exact Hm|apply Hcs; exact Hin'].
Qed.

(** The reference store honours its queries. *)
Lemma store_honours docs online : honours_queries (store docs online).
Proof.
  intros q page. cbn [getDocs store]. destruct online; [|discriminate].
  intros [= <-] d Hd c Hc. unfold answer in Hd.
  destruct (answer_In _ _ _ Hd) as [_ Hall]. apply Hall. exact Hc.
Qed.

End ReferenceFacts.

(** ** Applying filters and fetching *)

Lemma not_awaited_run (m : Prog unit) w : not_awaited m w = (Returned tt, exec m w).
Proof.
  unfold not_awaited, try_catch, exec, ret. destruct (m w) as [[[]|e] w']; reflexivity.
Qed.

Lemma handleApplyFilters_run (R : JsRuntime) (S : Store) c w :
  handleApplyFilters (Some c) w =
    (Returned tt,
     exec (fetchFlats true) (set_currentFilters (applyControls c (currentFilters w)) w)).
Proof. unfold handleApplyFilters, bind, modify. rewrite not_awaited_run. reflexivity. Qed.

Lemma handleLoadMore_run (R : JsRuntime) (S : Store) w :
  handleLoadMore w = (Returned tt, exec (fetchFlats false) w).
Proof. unfold handleLoadMore. apply not_awaited_run. Qed.

(** One fetch keeps the invariant: the filters stay, the container
    stays, and when the records kept satisfy the filters, so do the
    records after the fetch. *)
Lemma fetch_keeps_matching (R : JsRuntime) (S : Store) (reset : bool) (w : World) :
  honours_queries S ->
  flatsList_available w = true ->
  Forall (satisfies_filters (currentFilters w)) (if reset then [] else allFlatsData w) ->
  let w' := exec (fetchFlats reset) w in
  currentFilters w' = currentFilters w /\
  flatsList_available w' = true /\
  Forall (satisfies_filters (currentFilters w)) (allFlatsData w').
Proof.
  intros Hstore Hav Hkept. cbv zeta.
  pose proof (fetchFlats_cases reset w Hav) as Hspec. cbv zeta in Hspec.
  destruct Hspec as ((Hf & _) & Hav' & _ & Hcases).
  split; [exact Hf|]. split; [exact Hav'|].
  unfold fetchQuery in Hcases.
  destruct (composeQuery _ _ _) as [q|] eqn:Hq.
  - destruct Hcases as [_ Hcases].
    destruct (getDocs q) as [docs|] eqn:Hdocs.
    + destruct Hcases as [-> _]. apply Forall_app. split; [exact Hkept|].
      apply Forall_forall. intros flat Hin.
      apply list_elem_of_In, in_map_iff in Hin. destruct Hin as (d & <- & Hd).
      apply matches_satisfies. intros k Hk.
      apply (Hstore q docs Hdocs d Hd).
      destruct (composeQuery_constraints _ _ _ _ Hq) as [_ ->].
      apply in_or_app. left. exact Hk.
    + destruct Hcases as [-> _]. exact Hkept.
  - destruct Hcases as (_ & -> & _). exact Hkept.
Qed.

(** C1: for every snapshot of the filter controls, applying it and
    fetching, and then loading more any number of times, leaves in
    [allFlatsData] only flats that satisfy every active predicate: the
    offer type and the flat type when they are not [all], the lower and
    the upper price bound when they are given.  The store is one that
    honours its queries and the page has its list container. *)
Theorem apply_fetches_only_matching_flats (R : JsRuntime) (S : Store)
    (c : FilterControls) (w : World) (more : nat) :
  honours_queries S ->
  flatsList_available w = true ->
  let w' := Nat.iter more (exec handleLoadMore) (exec (handleApplyFilters (Some c)) w) in
  currentFilters w' = applyControls c (currentFilters w) /\
  Forall (satisfies_filters (currentFilters w')) (allFlatsData w').
Proof.
  intros Hstore Hav. cbv zeta.
  enough (Hinv : let w' := Nat.iter more (exec handleLoadMore)
                             (exec (handleApplyFilters (Some c)) w) in
                 currentFilters w' = applyControls c (currentFilters w) /\
                 flatsList_available w' = true /\
                 Forall (satisfies_filters (currentFilters w')) (allFlatsData w')).
  { cbv zeta in Hinv. destruct Hinv as (Hf & _ & Hall). split; assumption. }
  induction more as [|more IH]; cbv zeta.
  - unfold Nat.iter. cbn [nat_rect].
    set (w1 := set_currentFilters (applyControls c (currentFilters w)) w).
    assert (Hrun : exec (handleApplyFilters (Some c)) w = exec (fetchFlats true) w1)
      by (unfold exec at 1; rewrite handleApplyFilters_run; reflexivity).
    rewrite Hrun.
    destruct (fetch_keeps_matching R S true w1 Hstore Hav (List.Forall_nil _))
      as (Hf & Hav' & Hall).
    rewrite Hf. repeat split; assumption.
  - rewrite Nat.iter_succ. cbv zeta in IH. destruct IH as (Hf & Hav' & Hall).
    set (w1 := Nat.iter more (exec handleLoadMore) _) in *.
    assert (Hrun : exec handleLoadMore w1 = exec (fetchFlats false) w1)
      by (unfold exec at 1; rewrite handleLoadMore_run; reflexivity).
    rewrite Hrun.
    destruct (fetch_keeps_matching R S false w1 Hstore Hav' Hall) as (Hf' & Hav'' & Hall').
    rewrite Hf'. repeat split; assumption.
Qed.

(** C2: with [showFavorites] set and no favourite, a fetch returns
    early: it sends no query to the store, shows an empty list and the
    message that there are no favourites, hides the load-more button and
    adds no flat; what it leaves is the same whatever the store is. *)
Theorem fetch_without_favorites_short_circuits (R : JsRuntime) (S : Store)
    (reset : bool) (w : World) :
  flatsList_available w = true ->
  showFavorites (currentFilters w) = true ->
  favorites w = [] ->
  let w' := exec (fetchFlats reset) w in
  outcome (fetchFlats reset) w = Returned tt /\
  requests w' = requests w /\
  flatsList w' = [] /\
  allFlatsData w' = (if reset then [] else allFlatsData w) /\
  noFlatsMessage_hidden w' = false /\
  noFlatsMessage_text w' = "No favorite apartments found." /\
  loadMoreBtn_hidden w' = true /\
  forall S' : Store, exec (fetchFlats (S := S') reset) w = w'.
Proof.
  intros Hav Hshow Hnone. cbv zeta.
  assert (Hq : forall S0 : Store, fetchQuery reset w = None).
  { intros S0. unfold fetchQuery. rewrite Hnone. apply composeQuery_no_favorites, Hshow. }
  pose proof (fetchFlats_cases reset w Hav) as Hspec. cbv zeta in Hspec.
  rewrite (Hq S) in Hspec.
  destruct Hspec as (_ & _ & Hout & Hreq & Hall & _ & Hlist & Hhid & Htext & Hmore & _).
  repeat (split; [assumption|]).
  intros S'. unfold exec. rewrite !fetchFlats_try by exact Hav.
  unfold try_catch. rewrite !fetchAttempt_run.
  assert (Hcompose :
    composeQuery
      (currentFilters ((if reset then resetPagination else id)
         (set_flatsList (replicate CONFIG.skeletonCount SkeletonCard)
            (set_elements_flatsList true w))))
      (favorites ((if reset then resetPagination else id)
         (set_flatsList (replicate CONFIG.skeletonCount SkeletonCard)
            (set_elements_flatsList true w))))
      (lastVisibleFlat ((if reset then resetPagination else id)
         (set_flatsList (replicate CONFIG.skeletonCount SkeletonCard)
            (set_elements_flatsList true w)))) = None).
  { destruct reset; cbn; rewrite Hnone; apply composeQuery_no_favorites, Hshow. }
  rewrite Hcompose. reflexivity.
Qed.

(** C3 as the code has it: when the store rejects the query of a fetch,
    nothing of a page is merged: [allFlatsData] and the cursor are what
    the reset left (empty and absent) or, on a continuation, what they
    were before the call; the list is emptied, "Error loading
    apartments." is shown as a toast and as the message, and the query
    was sent once. *)
Theorem rejected_fetch_merges_nothing (R : JsRuntime) (S : Store)
    (reset : bool) (w : World) :
  fetchRejected reset w = true ->
  let w' := exec (fetchFlats reset) w in
  allFlatsData w' = (if reset then [] else allFlatsData w) /\
  lastVisibleFlat w' = (if reset then None else lastVisibleFlat w) /\
  flatsList w' = [] /\
  toasts w' = toasts w ++ [("Error loading apartments.", "error")] /\
  noFlatsMessage_hidden w' = false /\
  noFlatsMessage_text w' = "Error loading apartments." /\
  exists q, fetchQuery reset w = Some q /\ requests w' = requests w ++ [q].
Proof.
  unfold fetchRejected. intros Hrej. apply andb_true_iff in Hrej as [Hav Hrej].
  pose proof (fetchFlats_cases reset w Hav) as Hspec. cbv zeta in Hspec |- *.
  destruct (fetchQuery reset w) as [q|]; [|discriminate].
  apply bool_decide_eq_true in Hrej. rewrite Hrej in Hspec.
  destruct Hspec as (_ & _ & _ & Hreq & Hall & Hcur & Hlist & Hhid & Htext & Htoast).
  repeat (split; [assumption|]). exists q. split; [reflexivity|assumption].
Qed.

(** C4 as the code has it: after a successful fetch the cursor is the
    last document of the page when the page has documents; after an
    empty page it is what it was when the query was composed: absent on
    a reset, the previous cursor on a continuation. *)
Theorem cursor_after_fetch (R : JsRuntime) (S : Store)
    (reset : bool) (w : World) (docs : list DocSnap) :
  fetchedPage reset w = Some docs ->
  lastVisibleFlat (exec (fetchFlats reset) w) =
    match last docs with
    | Some d => Some d
    | None => if reset then None else lastVisibleFlat w
    end.
Proof.
  unfold fetchedPage. intros Hpage.
  destruct (flatsList_available w) eqn:Hav; [|discriminate].
  pose proof (fetchFlats_cases reset w Hav) as Hspec. cbv zeta in Hspec.
  destruct (fetchQuery reset w) as [q|]; [|discriminate].
  destruct (getDocs q) as [docs'|]; [|discriminate].
  destruct (forallb _ docs') eqn:Hrender; [|discriminate].
  injection Hpage as ->.
  destruct Hspec as (_ & _ & _ & _ & _ & Hok). apply Hok. reflexivity.
Qed.

(** C5: after a successful fetch the load-more button is offered
    exactly when the page holds [flatsPerPage] (six) documents. *)
Theorem load_more_iff_full_page (R : JsRuntime) (S : Store)
    (reset : bool) (w : World) (docs : list DocSnap) :
  fetchedPage reset w = Some docs ->
  CONFIG.flatsPerPage = 6 /\
  (loadMoreBtn_hidden (exec (fetchFlats reset) w) = false <->
   length docs = CONFIG.flatsPerPage).
Proof.
  unfold fetchedPage. intros Hpage.
  destruct (flatsList_available w) eqn:Hav; [|discriminate].
  pose proof (fetchFlats_cases reset w Hav) as Hspec. cbv zeta in Hspec.
  destruct (fetchQuery reset w) as [q|]; [|discriminate].
  destruct (getDocs q) as [docs'|]; [|discriminate].
  destruct (forallb _ docs') eqn:Hrender; [|discriminate].
  injection Hpage as ->.
  destruct Hspec as (_ & _ & _ & _ & _ & Hok). destruct (Hok eq_refl) as [_ ->].
  split; [reflexivity|].
  rewrite negb_false_iff. apply Nat.eqb_eq.
Qed.

(** C6 as the code has it: apply copies the two price texts as they
    are, without parsing or checking them.  In the query that the fetch
    then sends, a bound is left out exactly when its text is empty; any
    other text gives a price predicate whose operand is [parseFloat] of
    the text, [NaN] included. *)
Theorem price_bounds_of_applied_filters (R : JsRuntime) (S : Store)
    (c : FilterControls) (w : World) (q : Query) :
  requests (exec (handleApplyFilters (Some c)) w) = requests w ++ [q] ->
  let f := currentFilters (exec (handleApplyFilters (Some c)) w) in
  minPrice f = minPriceFilter c /\
  maxPrice f = maxPriceFilter c /\
  priceBounds q =
    (if String.eqb (minPriceFilter c) "" then []
     else [Where (FieldName "price") OpGe (JNum (parseFloat (minPriceFilter c)))]) ++
    (if String.eqb (maxPriceFilter c) "" then []
     else [Where (FieldName "price") OpLe (JNum (parseFloat (maxPriceFilter c)))]).
Proof.
  cbv zeta. unfold exec. rewrite handleApplyFilters_run. cbn [snd].
  set (w1 := set_currentFilters (applyControls c (currentFilters w)) w).
  intros Hreq.
  destruct (flatsList_available w1) eqn:Hav.
  - pose proof (fetchFlats_cases true w1 Hav) as Hspec. cbv zeta in Hspec.
    destruct Hspec as ((Hf & _) & _ & _ & Hcases). rewrite Hf.
    split; [reflexivity|]. split; [reflexivity|].
    unfold fetchQuery in Hcases.
    destruct (composeQuery _ _ _) as [q'|] eqn:Hq.
    + destruct Hcases as [Hreq' _]. rewrite Hreq' in Hreq.
      apply app_inv_head in Hreq. injection Hreq as ->.
      apply (priceBounds_composed _ _ _ _ Hq).
    + destruct Hcases as [Hreq' _]. rewrite Hreq' in Hreq.
      change (requests w1) with (requests w) in Hreq.
      rewrite <- (app_nil_r (requests w)) in Hreq at 1.
      apply app_inv_head in Hreq. discriminate.
  - exfalso. revert Hreq. unfold exec, fetchFlats, locate_flatsList, bind, gets.
    unfold flatsList_available in Hav. apply orb_false_iff in Hav as [-> ->].
    cbn. intros Hreq. rewrite <- (app_nil_r (requests w)) in Hreq at 1.
    apply app_inv_head in Hreq. discriminate.
Qed.

(** ** Currency *)

Lemma handleCurrencyChange_run (R : JsRuntime) currency w :
  handleCurrencyChange currency w =
    forEach (allFlatsData w) appendCard (set_flatsList [] (set_currentCurrency currency w)).
Proof. reflexivity. Qed.

Lemma handleCurrencyChange_world (R : JsRuntime) currency w :
  exists nodes,
    exec (handleCurrencyChange currency) w =
      set_flatsList nodes (set_currentCurrency currency w).
Proof.
  unfold exec. rewrite handleCurrencyChange_run.
  destruct (render_world (allFlatsData w) (set_flatsList [] (set_currentCurrency currency w)))
    as [nodes Hnodes].
  exists nodes. exact Hnodes.
Qed.



(** ** Favourites *)

Lemma fetchFlats_unavailable (R : JsRuntime) (S : Store) reset w :
  flatsList_available w = false ->
  fetchFlats reset w =
    (Returned tt,
     set_toasts
       (toasts w ++
          [("Error: Apartment display area not found. Please refresh the page.", "error")])
       w).
Proof.
  unfold flatsList_available. intros Hav. apply orb_false_iff in Hav as [Hel Hdoc].
  unfold fetchFlats, locate_flatsList, bind, gets. rewrite Hel, Hdoc. cbn.
  unfold showToast, modify. cbn. f_equal.
  destruct w; cbn in *; subst; reflexivity.
Qed.

(** A fetch leaves the filters, the favourites, the currency, local
    storage, the user records and the signed-in user as they are. *)
Lemma fetchFlats_frame (R : JsRuntime) (S : Store) reset w :
  let w' := exec (fetchFlats reset) w in
  currentFilters w' = currentFilters w /\ favorites w' = favorites w /\
  currentCurrency w' = currentCurrency w /\
  localStorage_favorites w' = localStorage_favorites w /\
  users w' = users w /\ currentUser w' = currentUser w.
Proof.
  cbv zeta. destruct (flatsList_available w) eqn:Hav.
  - pose proof (fetchFlats_cases reset w Hav) as Hspec. cbv zeta in Hspec.
    destruct Hspec as [Hframe _]. exact Hframe.
  - unfold exec. rewrite fetchFlats_unavailable by exact Hav. repeat split.
Qed.

Lemma remove_first_filter x l :
  NoDup l -> remove_first x l = List.filter (fun id => negb (String.eqb id x)) l.
Proof.
  induction 1 as [|y l Hy Hl IH]; [reflexivity|].
  cbn. destruct (String.eqb_spec y x) as [->|Hne]; cbn.
  - clear IH. induction l as [|z l IHl]; [reflexivity|].
    cbn. destruct (String.eqb_spec z x) as [->|Hzx].
    + exfalso. apply Hy. left.
    + cbn. f_equal. apply IHl.
      * intros Hin. apply Hy. right. exact Hin.
      * inversion Hl; assumption.
  - rewrite IH. reflexivity.
Qed.

Lemma includes_elem_of l x : includes l x = true <-> x ∈ l.
Proof.
  unfold includes. rewrite existsb_exists. split.
  - intros (y & Hin & Heq). apply String.eqb_eq in Heq. subst y.
    apply list_elem_of_In. exact Hin.
  - intros Hin. exists x. split; [apply list_elem_of_In; exact Hin|apply String.eqb_refl].
Qed.

(** C8 as the code has it: when nobody is signed in any more, the
    favourites in memory are emptied and the cached list is removed from
    local storage, the record of the user staying as it is.  While a
    user is signed in the list is mirrored: signing in loads the record
    into memory and into the cache, and a toggle that the store accepts
    writes the same list to the record and to the cache. *)
Theorem favorites_follow_the_session (R : JsRuntime) (S : Store) (w : World) :
  (let w' := exec (authStateChanged None) w in
   favorites w' = [] /\ localStorage_favorites w' = None /\
   users w' = users w /\ currentUser w' = None) /\
  (forall uid email favs,
     getDoc_fails uid = false -> users w !! uid = Some favs ->
     let w' := exec (authStateChanged (Some (uid, email))) w in
     favorites w' = favs /\ localStorage_favorites w' = Some favs /\
     users w' = users w /\ currentUser w' = Some uid) /\
  (forall uid flatId,
     currentUser w = Some uid ->
     getDoc_fails uid = false -> setDoc_fails uid = false ->
     users w !! uid = Some (favorites w) -> NoDup (favorites w) ->
     let w' := exec (toggleFavorite flatId) w in
     users w' !! uid = Some (favorites w') /\
     localStorage_favorites w' = Some (favorites w') /\
     NoDup (favorites w') /\
     (flatId ∈ favorites w' <-> flatId ∉ favorites w)).
Proof.
  split; [|split].
  - cbv zeta. unfold exec, authStateChanged, forgetFavorites, bind, modify.
    rewrite not_awaited_run. cbn [snd].
    set (w1 := set_localStorage_favorites None _).
    destruct (fetchFlats_frame R S true w1) as (_ & -> & _ & -> & -> & ->).
    repeat split.
  - intros uid email favs Hget Huser. cbv zeta.
    unfold exec, authStateChanged, showToast, bind, modify.
    rewrite not_awaited_run. cbn [fst snd fmap option_fmap option_map].
    rewrite not_awaited_run. cbn [snd].
    set (w1 := set_toasts _ _).
    destruct (fetchFlats_frame R S true w1) as (_ & Hfav & _ & Hls & Husers & Hcur).
    set (w2 := exec (fetchFlats true) w1) in *.
    unfold exec at 1 2 3 4, loadFavorites, try_catch, await_getDoc, bind, gets, modify.
    rewrite Hget, Husers. change (users w1) with (users w). rewrite Huser. cbn.
    rewrite Husers, Hcur. repeat split.
  - intros uid flatId Huid Hget Hset Hsync Hnodup. cbv zeta.
    unfold exec, toggleFavorite, try_catch, await_getDoc, await_setDoc, showToast,
      bind, gets, modify, ret.
    rewrite Huid, Hget, Hset. cbn [fst snd]. rewrite Hsync.
    cbn -[fetchFlats not_awaited includes List.filter remove_first].
    destruct (includes (favorites w) flatId) eqn:Hinc;
      cbn -[fetchFlats not_awaited includes List.filter remove_first].
    + apply includes_elem_of in Hinc.
      set (w3 := set_localStorage_favorites _ _).
      assert (Hfin : forall wf,
                favorites wf = favorites w3 -> users wf = users w3 ->
                localStorage_favorites wf = localStorage_favorites w3 ->
                users wf !! uid = Some (favorites wf) /\
                localStorage_favorites wf = Some (favorites wf) /\
                NoDup (favorites wf) /\
                (flatId ∈ favorites wf <-> flatId ∉ favorites w)).
      { intros wf -> -> ->. subst w3. cbn.
        rewrite lookup_insert_eq, (remove_first_filter _ _ Hnodup).
        repeat split.
        - apply NoDup_ListNoDup, List.NoDup_filter, NoDup_ListNoDup, Hnodup.
        - intros Hin. apply list_elem_of_In, List.filter_In in Hin as [_ Hin].
          rewrite String.eqb_refl in Hin. discriminate.
        - intros Hnot. contradiction. }
      destruct (showFavorites (currentFilters w)).
      * rewrite not_awaited_run. cbn [snd].
        destruct (fetchFlats_frame R S true w3) as (_ & Hfav & _ & Hls & Husers & _).
        apply Hfin; assumption.
      * apply Hfin; reflexivity.
    + assert (Hnot : flatId ∉ favorites w).
      { intros Hin. apply includes_elem_of in Hin. congruence. }
      set (w3 := set_localStorage_favorites _ _).
      assert (Hfin : forall wf,
                favorites wf = favorites w3 -> users wf = users w3 ->
                localStorage_favorites wf = localStorage_favorites w3 ->
                users wf !! uid = Some (favorites wf) /\
                localStorage_favorites wf = Some (favorites wf) /\
                NoDup (favorites wf) /\
                (flatId ∈ favorites wf <-> flatId ∉ favorites w)).
      { intros wf -> -> ->. subst w3. cbn.
        rewrite lookup_insert_eq.
        repeat split.
        - apply NoDup_app. repeat split; [exact Hnodup| |apply NoDup_singleton].
          intros x Hx Hx'. apply list_elem_of_singleton in Hx'. subst x. contradiction.
        - intros _. exact Hnot.
        - intros _. apply elem_of_app. right. apply list_elem_of_singleton. reflexivity. }
      destruct (showFavorites (currentFilters w)).
      * rewrite not_awaited_run. cbn [snd].
        destruct (fetchFlats_frame R S true w3) as (_ & Hfav & _ & Hls & Husers & _).
        apply Hfin; assumption.
      * apply Hfin; reflexivity.
Qed.

(** ** Amenities *)

(** C9: for every stored value, [parseAmenities] returns an array; it
    has no exit by exception, the two [JSON.parse] calls being caught.
    The array is empty for an absent value, for a serialized text that
    does not parse (alone or wrapped in an array) and for a value that
    is neither an array nor a bracketed text; an array that wraps no
    serialized text gives its string items. *)
Theorem parseAmenities_degrades_to_empty (R : JsRuntime) (amenitiesData : JsValue) :
  JSON_arrays R ->
  (exists items, parseAmenities amenitiesData = JArr items) /\
  (truthy amenitiesData = false -> parseAmenities amenitiesData = JArr []) /\
  (forall s, amenitiesData = JStr s \/ amenitiesData = JArr [JStr s] ->
     bracketed s = true -> JSON_parse s = None ->
     parseAmenities amenitiesData = JArr []) /\
  ((forall items, amenitiesData <> JArr items) ->
   (forall s, amenitiesData = JStr s -> bracketed s = false) ->
   parseAmenities amenitiesData = JArr []) /\
  (forall items, amenitiesData = JArr items ->
     (forall s, items = [JStr s] -> bracketed s = false) ->
     parseAmenities amenitiesData = JArr (List.filter is_string items)).
Proof.
  intros Harrays.
  assert (Hparsed : forall s, bracketed s = true ->
            exists items, match JSON_parse s with
                          | Some parsed => parsed
                          | None => JArr []
                          end = JArr items).
  { intros s Hs. unfold bracketed in Hs. apply andb_true_iff in Hs as [Hs _].
    destruct (JSON_parse s) as [parsed|] eqn:Hp; [|eauto].
    exact (Harrays s parsed Hs Hp). }
  split; [|split; [|split; [|split]]].
  - unfold parseAmenities.
    destruct (truthy amenitiesData); cbn [negb]; [|eauto].
    destruct amenitiesData as [| | | | s | items | ]; eauto.
    + destruct (bracketed s) eqn:Hs; [apply Hparsed; exact Hs|eauto].
    + destruct items as [|[| | | | s | | ] [|item items]]; eauto.
      destruct (bracketed s) eqn:Hs; [apply Hparsed; exact Hs|eauto].
  - intros Hfalsy. unfold parseAmenities. rewrite Hfalsy. reflexivity.
  - intros s [->| ->] Hs Hfail; unfold parseAmenities;
      destruct (truthy _); cbn [negb]; try reflexivity;
      rewrite Hs, Hfail; reflexivity.
  - intros Hnot_array Hplain. unfold parseAmenities.
    destruct (truthy amenitiesData); cbn [negb]; [|reflexivity].
    destruct amenitiesData as [| | | | s | items | ]; try reflexivity.
    + rewrite (Hplain s eq_refl). reflexivity.
    + contradiction (Hnot_array items). reflexivity.
  - intros items -> Hplain. unfold parseAmenities. cbn [truthy negb].
    destruct items as [|[| | | | s | | ] [|item items]]; try reflexivity.
    rewrite (Hplain s eq_refl). reflexivity.
Qed.

(** ** The relay's ordering *)

Lemma split_char_first c s :
  split_char c s =
    before_char c s ::
      (if includes_char s c then split_char c (after_char c s) else []).
Proof.
  induction s as [|c' s IH]; [reflexivity|].
  cbn. destruct (Ascii.eqb c' c); cbn; [reflexivity|].
  rewrite IH. reflexivity.
Qed.

Lemma before_char_whole c s : includes_char s c = false -> before_char c s = s.
Proof.
  induction s as [|c' s IH]; [reflexivity|].
  cbn. destruct (Ascii.eqb c' c); cbn; [discriminate|].
  intros Hs. rewrite (IH Hs). reflexivity.
Qed.

Lemma fieldAndDirection_dash sortBy :
  includes_char sortBy "-" = true ->
  Relay.fieldAndDirection sortBy =
    (JStr (before_char "-" sortBy), JStr (before_char "-" (after_char "-" sortBy))).
Proof.
  intros Hdash. unfold Relay.fieldAndDirection, Relay.destructure2. rewrite Hdash.
  rewrite (split_char_first "-" sortBy), Hdash.
  rewrite (split_char_first "-" (after_char "-" sortBy)). reflexivity.
Qed.

(** C10 as the code has it: the relay adds no ordering when [sortBy] is
    absent or empty; a [sortBy] without dash orders by the whole value,
    ascending; a [sortBy] with a dash orders by the text before the
    first dash, in the direction given by the text between the first
    dash and the next one, which is all the text after the first dash
    when there is no other. *)
Theorem relay_ordering (r : Relay.FlatsRequest) :
  Relay.orderings (Relay.flatsQuery r) =
    match Relay.query_sortBy r with
    | None => []
    | Some sortBy =>
        if String.eqb sortBy "" then []
        else if includes_char sortBy "-" then
          [(JStr (before_char "-" sortBy),
            JStr (before_char "-" (after_char "-" sortBy)))]
        else [(JStr sortBy, JStr "asc")]
    end /\
  (forall sortBy, includes_char (after_char "-" sortBy) "-" = false ->
     before_char "-" (after_char "-" sortBy) = after_char "-" sortBy).
Proof.
  split; [|intros sortBy; apply before_char_whole].
  unfold Relay.flatsQuery.
  set (wheres := match Relay.query_maxPrice r with Some _ => _ | None => _ end).
  assert (Hwheres : Relay.orderings wheres = []).
  { subst wheres.
    destruct (Relay.query_offerType r) as [offerType|],
      (Relay.query_flatType r) as [flatType|],
      (Relay.query_minPrice r) as [minPrice|],
      (Relay.query_maxPrice r) as [maxPrice|];
      repeat (match goal with |- context [if ?b then _ else _] => destruct b end);
      reflexivity. }
  destruct (Relay.query_sortBy r) as [sortBy|]; [|exact Hwheres].
  cbn [truthy]. destruct (String.eqb sortBy ""); cbn [negb]; [exact Hwheres|].
  destruct (includes_char sortBy "-") eqn:Hdash.
  - rewrite (fieldAndDirection_dash sortBy Hdash).
    unfold Relay.orderings in *. rewrite omap_app, Hwheres. reflexivity.
  - unfold Relay.fieldAndDirection, Relay.destructure2. rewrite Hdash. cbn [nth].
    unfold Relay.orderings in *. rewrite omap_app, Hwheres. reflexivity.
Qed.

(** ** The theorems at work on the reference instances *)

Module Examples.
Import Reference ReferenceFacts.

Example parseFloat_integer : parseFloat "1000" = Finite 1000.
Proof. reflexivity. Qed.

Example parseFloat_prefix : parseFloat " 12.5sqft" = Finite (25 # 2).
Proof. reflexivity. Qed.

Example parseFloat_exponent : parseFloat "-3e2" = Finite (-300).
Proof. reflexivity. Qed.

Example parseFloat_small : parseFloat ".5e-1" = Finite (1 # 20).
Proof. reflexivity. Qed.

Example parseFloat_text : parseFloat "abc" = NaN.
Proof. reflexivity. Qed.

Example parseFloat_empty : parseFloat "" = NaN.
Proof. reflexivity. Qed.

Example split_two : split_char "-" "price-desc" = ["price"; "desc"].
Proof. reflexivity. Qed.

(** Flats to rent between 950 and 1900, cheapest first: the store holds
    four of them. *)
Example rent_in_range :
  let w' := exec (handleApplyFilters (R := engine) (S := online)
                    (Some (controls "rent" "all" "950" "1900" "price-asc" false))) loaded in
  (fun flat => prop flat "id") <$> allFlatsData w' =
    [JStr "f5"; JStr "f2"; JStr "f6"; JStr "f4"] /\
  shown_prices w' = ["USD 1000"; "USD 1200"; "USD 1500"; "USD 1800"] /\
  loadMoreBtn_hidden w' = true.
Proof. vm_compute. repeat split. Qed.

Lemma apply_fetches_only_matching_flats_witness :
  let w' := Nat.iter 1 (exec (handleLoadMore (R := engine) (S := online)))
              (exec (handleApplyFilters (R := engine) (S := online)
                       (Some (controls "rent" "all" "950" "1900" "price-asc" false))) loaded) in
  currentFilters w' =
    applyControls (controls "rent" "all" "950" "1900" "price-asc" false)
      (currentFilters loaded) /\
  Forall (satisfies_filters (currentFilters w')) (allFlatsData w').
Proof.
  apply (apply_fetches_only_matching_flats engine online
           (controls "rent" "all" "950" "1900" "price-asc" false) loaded 1).
  - apply store_honours.
  - reflexivity.
Defined.

Lemma fetch_without_favorites_short_circuits_witness :
  let w' := exec (fetchFlats (R := engine) (S := online) true) only_favorites in
  outcome (fetchFlats (R := engine) (S := online) true) only_favorites = Returned tt /\
  requests w' = requests only_favorites /\
  flatsList w' = [] /\
  allFlatsData w' = [] /\
  noFlatsMessage_hidden w' = false /\
  noFlatsMessage_text w' = "No favorite apartments found." /\
  loadMoreBtn_hidden w' = true /\
  forall S' : Store, exec (fetchFlats (R := engine) (S := S') true) only_favorites = w'.
Proof.
  apply (fetch_without_favorites_short_circuits engine online true only_favorites);
    reflexivity.
Defined.

Example rentals_fill_a_page :
  (fun flat => prop flat "id") <$> allFlatsData rentals =
    [JStr "f8"; JStr "f4"; JStr "f6"; JStr "f2"; JStr "f5"; JStr "f1"] /\
  doc_id <$> lastVisibleFlat rentals = Some "f1" /\
  loadMoreBtn_hidden rentals = false.
Proof. vm_compute. repeat split. Qed.

(** C3, counterexample: the six rentals are shown, the store becomes
    unreachable and the filters are applied again: the query is
    rejected and [allFlatsData] is not what it was before the call,
    it is empty. *)
Lemma rejected_reset_empties_the_records :
  fetchRejected (S := offline) true rentals = true /\
  length (allFlatsData rentals) = 6 /\
  allFlatsData (exec (fetchFlats (R := engine) (S := offline) true) rentals) = [].
Proof. vm_compute. repeat split. Qed.

Lemma rejected_fetch_merges_nothing_witness :
  let w' := exec (fetchFlats (R := engine) (S := offline) false) rentals in
  allFlatsData w' = allFlatsData rentals /\
  lastVisibleFlat w' = lastVisibleFlat rentals /\
  flatsList w' = [] /\
  toasts w' = toasts rentals ++ [("Error loading apartments.", "error")] /\
  noFlatsMessage_hidden w' = false /\
  noFlatsMessage_text w' = "Error loading apartments." /\
  exists q, fetchQuery false rentals = Some q /\ requests w' = requests rentals ++ [q].
Proof.
  apply (rejected_fetch_merges_nothing engine offline false rentals). reflexivity.
Defined.

(** C4, counterexample: the six rentals are shown and more are asked
    for: the fetch succeeds with an empty page, and the cursor is
    still the last of the six, not absent. *)
Lemma cursor_survives_an_empty_page :
  fetchedPage (R := engine) (S := online) false rentals = Some [] /\
  doc_id <$> lastVisibleFlat (exec (fetchFlats (R := engine) (S := online) false) rentals)
    = Some "f1".
Proof. vm_compute. repeat split. Qed.

Lemma cursor_after_fetch_witness :
  lastVisibleFlat (exec (fetchFlats (R := engine) (S := online) false) rentals) =
    match last [] with
    | Some d => Some d
    | None => lastVisibleFlat rentals
    end.
Proof. apply (cursor_after_fetch engine online false rentals []). reflexivity. Defined.

Lemma load_more_iff_full_page_witness :
  CONFIG.flatsPerPage = 6 /\
  (loadMoreBtn_hidden (exec (fetchFlats (R := engine) (S := online) true) rentals) = false <->
   length (answer flats
             {| collectionName := "flats";
                constraints := [Where (FieldName "offerType") OpEq (JStr "rent");
                                OrderBy "price" "desc"; Limit 6] |})
     = CONFIG.flatsPerPage).
Proof.
  apply (load_more_iff_full_page engine online true rentals). reflexivity.
Defined.

(** C6, counterexample: a lower bound that does not parse is not
    treated as absent: the query carries a price predicate, with
    [NaN] as its operand. *)
Lemma unparsable_bound_is_not_absent :
  let c := controls "all" "all" "abc" "" "price-desc" false in
  let w' := exec (handleApplyFilters (R := engine) (S := online) (Some c)) loaded in
  parseFloat (minPriceFilter c) = NaN /\
  priceBounds <$> requests w' = [[Where (FieldName "price") OpGe (JNum NaN)]].
Proof. vm_compute. repeat split. Qed.

Lemma price_bounds_of_applied_filters_witness :
  let c := controls "rent" "all" "950" "" "price-asc" false in
  let q := {| collectionName := "flats";
              constraints := [Where (FieldName "offerType") OpEq (JStr "rent");
                              Where (FieldName "price") OpGe (JNum (Finite 950));
                              OrderBy "price" "asc"; Limit 6] |} in
  let f := currentFilters (exec (handleApplyFilters (R := engine) (S := online) (Some c)) loaded) in
  minPrice f = "950" /\ maxPrice f = "" /\
  priceBounds q = [Where (FieldName "price") OpGe (JNum (parseFloat "950"))] ++ [].
Proof.
  apply (price_bounds_of_applied_filters engine online
           (controls "rent" "all" "950" "" "price-asc" false) loaded). reflexivity.
Defined.

(** The rentals in euros, and in dollars again. *)
Example rentals_in_euros :
  let prices := shown_prices in
  let euros := exec (handleCurrencyChange (R := engine) "EUR") rentals in
  prices rentals = ["USD 2000"; "USD 1800"; "USD 1500"; "USD 1200"; "USD 1000"; "USD 900"] /\
  prices euros = ["EUR 1840"; "EUR 1656"; "EUR 1380"; "EUR 1104"; "EUR 920"; "EUR 828"] /\
  prices (exec (handleCurrencyChange (R := engine) "USD") euros) = prices rentals /\
  requests euros = requests rentals.
Proof. vm_compute. repeat split. Qed.

(** C8, counterexample: Ann's favourites are in memory and in local
    storage while she is signed in; once she is signed out the cached
    list is gone. *)
Lemma sign_out_clears_the_cache :
  favorites ann_signed_in = ["f2"] /\
  localStorage_favorites ann_signed_in = Some ["f2"] /\
  localStorage_favorites
    (exec (authStateChanged (R := engine) (S := online) None) ann_signed_in) = None.
Proof. vm_compute. repeat split. Qed.

Example guest_cannot_toggle :
  let w' := exec (toggleFavorite (R := engine) (S := online) "f2") loaded in
  favorites w' = favorites loaded /\
  toasts w' = [("Please log in to manage favorites.", "info")].
Proof. vm_compute. repeat split. Qed.

Example ann_adds_a_favorite :
  let w' := exec (toggleFavorite (R := engine) (S := online) "f4") ann_signed_in in
  favorites w' = ["f2"; "f4"] /\
  users w' !! "u1" = Some ["f2"; "f4"] /\
  localStorage_favorites w' = Some ["f2"; "f4"].
Proof. vm_compute. repeat split. Qed.

Example amenities_from_text :
  parseAmenities (R := engine) (JArr [JStr serialized_amenities]) =
    JArr [JStr "gym"; JStr "pool"] /\
  parseAmenities (R := engine) (JStr serialized_amenities) =
    JArr [JStr "gym"; JStr "pool"] /\
  parseAmenities (R := engine) (JStr "[gym, pool]") = JArr [] /\
  parseAmenities (R := engine) (JArr [JStr "gym"; JNum (Finite 3); JStr "pool"]) =
    JArr [JStr "gym"; JStr "pool"] /\
  parseAmenities (R := engine) (JStr "gym, pool") = JArr [] /\
  parseAmenities (R := engine) (JNum (Finite 7)) = JArr [].
Proof. vm_compute. repeat split. Qed.

Lemma parseAmenities_degrades_to_empty_witness :
  let amenitiesData := JStr "[gym, pool]" in
  (exists items, parseAmenities (R := engine) amenitiesData = JArr items) /\
  (truthy amenitiesData = false -> parseAmenities (R := engine) amenitiesData = JArr []) /\
  (forall s, amenitiesData = JStr s \/ amenitiesData = JArr [JStr s] ->
     bracketed s = true -> JSON_parse (JsRuntime := engine) s = None ->
     parseAmenities (R := engine) amenitiesData = JArr []) /\
  ((forall items, amenitiesData <> JArr items) ->
   (forall s, amenitiesData = JStr s -> bracketed s = false) ->
   parseAmenities (R := engine) amenitiesData = JArr []) /\
  (forall items, amenitiesData = JArr items ->
     (forall s, items = [JStr s] -> bracketed s = false) ->
     parseAmenities (R := engine) amenitiesData = JArr (List.filter is_string items)).
Proof.
  apply (parseAmenities_degrades_to_empty engine (JStr "[gym, pool]")).
  apply parse_arrays.
Defined.

(** All flats, dearest first, page after page: six, then the other two,
    then none. *)
Example three_pages :
  let w1 := exec (handleApplyFilters (R := engine) (S := online)
                    (Some (controls "all" "all" "" "" "price-desc" false))) loaded in
  let w2 := exec (handleLoadMore (R := engine) (S := online)) w1 in
  let w3 := exec (handleLoadMore (R := engine) (S := online)) w2 in
  let ids w := (fun flat => prop flat "id") <$> allFlatsData w in
  (ids w1 = [JStr "f3"; JStr "f7"; JStr "f8"; JStr "f4"; JStr "f6"; JStr "f2"] /\
   loadMoreBtn_hidden w1 = false) /\
  (ids w2 = ids w1 ++ [JStr "f5"; JStr "f1"] /\
   shown_prices w2 = ["USD 1000"; "USD 900"] /\
   loadMoreBtn_hidden w2 = true) /\
  (ids w3 = ids w2 /\
   toasts w3 = [("No more apartments to load.", "info")] /\
   length (requests w3) = 3).
Proof. vm_compute. repeat split. Qed.

(** C10, counterexample: with two dashes the direction is the text
    between them, not the text after the first. *)
Lemma direction_stops_at_the_second_dash :
  Relay.orderings
    (Relay.flatsQuery
       {| Relay.query_offerType := None; Relay.query_flatType := None;
          Relay.query_minPrice := None; Relay.query_maxPrice := None;
          Relay.query_sortBy := Some "price-desc-x" |})
    = [(JStr "price", JStr "desc")] /\
  after_char "-" "price-desc-x" = "desc-x".
Proof. vm_compute. repeat split. Qed.

Example relay_price_desc :
  Relay.flatsQuery
    {| Relay.query_offerType := Some "rent"; Relay.query_flatType := Some "all";
       Relay.query_minPrice := Some "1000"; Relay.query_maxPrice := None;
       Relay.query_sortBy := Some "price-desc" |}
    = [Relay.where_ "offerType" "==" (JStr "rent");
       Relay.where_ "price" ">=" (JNum (Finite 1000));
       Relay.orderBy (JStr "price") (JStr "desc")].
Proof. vm_compute. reflexivity. Qed.

End Examples.

(** * More properties of the script *)

(** ** Pages *)

Lemma render_cards_made (R : JsRuntime) flats w :
  outcome (forEach flats appendCard) w = Returned tt ->
  exists cards,
    flatsList (exec (forEach flats appendCard) w) = flatsList w ++ (FlatCard <$> cards) /\
    Forall2 (fun flat card => outcome (createFlatCard flat) w = Returned card) flats cards.
Proof.
  revert w. induction flats as [|flat flats IH]; intros w.
  - intros _. exists []. cbn. rewrite app_nil_r. split; [reflexivity|constructor].
  - unfold outcome, exec. cbn. unfold bind. rewrite appendCard_run.
    destruct (outcome (createFlatCard flat) w) as [card|e] eqn:Hcard; [|discriminate].
    intros Hrest.
    destruct (IH (set_flatsList (flatsList w ++ [FlatCard card]) w) Hrest)
      as (cards & Hlist & Hmade).
    exists (card :: cards). split.
    + unfold exec in Hlist. rewrite Hlist. cbn. rewrite <- app_assoc. reflexivity.
    + constructor; [exact Hcard|].
      eapply Forall2_impl; [exact Hmade|].
      intros flat' card' Hmade'. cbn beta in Hmade'. rewrite <- Hmade'.
      apply createFlatCard_currency. reflexivity.
Qed.

Lemma createFlatCard_id (R : JsRuntime) flat w card :
  outcome (createFlatCard flat) w = Returned card ->
  card_flat_id card = js_or (prop flat "id") (JStr "unknown").
Proof.
  unfold outcome, createFlatCard, bind. rewrite formatPrice_run.
  destruct (priceText _ _) as [text|]; [|discriminate].
  destruct (js_or (prop flat "offerType") _); try discriminate.
  cbn.
  destruct (parseAmenities _) as [| | | | s' |items|];
    try discriminate; try (intros [= <-]; reflexivity).
  - destruct (String.eqb s' ""); [|discriminate]. intros [= <-]. reflexivity.
  - rewrite amenity_labels_run. cbn.
    destruct (fst (mapProg items amenity_label w)); [|discriminate].
    intros [= <-]. reflexivity.
Qed.

Lemma showPage_documents (R : JsRuntime) reset d docs w :
  showPage reset (d :: docs) w =
    let flats := flat_of_doc <$> d :: docs in
    let w1 := set_flatsList [] (set_allFlatsData (allFlatsData w ++ flats) w) in
    match forEach flats appendCard w1 with
    | (Returned _, w2) =>
        (Returned tt,
         set_noFlatsMessage_hidden true
           (set_loadMoreBtn_hidden (negb (length flats =? CONFIG.flatsPerPage)%nat)
              (set_displayedFlatsCount (displayedFlatsCount w2 + length flats)
                 (set_lastVisibleFlat (last (d :: docs)) w2))))
    | (Threw e, w2) => (Threw e, w2)
    end.
Proof.
  unfold showPage.
  assert (Hlen : (0 <? length (flat_of_doc <$> d :: docs))%nat = true) by reflexivity.
  rewrite Hlen. clear Hlen. cbv zeta.
  generalize (flat_of_doc <$> d :: docs). intros flats.
  unfold bind, modify.
  destruct (forEach flats appendCard _) as [[[]|e] w2]; reflexivity.
Qed.

(** The world after a fetch whose query the store answered with a page
    that has documents: the flats are merged, and either every card is
    made and cursor, count and buttons follow, or a card throws and the
    [catch] block runs on what was done so far. *)
Lemma fetchFlats_page (R : JsRuntime) (S : Store) reset w q d docs :
  flatsList_available w = true ->
  fetchQuery reset w = Some q ->
  getDocs q = Some (d :: docs) ->
  let flats := flat_of_doc <$> d :: docs in
  let w0 := (if reset then resetPagination else id)
              (set_flatsList (replicate CONFIG.skeletonCount SkeletonCard)
                 (set_elements_flatsList true w)) in
  let w1 := set_flatsList []
              (set_allFlatsData (allFlatsData w0 ++ flats)
                 (set_requests (requests w0 ++ [q]) w0)) in
  exists nodes,
    exec (fetchFlats reset) w =
      (if forallb (renders w) flats then
         set_noFlatsMessage_hidden true
           (set_loadMoreBtn_hidden (negb (length flats =? CONFIG.flatsPerPage)%nat)
              (set_displayedFlatsCount (displayedFlatsCount w0 + length flats)
                 (set_lastVisibleFlat (last (d :: docs)) (set_flatsList nodes w1))))
       else exec fetchFailed (set_flatsList nodes w1)) /\
    (forallb (renders w) flats = true ->
     exists cards, nodes = FlatCard <$> cards /\
       Forall2 (fun flat card => outcome (createFlatCard flat) w = Returned card) flats cards).
Proof.
  intros Hav Hq Hdocs. cbv zeta.
  unfold exec at 1. rewrite (fetchFlats_try reset w Hav).
  set (w0 := (if reset then resetPagination else id) _).
  assert (Hf : currentFilters w0 = currentFilters w) by (destruct reset; reflexivity).
  assert (Hfav : favorites w0 = favorites w) by (destruct reset; reflexivity).
  assert (Hcur : lastVisibleFlat w0 = if reset then None else lastVisibleFlat w)
    by (destruct reset; reflexivity).
  assert (Hcurrency : currentCurrency w0 = currentCurrency w) by (destruct reset; reflexivity).
  unfold try_catch. rewrite fetchAttempt_run, Hf, Hfav, Hcur.
  unfold fetchQuery in Hq. rewrite Hq, Hdocs, showPage_documents. cbv zeta.
  set (flats := flat_of_doc <$> d :: docs).
  set (w1 := set_flatsList [] _).
  assert (Hw1 : currentCurrency w1 = currentCurrency w) by exact Hcurrency.
  destruct (render_world flats w1) as [nodes Hnodes].
  change (flatsList w1 ++ nodes) with nodes in Hnodes.
  exists nodes.
  pose proof (render_outcome flats w1) as Hout.
  rewrite (all_render_currency flats w1 w Hw1) in Hout.
  split.
  - unfold exec, outcome in Hnodes, Hout.
    destruct (forEach flats appendCard w1) as [[[]|e] w2]; cbn [fst snd] in Hnodes, Hout;
      subst w2.
    + rewrite (proj1 Hout eq_refl). reflexivity.
    + destruct (forallb (renders w) flats); [|reflexivity].
      destruct Hout as [_ Hout]. discriminate (Hout eq_refl).
  - intros Hall. apply Hout in Hall.
    destruct (render_cards_made R flats w1 Hall) as (cards & Hlist & Hmade).
    exists cards. split.
    + rewrite Hnodes in Hlist. exact Hlist.
    + eapply Forall2_impl; [exact Hmade|].
      intros flat card Hcard. cbn beta in Hcard. rewrite <- Hcard.
      apply createFlatCard_currency. symmetry. exact Hw1.
Qed.

(** The world after a fetch that gets no document: it returned early,
    its query was rejected, or the page was empty. *)
Lemma fetchFlats_no_documents (R : JsRuntime) (S : Store) reset w :
  flatsList_available w = true ->
  match fetchQuery reset w with
  | None => True
  | Some q => getDocs q = None \/ getDocs q = Some []
  end ->
  let w' := exec (fetchFlats reset) w in
  allFlatsData w' = (if reset then [] else allFlatsData w) /\
  displayedFlatsCount w' = (if reset then 0 else displayedFlatsCount w) /\
  lastVisibleFlat w' = (if reset then None else lastVisibleFlat w) /\
  flatsList w' = [].
Proof.
  intros Hav Hcase. cbv zeta. unfold exec. rewrite (fetchFlats_try reset w Hav).
  set (w0 := (if reset then resetPagination else id) _).
  assert (Hf : currentFilters w0 = currentFilters w) by (destruct reset; reflexivity).
  assert (Hfav : favorites w0 = favorites w) by (destruct reset; reflexivity).
  assert (Hcur : lastVisibleFlat w0 = if reset then None else lastVisibleFlat w)
    by (destruct reset; reflexivity).
  unfold try_catch. rewrite fetchAttempt_run, Hf, Hfav, Hcur.
  unfold fetchQuery in Hcase.
  destruct (composeQuery _ _ _) as [q|].
  - destruct Hcase as [-> | ->].
    + subst w0. destruct reset; cbn; repeat split; reflexivity.
    + rewrite showPage_empty. subst w0. destruct reset; cbn; repeat split; reflexivity.
  - subst w0. destruct reset; cbn; repeat split; reflexivity.
Qed.

(** X1: a reset that succeeds replaces the records: [allFlatsData] is
    exactly the page just fetched, whatever it held before, and the
    count of displayed flats is the size of that page. *)
Theorem reset_replaces_the_records (R : JsRuntime) (S : Store)
    (w : World) (docs : list DocSnap) :
  fetchedPage true w = Some docs ->
  let w' := exec (fetchFlats true) w in
  allFlatsData w' = flat_of_doc <$> docs /\
  displayedFlatsCount w' = length docs /\
  displayedFlatsCount w' = length (allFlatsData w').
Proof.
  unfold fetchedPage. intros Hpage. cbv zeta.
  destruct (flatsList_available w) eqn:Hav; [|discriminate].
  destruct (fetchQuery true w) as [q|] eqn:Hq; [|discriminate].
  destruct (getDocs q) as [docs'|] eqn:Hdocs; [|discriminate].
  destruct (forallb _ docs') eqn:Hrender; [|discriminate].
  injection Hpage as ->.
  destruct docs as [|d docs].
  - destruct (fetchFlats_no_documents R S true w Hav) as (-> & -> & _).
    + rewrite Hq. right. exact Hdocs.
    + repeat split.
  - destruct (fetchFlats_page R S true w q d docs Hav Hq Hdocs) as (nodes & Hworld & _).
    cbv zeta in Hworld.
    assert (Hall : forallb (renders w) (flat_of_doc <$> d :: docs) = true).
    { rewrite <- Hrender. clear. generalize (d :: docs). intros l.
      induction l as [|x l IH]; [reflexivity|]. cbn. rewrite IH. reflexivity. }
    rewrite Hall in Hworld. rewrite Hworld. cbn -[fmap].
    rewrite length_fmap. repeat split.
Qed.


(** X3: the count of displayed flats never exceeds the number of
    records: a fetch, reset or continuation, successful or not, keeps
    [displayedFlatsCount <= allFlatsData.length]. *)
Theorem displayed_count_within_records (R : JsRuntime) (S : Store)
    (reset : bool) (w : World) :
  displayedFlatsCount w <= length (allFlatsData w) ->
  let w' := exec (fetchFlats reset) w in
  displayedFlatsCount w' <= length (allFlatsData w').
Proof.
  intros Hinv. cbv zeta.
  destruct (flatsList_available w) eqn:Hav.
  - destruct (fetchQuery reset w) as [q|] eqn:Hq.
    + destruct (getDocs q) as [[|d docs]|] eqn:Hdocs.
      * destruct (fetchFlats_no_documents R S reset w Hav) as (-> & -> & _).
        { rewrite Hq. right. exact Hdocs. }
        destruct reset; [reflexivity|exact Hinv].
      * destruct (fetchFlats_page R S reset w q d docs Hav Hq Hdocs) as (nodes & -> & _).
        cbv zeta. destruct (forallb _ _).
        -- destruct reset; cbn -[fmap]; rewrite ?length_app; cbn -[fmap]; lia.
        -- destruct reset; cbn -[fmap]; rewrite ?length_app; cbn -[fmap]; lia.
      * destruct (fetchFlats_no_documents R S reset w Hav) as (-> & -> & _).
        { rewrite Hq. left. exact Hdocs. }
        destruct reset; [reflexivity|exact Hinv].
    + destruct (fetchFlats_no_documents R S reset w Hav) as (-> & -> & _).
      { rewrite Hq. exact I. }
      destruct reset; [reflexivity|exact Hinv].
  - unfold exec. rewrite fetchFlats_unavailable by exact Hav. exact Hinv.
Qed.

(** X4: after a successful fetch the list shows the page just fetched
    and nothing else: one card per document of that page, in order,
    each with the id and the price text of its flat.  After a load-more
    the cards of the earlier pages are gone from the list, while
    [allFlatsData] still holds their flats. *)
Theorem list_shows_the_last_page (R : JsRuntime) (S : Store)
    (reset : bool) (w : World) (docs : list DocSnap) :
  fetchedPage reset w = Some docs ->
  let w' := exec (fetchFlats reset) w in
  exists cards,
    flatsList w' = FlatCard <$> cards /\
    Forall2 (fun d card =>
               card_flat_id card = js_or (prop (flat_of_doc d) "id") (JStr "unknown") /\
               priceText (currentCurrency w)
                 (js_or (prop (flat_of_doc d) "price") (JNum (Finite 0)))
                 = Some (card_price card))
      docs cards /\
    allFlatsData w' = (if reset then [] else allFlatsData w) ++ (flat_of_doc <$> docs).
Proof.
  unfold fetchedPage. intros Hpage. cbv zeta.
  destruct (flatsList_available w) eqn:Hav; [|discriminate].
  destruct (fetchQuery reset w) as [q|] eqn:Hq; [|discriminate].
  destruct (getDocs q) as [docs'|] eqn:Hdocs; [|discriminate].
  destruct (forallb _ docs') eqn:Hrender; [|discriminate].
  injection Hpage as ->.
  destruct docs as [|d docs].
  - destruct (fetchFlats_no_documents R S reset w Hav) as (-> & _ & _ & ->).
    + rewrite Hq. right. exact Hdocs.
    + exists []. cbn. rewrite app_nil_r. repeat split. constructor.
  - destruct (fetchFlats_page R S reset w q d docs Hav Hq Hdocs) as (nodes & Hworld & Hcards).
    cbv zeta in Hworld, Hcards.
    assert (Hall : forallb (renders w) (flat_of_doc <$> d :: docs) = true).
    { rewrite <- Hrender. clear. generalize (d :: docs). intros l.
      induction l as [|x l IH]; [reflexivity|]. cbn. rewrite IH. reflexivity. }
    rewrite Hall in Hworld. destruct (Hcards Hall) as (cards & -> & Hmade).
    exists cards. rewrite Hworld. split; [reflexivity|]. split.
    + apply Forall2_fmap_l in Hmade.
      eapply Forall2_impl; [exact Hmade|].
      intros d' card Hcard. cbn beta in Hcard. split.
      * eapply createFlatCard_id. exact Hcard.
      * eapply createFlatCard_price. exact Hcard.
    + destruct reset; reflexivity.
Qed.

(** X5: when the store answers with a page but a card of it cannot be
    made, the flats of the page are already merged into [allFlatsData]
    while the cursor and the displayed count are not advanced, and the
    error is shown; on a continuation the next load-more therefore asks
    for the same page again. *)
Theorem unrendered_page_is_merged_not_passed (R : JsRuntime) (S : Store)
    (reset : bool) (w : World) (q : Query) (docs : list DocSnap) :
  flatsList_available w = true ->
  fetchQuery reset w = Some q ->
  getDocs q = Some docs ->
  forallb (fun d => renders w (flat_of_doc d)) docs = false ->
  let w' := exec (fetchFlats reset) w in
  allFlatsData w' = (if reset then [] else allFlatsData w) ++ (flat_of_doc <$> docs) /\
  lastVisibleFlat w' = (if reset then None else lastVisibleFlat w) /\
  displayedFlatsCount w' = (if reset then 0 else displayedFlatsCount w) /\
  flatsList w' = [] /\
  noFlatsMessage_hidden w' = false /\
  noFlatsMessage_text w' = "Error loading apartments." /\
  toasts w' = toasts w ++ [("Error loading apartments.", "error")] /\
  (reset = false -> fetchQuery false w' = Some q).
Proof.
  intros Hav Hq Hdocs Hrender. cbv zeta.
  destruct docs as [|d docs]; [discriminate|].
  destruct (fetchFlats_page R S reset w q d docs Hav Hq Hdocs) as (nodes & Hworld & _).
  cbv zeta in Hworld.
  assert (Hall : forallb (renders w) (flat_of_doc <$> d :: docs) = false).
  { rewrite <- Hrender. clear. generalize (d :: docs). intros l.
    induction l as [|x l IH]; [reflexivity|]. cbn. rewrite IH. reflexivity. }
  rewrite Hall in Hworld. rewrite Hworld.
  destruct reset; cbn -[fmap]; repeat split; try reflexivity.
  - discriminate.
  - intros _. exact Hq.
Qed.

Lemma forEach_appendCard_filters (R : JsRuntime) f flats w :
  forEach flats appendCard (set_currentFilters f w) =
    (fst (forEach flats appendCard w), set_currentFilters f (snd (forEach flats appendCard w))).
Proof.
  revert w. induction flats as [|flat flats IH]; intros w; [reflexivity|].
  cbn. unfold bind. rewrite !appendCard_run.
  rewrite (createFlatCard_currency flat (set_currentFilters f w) w) by reflexivity.
  destruct (outcome (createFlatCard flat) w) as [card|e]; [|reflexivity].
  change (set_flatsList (flatsList (set_currentFilters f w) ++ [FlatCard card])
            (set_currentFilters f w))
    with (set_currentFilters f (set_flatsList (flatsList w ++ [FlatCard card]) w)).
  apply IH.
Qed.

Lemma composeQuery_searchTerm text f favs cursor :
  composeQuery (with_searchTerm text f) favs cursor = composeQuery f favs cursor.
Proof.
  unfold composeQuery, filterConstraints, orderAndPage, orderConstraint, with_searchTerm.
  cbn [offerType flatType minPrice maxPrice sortBy showFavorites].
  reflexivity.
Qed.

Lemma showPage_filters (R : JsRuntime) f reset docs w :
  showPage reset docs (set_currentFilters f w) =
    (fst (showPage reset docs w), set_currentFilters f (snd (showPage reset docs w))).
Proof.
  destruct docs as [|d docs].
  - rewrite !showPage_empty. destruct reset; reflexivity.
  - rewrite !showPage_documents. cbv zeta.
    set (flats := flat_of_doc <$> d :: docs).
    set (w1 := set_flatsList [] (set_allFlatsData (allFlatsData w ++ flats) w)).
    change (set_flatsList []
              (set_allFlatsData (allFlatsData (set_currentFilters f w) ++ flats)
                 (set_currentFilters f w)))
      with (set_currentFilters f w1).
    rewrite forEach_appendCard_filters.
    destruct (forEach flats appendCard w1) as [[[]|e] w2]; reflexivity.
Qed.

Lemma fetchAttempt_searchTerm (R : JsRuntime) (S : Store) text reset w :
  let ft := with_searchTerm text (currentFilters w) in
  fetchAttempt reset (set_currentFilters ft w) =
    (fst (fetchAttempt reset w), set_currentFilters ft (snd (fetchAttempt reset w))).
Proof.
  cbv zeta. rewrite !fetchAttempt_run.
  change (currentFilters (set_currentFilters ?f w)) with f.
  change (favorites (set_currentFilters ?f w)) with (favorites w).
  change (lastVisibleFlat (set_currentFilters ?f w)) with (lastVisibleFlat w).
  rewrite composeQuery_searchTerm.
  destruct (composeQuery (currentFilters w) (favorites w) (lastVisibleFlat w)) as [q|];
    [|reflexivity].
  destruct (getDocs q) as [docs|]; [|reflexivity].
  change (set_requests (requests (set_currentFilters ?f w) ++ [q]) (set_currentFilters ?f w))
    with (set_currentFilters f (set_requests (requests w ++ [q]) w)).
  apply showPage_filters.
Qed.

Lemma fetchFailed_filters f w :
  fetchFailed (set_currentFilters f w) =
    (fst (fetchFailed w), set_currentFilters f (snd (fetchFailed w))).
Proof. reflexivity. Qed.

Lemma tryFetch_searchTerm (R : JsRuntime) (S : Store) text reset w :
  let ft := with_searchTerm text (currentFilters w) in
  try_catch (fetchAttempt reset) (fun _ => fetchFailed) (set_currentFilters ft w) =
    (fst (try_catch (fetchAttempt reset) (fun _ => fetchFailed) w),
     set_currentFilters ft (snd (try_catch (fetchAttempt reset) (fun _ => fetchFailed) w))).
Proof.
  cbv zeta. unfold try_catch. rewrite fetchAttempt_searchTerm. cbv zeta.
  destruct (fetchAttempt reset w) as [[[]|e] w']; cbn [fst snd]; [reflexivity|].
  apply fetchFailed_filters.
Qed.

Lemma fetchFlats_searchTerm (R : JsRuntime) (S : Store) text reset w :
  let ft := with_searchTerm text (currentFilters w) in
  exec (fetchFlats reset) (set_currentFilters ft w) =
    set_currentFilters ft (exec (fetchFlats reset) w).
Proof.
  cbv zeta. set (ft := with_searchTerm text (currentFilters w)).
  destruct (flatsList_available w) eqn:Hav.
  - assert (Havt : flatsList_available (set_currentFilters ft w) = true) by exact Hav.
    unfold exec. rewrite (fetchFlats_try reset _ Havt), (fetchFlats_try reset w Hav).
    set (w0 := (if reset then resetPagination else id)
                 (set_flatsList _ (set_elements_flatsList true w))).
    assert (Hfilters : currentFilters w0 = currentFilters w)
      by (subst w0; destruct reset; reflexivity).
    assert (Hw0 : (if reset then resetPagination else id)
                    (set_flatsList (replicate CONFIG.skeletonCount SkeletonCard)
                       (set_elements_flatsList true (set_currentFilters ft w)))
                  = set_currentFilters ft w0)
      by (subst w0; destruct reset; reflexivity).
    rewrite Hw0. subst ft. rewrite <- Hfilters.
    rewrite tryFetch_searchTerm. reflexivity.
  - assert (Havt : flatsList_available (set_currentFilters ft w) = false) by exact Hav.
    unfold exec. rewrite (fetchFlats_unavailable R S reset _ Havt).
    rewrite (fetchFlats_unavailable R S reset w Hav). reflexivity.
Qed.

(** X6: the search term is a dead field.  No handler ever sets it, and
    a fetch does not read it: with any other search term the fetch
    sends the same query and leaves the same world, the search term
    apart. *)
Theorem search_term_is_never_used (R : JsRuntime) (S : Store)
    (text : string) (reset : bool) (w : World) :
  let retyped := set_currentFilters (with_searchTerm text (currentFilters w)) in
  exec (fetchFlats reset) (retyped w) = retyped (exec (fetchFlats reset) w) /\
  (forall controls,
     searchTerm (currentFilters (exec (handleApplyFilters controls) w))
       = searchTerm (currentFilters w)).
Proof.
  cbv zeta. split; [apply fetchFlats_searchTerm|].
  intros [c|].
  - unfold exec. rewrite handleApplyFilters_run. cbn [snd].
    destruct (fetchFlats_frame R S true
                (set_currentFilters (applyControls c (currentFilters w)) w)) as (-> & _).
    reflexivity.
  - reflexivity.
Qed.

(** X7: every query the script composes has its constraints in the
    order the store asks for: equality filters, range filters, the
    favourites filter, one ordering (by price or by area, ascending or
    descending), the cursor, and the page size of six as the last. *)
Theorem composed_query_is_well_ordered (f : Filters) (favs : list string)
    (cursor : option DocSnap) (q : Query) :
  composeQuery f favs cursor = Some q ->
  StronglySorted le (constraint_rank <$> constraints q) /\
  last (constraints q) = Some (Limit 6) /\
  (exists field direction,
     List.filter (fun c => constraint_rank c =? 3)%nat (constraints q)
       = [OrderBy field direction] /\
     (field = "price" \/ field = "area") /\ (direction = "asc" \/ direction = "desc")) /\
  (In (Where DocumentId OpIn (JArr (JStr <$> favs))) (constraints q) <->
   showFavorites f = true).
Proof.
  intros Hq. destruct (composeQuery_constraints _ _ _ _ Hq) as [_ Hc]. rewrite Hc.
  assert (Hfavs : showFavorites f = true -> favs <> []).
  { intros Hshow ->. rewrite (composeQuery_no_favorites f cursor Hshow) in Hq. discriminate. }
  assert (Horder : exists field direction,
            orderConstraint f = OrderBy field direction /\
            (field = "price" \/ field = "area") /\ (direction = "asc" \/ direction = "desc")).
  { unfold orderConstraint.
    repeat (match goal with |- context [if ?b then _ else _] => destruct b end);
      eexists _, _; (split; [reflexivity|]); split; auto. }
  destruct Horder as (field & direction & Hord & Hfield & Hdir). rewrite Hord.
  unfold fieldFilters.
  split; [|split; [|split]].
  - destruct (negb (String.eqb (offerType f) "all")), (negb (String.eqb (flatType f) "all")),
      (negb (String.eqb (minPrice f) "")), (negb (String.eqb (maxPrice f) "")),
      (showFavorites f), cursor; cbn;
      repeat (constructor; [|repeat constructor; lia]); constructor.
  - rewrite !app_assoc. destruct cursor; rewrite ?app_comm_cons;
      change (?x :: ?l ++ [?y]) with ((x :: l) ++ [y]); rewrite ?app_assoc, last_snoc;
      reflexivity.
  - exists field, direction. split; [|split; assumption].
    destruct (negb (String.eqb (offerType f) "all")), (negb (String.eqb (flatType f) "all")),
      (negb (String.eqb (minPrice f) "")), (negb (String.eqb (maxPrice f) "")),
      (showFavorites f), cursor; reflexivity.
  - destruct (showFavorites f) eqn:Hshow.
    + split; [reflexivity|]. intros _. rewrite !in_app_iff. right. left. left. reflexivity.
    + split; [|discriminate]. rewrite !in_app_iff. intros Hin.
      destruct (negb (String.eqb (offerType f) "all")), (negb (String.eqb (flatType f) "all")),
        (negb (String.eqb (minPrice f) "")), (negb (String.eqb (maxPrice f) "")), cursor;
        cbn in Hin; intuition discriminate.
Qed.

(** ** Favourites *)

(** What a toggle does for a signed-in user whose record can be read. *)
Lemma toggleFavorite_signed_in (R : JsRuntime) (S : Store) uid flatId w :
  currentUser w = Some uid ->
  getDoc_fails uid = false ->
  let record := default [] (users w !! uid) in
  let removing := includes record flatId in
  let favs' := if removing
               then List.filter (fun id => negb (String.eqb id flatId)) (favorites w)
               else favorites w ++ [flatId] in
  let record' := if removing then remove_first flatId record else record ++ [flatId] in
  let toast := if removing then ("Removed from favorites.", "info")
               else ("Added to favorites!", "success") in
  let w1 := set_toasts (toasts w ++ [toast]) (set_favorites favs' w) in
  let w3 := set_localStorage_favorites (Some favs')
              (set_users (<[uid := record']> (users w)) w1) in
  toggleFavorite flatId w =
    (Returned tt,
     if setDoc_fails uid then
       set_toasts (toasts w1 ++ [("Error updating favorites. Please try again.", "error")]) w1
     else if showFavorites (currentFilters w) then exec (fetchFlats true) w3 else w3).
Proof.
  intros Huid Hget. cbv zeta.
  unfold toggleFavorite, try_catch, await_getDoc, await_setDoc, showToast,
    bind, gets, modify, ret, throw.
  rewrite Huid, Hget. cbn [fst snd].
  destruct (includes (default [] (users w !! uid)) flatId); cbn [fst snd];
    destruct (setDoc_fails uid); cbn [fst snd]; try reflexivity.
  - change (showFavorites (currentFilters (set_localStorage_favorites _ _)))
      with (showFavorites (currentFilters w)).
    destruct (showFavorites (currentFilters w)); [|reflexivity].
    rewrite not_awaited_run. reflexivity.
  - change (showFavorites (currentFilters (set_localStorage_favorites _ _)))
      with (showFavorites (currentFilters w)).
    destruct (showFavorites (currentFilters w)); [|reflexivity].
    rewrite not_awaited_run. reflexivity.
Qed.

(** X8: a toggle by a guest, or one for which the user's record cannot
    be read, changes nothing but the toasts: the favourites, the cache,
    the records and the list stay, and no query is sent. *)
Theorem toggle_without_record_changes_nothing (R : JsRuntime) (S : Store)
    (flatId : string) (w : World) :
  match currentUser w with
  | None => True
  | Some uid => getDoc_fails uid = true
  end ->
  exec (toggleFavorite flatId) w =
    set_toasts
      (toasts w ++
         [match currentUser w with
          | None => ("Please log in to manage favorites.", "info")
          | Some _ => ("Error updating favorites. Please try again.", "error")
          end]) w.
Proof.
  intros Hcase. unfold exec, toggleFavorite, try_catch, await_getDoc, showToast,
    bind, gets, modify, throw.
  destruct (currentUser w) as [uid|]; [|reflexivity].
  rewrite Hcase. reflexivity.
Qed.

(** X9: when the store rejects the write of a toggle, the favourites in
    memory are toggled all the same and stay so: the record and the
    cached list are not written, the error is shown and no fetch
    follows. *)
Theorem rejected_toggle_is_not_rolled_back (R : JsRuntime) (S : Store)
    (uid flatId : string) (w : World) :
  currentUser w = Some uid ->
  getDoc_fails uid = false ->
  setDoc_fails uid = true ->
  let w' := exec (toggleFavorite flatId) w in
  let removing := includes (default [] (users w !! uid)) flatId in
  favorites w' = (if removing
                  then List.filter (fun id => negb (String.eqb id flatId)) (favorites w)
                  else favorites w ++ [flatId]) /\
  users w' = users w /\
  localStorage_favorites w' = localStorage_favorites w /\
  requests w' = requests w /\
  last (toasts w') = Some ("Error updating favorites. Please try again.", "error").
Proof.
  intros Huid Hget Hset. cbv zeta. unfold exec.
  rewrite (toggleFavorite_signed_in R S uid flatId w Huid Hget). cbv zeta.
  rewrite Hset. cbn [snd].
  destruct (includes _ flatId); cbn; rewrite last_snoc; repeat split.
Qed.

Lemma handleCurrencyChange_frame (R : JsRuntime) currency w :
  favorites (exec (handleCurrencyChange currency) w) = favorites w /\
  localStorage_favorites (exec (handleCurrencyChange currency) w)
    = localStorage_favorites w.
Proof.
  destruct (handleCurrencyChange_world R currency w) as [nodes ->]. split; reflexivity.
Qed.

(** X10: the cached favourites mirror the favourites in memory.  This
    holds when the script is loaded and is kept by every change of the
    auth state, by applying filters, loading more and changing the
    currency, and by every toggle unless the store rejects its write. *)
Theorem cache_mirrors_memory_is_kept (R : JsRuntime) (S : Store) (w : World) :
  (forall stored records, cache_mirrors_memory (initialWorld stored records)) /\
  (cache_mirrors_memory w ->
   (forall user, cache_mirrors_memory (exec (authStateChanged user) w)) /\
   (forall controls, cache_mirrors_memory (exec (handleApplyFilters controls) w)) /\
   cache_mirrors_memory (exec handleLoadMore w) /\
   (forall currency, cache_mirrors_memory (exec (handleCurrencyChange currency) w)) /\
   (forall flatId,
      match currentUser w with
      | Some uid => getDoc_fails uid = true \/ setDoc_fails uid = false
      | None => True
      end ->
      cache_mirrors_memory (exec (toggleFavorite flatId) w))).
Proof.
  unfold cache_mirrors_memory. split; [reflexivity|]. intros Hinv.
  assert (Hfetch : forall reset w0,
            favorites w0 = default [] (localStorage_favorites w0) ->
            favorites (exec (fetchFlats reset) w0)
              = default [] (localStorage_favorites (exec (fetchFlats reset) w0))).
  { intros reset w0 H0.
    destruct (fetchFlats_frame R S reset w0) as (_ & -> & _ & -> & _). exact H0. }
  split; [|split; [|split; [|split]]].
  - intros [[uid email]|].
    + unfold exec, authStateChanged, showToast, bind, modify.
      rewrite not_awaited_run. cbn [fst snd fmap option_fmap option_map].
      rewrite not_awaited_run. cbn [snd].
      set (w2 := exec (fetchFlats true) _).
      unfold exec, loadFavorites, forgetFavorites, try_catch, await_getDoc, showToast,
        bind, gets, modify, throw.
      destruct (getDoc_fails uid); [reflexivity|]. cbn [fst snd].
      destruct (users w2 !! uid); reflexivity.
    + unfold exec, authStateChanged, forgetFavorites, bind, modify.
      rewrite not_awaited_run. cbn [snd]. apply Hfetch. reflexivity.
  - intros [c|]; [|exact Hinv].
    unfold exec. rewrite handleApplyFilters_run. cbn [snd]. apply Hfetch. exact Hinv.
  - unfold exec. rewrite handleLoadMore_run. cbn [snd]. apply Hfetch. exact Hinv.
  - intros currency. destruct (handleCurrencyChange_frame R currency w) as [-> ->].
    exact Hinv.
  - intros flatId Hcase. destruct (currentUser w) as [uid|] eqn:Huid.
    + destruct (getDoc_fails uid) eqn:Hget.
      * unfold exec, toggleFavorite, try_catch, await_getDoc, showToast,
          bind, gets, modify, throw.
        rewrite Huid, Hget. exact Hinv.
      * destruct Hcase as [Hcase|Hset]; [discriminate|].
        unfold exec. rewrite (toggleFavorite_signed_in R S uid flatId w Huid Hget).
        cbv zeta. rewrite Hset. cbn [snd].
        destruct (showFavorites (currentFilters w)); [apply Hfetch|]; reflexivity.
    + unfold exec, toggleFavorite, showToast, bind, gets, modify. rewrite Huid. exact Hinv.
Qed.

(** X11: toggling the same flat twice brings the favourites back.  For
    a signed-in user whose store accepts reads and writes and whose
    record equals the duplicate-free list in memory, two toggles of a
    flat that was no favourite restore the list in memory, the record
    and the cache exactly; for a flat that was a favourite they restore
    the same flats, with that flat moved to the end. *)
Theorem toggling_twice_restores_favorites (R : JsRuntime) (S : Store)
    (uid flatId : string) (w : World) :
  currentUser w = Some uid ->
  getDoc_fails uid = false ->
  setDoc_fails uid = false ->
  users w !! uid = Some (favorites w) ->
  NoDup (favorites w) ->
  let w'' := exec (toggleFavorite flatId) (exec (toggleFavorite flatId) w) in
  favorites w'' =
    (if includes (favorites w) flatId
     then List.filter (fun id => negb (String.eqb id flatId)) (favorites w) ++ [flatId]
     else favorites w) /\
  users w'' !! uid = Some (favorites w'') /\
  localStorage_favorites w'' = Some (favorites w'') /\
  favorites w'' ≡ₚ favorites w.
Proof.
  intros Huid Hget Hset Hsync Hnodup. cbv zeta.
  assert (Hstep : forall w0 favs,
            currentUser w0 = Some uid -> users w0 !! uid = Some favs -> favorites w0 = favs ->
            let favs' := if includes favs flatId
                         then List.filter (fun id => negb (String.eqb id flatId)) favs
                         else favs ++ [flatId] in
            let record' := if includes favs flatId then remove_first flatId favs
                           else favs ++ [flatId] in
            let w1 := exec (toggleFavorite flatId) w0 in
            currentUser w1 = Some uid /\ favorites w1 = favs' /\
            users w1 !! uid = Some record' /\ localStorage_favorites w1 = Some favs').
  { intros w0 favs Hu Hrec Hfav. cbv zeta. unfold exec.
    rewrite (toggleFavorite_signed_in R S uid flatId w0 Hu Hget). cbv zeta.
    rewrite Hset, Hrec, Hfav. cbn [snd default].
    destruct (showFavorites (currentFilters w0)).
    - match goal with
      | |- context [exec (fetchFlats true) ?w3] =>
          destruct (fetchFlats_frame R S true w3) as (_ & Hf & _ & Hl & Hus & Hcu)
      end.
      rewrite Hf, Hl, Hus, Hcu. cbn. rewrite lookup_insert_eq. repeat split. exact Hu.
    - cbn. rewrite lookup_insert_eq. repeat split. exact Hu. }
  destruct (Hstep w (favorites w) Huid Hsync eq_refl) as (Hu1 & Hf1 & Hr1 & Hl1).
  cbv zeta in Hu1, Hf1, Hr1, Hl1.
  set (w1 := exec (toggleFavorite flatId) w) in *.
  destruct (includes (favorites w) flatId) eqn:Hinc.
  - rewrite (remove_first_filter _ _ Hnodup) in Hr1. rewrite <- Hf1 in Hr1.
    destruct (Hstep w1 (favorites w1) Hu1 Hr1 eq_refl) as (_ & Hf2 & Hr2 & Hl2).
    cbv zeta in Hf2, Hr2, Hl2.
    assert (Hgone : includes (favorites w1) flatId = false).
    { rewrite Hf1. apply not_true_is_false. intros Hin.
      apply includes_elem_of, list_elem_of_In, List.filter_In in Hin as [_ Hin].
      rewrite String.eqb_refl in Hin. discriminate. }
    rewrite Hgone in Hf2, Hr2, Hl2. rewrite Hf2, Hr2, Hl2, Hf1.
    repeat split.
    apply includes_elem_of in Hinc.
    clear -Hinc Hnodup. induction Hnodup as [|x l Hx Hl IH]; [inversion Hinc|].
    cbn. destruct (String.eqb_spec x flatId) as [->|Hne]; cbn.
    + assert (Hnone : List.filter (fun id => negb (String.eqb id flatId)) l = l).
      { clear -Hx. induction l as [|y l IHl]; [reflexivity|]. cbn.
        destruct (String.eqb_spec y flatId) as [->|Hy]; cbn.
        - exfalso. apply Hx. left.
        - f_equal. apply IHl. intros Hin. apply Hx. right. exact Hin. }
      rewrite Hnone. symmetry. apply Permutation_cons_append.
    + constructor. apply IH. inversion Hinc; subst; [contradiction|assumption].
  - rewrite <- Hf1 in Hr1.
    destruct (Hstep w1 (favorites w1) Hu1 Hr1 eq_refl) as (_ & Hf2 & Hr2 & Hl2).
    cbv zeta in Hf2, Hr2, Hl2.
    assert (Hnot : flatId ∉ favorites w).
    { intros Hin. apply includes_elem_of in Hin. congruence. }
    assert (Hthere : includes (favorites w1) flatId = true).
    { rewrite Hf1. apply includes_elem_of, elem_of_app. right.
      apply list_elem_of_singleton. reflexivity. }
    assert (Hback : List.filter (fun id => negb (String.eqb id flatId))
                      (favorites w ++ [flatId]) = favorites w).
    { rewrite List.filter_app. cbn. rewrite String.eqb_refl. cbn. rewrite app_nil_r.
      clear -Hnot. induction (favorites w) as [|y l IHl]; [reflexivity|]. cbn.
      destruct (String.eqb_spec y flatId) as [->|Hy]; cbn.
      - exfalso. apply Hnot. left.
      - f_equal. apply IHl. intros Hin. apply Hnot. right. exact Hin. }
    assert (Hnodup1 : NoDup (favorites w1)).
    { rewrite Hf1. apply NoDup_app. repeat split; [exact Hnodup| |apply NoDup_singleton].
      intros x Hx Hx'. apply list_elem_of_singleton in Hx'. subst x. contradiction. }
    rewrite Hthere in Hf2, Hr2, Hl2.
    rewrite (remove_first_filter _ _ Hnodup1) in Hr2.
    rewrite Hf1 in Hf2, Hr2, Hl2. rewrite Hback in Hf2, Hr2, Hl2.
    rewrite Hf2, Hr2, Hl2. repeat split; reflexivity.
Qed.

(** ** The lightbox *)

Lemma updateLightboxNavButtons_frame (els : LightboxElements) (lb : Lightbox) :
  let lb' := updateLightboxNavButtons els lb in
  currentLightboxImages lb' = currentLightboxImages lb /\
  currentLightboxIndex lb' = currentLightboxIndex lb /\
  lightboxImage_src lb' = lightboxImage_src lb /\
  lightboxModal_hidden lb' = lightboxModal_hidden lb /\
  lightboxModal_active lb' = lightboxModal_active lb /\
  body_overflow_hidden lb' = body_overflow_hidden lb /\
  (lightboxPrevBtn els = true -> lightboxNextBtn els = true ->
   lightboxPrevBtn_hidden lb' = (currentLightboxIndex lb =? 0)%Z /\
   lightboxNextBtn_hidden lb' =
     (currentLightboxIndex lb =? Z.of_nat (length (currentLightboxImages lb)) - 1)%Z).
Proof.
  unfold updateLightboxNavButtons.
  destruct (lightboxPrevBtn els), (lightboxNextBtn els); cbn;
    repeat split; intros; congruence.
Qed.

Lemma element_at_lookup (l : list JsValue) (index : Z) :
  (0 <= index < Z.of_nat (length l))%Z ->
  l !! Z.to_nat index = Some (element_at l index).
Proof.
  intros Hin. unfold element_at.
  destruct (Z.ltb_spec index 0) as [Hneg | _]; [lia |].
  assert (Hlt : (Z.to_nat index < length l)%nat) by lia.
  destruct (lookup_lt_is_Some_2 l _ Hlt) as [x Hx].
  rewrite Hx. f_equal. symmetry. apply nth_lookup_Some with (d := JUndefined) in Hx.
  exact Hx.
Qed.

(** What the lightbox shows when it is on one of its images. *)
Lemma navigateLightbox_step (els : LightboxElements) (direction : Z) (lb : Lightbox) :
  lightboxImage els = true ->
  (0 < Z.of_nat (length (currentLightboxImages lb)))%Z ->
  let count := Z.of_nat (length (currentLightboxImages lb)) in
  let lb' := snd (navigateLightbox els direction lb) in
  fst (navigateLightbox els direction lb) = Returned tt /\
  currentLightboxImages lb' = currentLightboxImages lb /\
  currentLightboxIndex lb' =
    Z.max 0 (Z.min (count - 1) (currentLightboxIndex lb + direction)) /\
  lightboxImage_src lb' = element_at (currentLightboxImages lb) (currentLightboxIndex lb') /\
  lightboxModal_hidden lb' = lightboxModal_hidden lb /\
  lightboxModal_active lb' = lightboxModal_active lb /\
  body_overflow_hidden lb' = body_overflow_hidden lb /\
  (lightboxPrevBtn els = true -> lightboxNextBtn els = true ->
   lightboxPrevBtn_hidden lb' = (currentLightboxIndex lb' =? 0)%Z /\
   lightboxNextBtn_hidden lb' = (currentLightboxIndex lb' =? count - 1)%Z).
Proof.
  intros Himg Hcount count lb'. subst lb'. unfold navigateLightbox.
  rewrite Himg. cbn [fst snd]. fold count.
  assert (Hclamp :
    (if (currentLightboxIndex lb + direction <? 0)%Z then 0%Z
     else if (currentLightboxIndex lb + direction >=? count)%Z then (count - 1)%Z
          else (currentLightboxIndex lb + direction)%Z) =
    Z.max 0 (Z.min (count - 1) (currentLightboxIndex lb + direction))).
  { destruct (Z.ltb_spec (currentLightboxIndex lb + direction) 0); [lia |].
    destruct (Z.geb_spec (currentLightboxIndex lb + direction) count); lia. }
  rewrite Hclamp.
  match goal with
  | |- context [updateLightboxNavButtons els ?x] =>
      pose proof (updateLightboxNavButtons_frame els x) as Hu; cbn [currentLightboxImages
        currentLightboxIndex lightboxImage_src lightboxModal_hidden lightboxModal_active
        body_overflow_hidden] in Hu;
      destruct Hu as (Hi & Hx & Hs & Hh & Ha & Hb & Hbtn);
      set (moved := updateLightboxNavButtons els x) in *
  end.
  fold count in Hbtn.
  split; [reflexivity |]. split; [exact Hi |]. split; [exact Hx |].
  rewrite Hx. split; [exact Hs |]. split; [exact Hh |]. split; [exact Ha |].
  split; [exact Hb |]. exact Hbtn.
Qed.

Lemma navigations_on_images (els : LightboxElements) (directions : list Z) :
  lightboxImage els = true ->
  forall lb : Lightbox,
  (0 <= currentLightboxIndex lb < Z.of_nat (length (currentLightboxImages lb)))%Z ->
  lightboxImage_src lb = element_at (currentLightboxImages lb) (currentLightboxIndex lb) ->
  (lightboxPrevBtn els = true -> lightboxNextBtn els = true ->
   lightboxPrevBtn_hidden lb = (currentLightboxIndex lb =? 0)%Z /\
   lightboxNextBtn_hidden lb =
     (currentLightboxIndex lb =? Z.of_nat (length (currentLightboxImages lb)) - 1)%Z) ->
  let count := Z.of_nat (length (currentLightboxImages lb)) in
  let lb' := navigations els directions lb in
  currentLightboxImages lb' = currentLightboxImages lb /\
  currentLightboxIndex lb' =
    fold_left (fun index direction => Z.max 0 (Z.min (count - 1) (index + direction)))
      directions (currentLightboxIndex lb) /\
  (0 <= currentLightboxIndex lb' < count)%Z /\
  lightboxImage_src lb' = element_at (currentLightboxImages lb) (currentLightboxIndex lb') /\
  lightboxModal_hidden lb' = lightboxModal_hidden lb /\
  lightboxModal_active lb' = lightboxModal_active lb /\
  body_overflow_hidden lb' = body_overflow_hidden lb /\
  (lightboxPrevBtn els = true -> lightboxNextBtn els = true ->
   lightboxPrevBtn_hidden lb' = (currentLightboxIndex lb' =? 0)%Z /\
   lightboxNextBtn_hidden lb' = (currentLightboxIndex lb' =? count - 1)%Z).
Proof.
  intros Himg. induction directions as [| d ds IH]; intros lb Hin Hsrc Hbtn count lb'.
  - subst lb'. cbn [navigations fold_left].
    split; [reflexivity |]. split; [reflexivity |]. split; [exact Hin |].
    split; [exact Hsrc |]. repeat split; try reflexivity; apply Hbtn; assumption.
  - subst lb'. cbn [navigations fold_left].
    assert (Hpos : (0 < Z.of_nat (length (currentLightboxImages lb)))%Z) by lia.
    destruct (navigateLightbox_step els d lb Himg Hpos)
      as (_ & Hi & Hx & Hs & Hh & Ha & Hb & Hbt).
    set (lb1 := snd (navigateLightbox els d lb)) in *.
    assert (Hin1 : (0 <= currentLightboxIndex lb1
                    < Z.of_nat (length (currentLightboxImages lb1)))%Z)
      by (rewrite Hi, Hx; lia).
    assert (Hsrc1 : lightboxImage_src lb1 =
                    element_at (currentLightboxImages lb1) (currentLightboxIndex lb1))
      by (rewrite Hi; exact Hs).
    assert (Hbtn1 : lightboxPrevBtn els = true -> lightboxNextBtn els = true ->
      lightboxPrevBtn_hidden lb1 = (currentLightboxIndex lb1 =? 0)%Z /\
      lightboxNextBtn_hidden lb1 =
        (currentLightboxIndex lb1 =? Z.of_nat (length (currentLightboxImages lb1)) - 1)%Z)
      by (rewrite Hi; exact Hbt).
    specialize (IH lb1 Hin1 Hsrc1 Hbtn1). cbn zeta in IH.
    rewrite Hi, Hx in IH. fold count in IH.
    destruct IH as (I1 & I2 & I3 & I4 & I5 & I6 & I7 & I8).
    rewrite Hh, Ha, Hb in *.
    repeat split; try assumption; try (apply I3); apply I8; assumption.
Qed.

(** X12: once the lightbox is opened on one of its images, any run of
    previous and next clicks leaves it on one of them: the index is the
    start moved by each step and brought back between the first and the
    last image, the picture shown is the image at the index, the
    previous button is hidden exactly on the first image and the next
    button exactly on the last, and the lightbox stays open over the
    same images. *)
Theorem lightbox_stays_on_an_image (els : LightboxElements) (imageUrls : list JsValue)
    (startIndex : Z) (directions : list Z) (w : World) (lb : Lightbox) :
  lightboxModal els = true ->
  lightboxImage els = true ->
  (0 <= startIndex < Z.of_nat (length imageUrls))%Z ->
  let last := (Z.of_nat (length imageUrls) - 1)%Z in
  let lb' := navigations els directions (snd (openLightbox els imageUrls startIndex w lb)) in
  fst (openLightbox els imageUrls startIndex w lb) = w /\
  currentLightboxImages lb' = imageUrls /\
  currentLightboxIndex lb' =
    fold_left (fun index direction => Z.max 0 (Z.min last (index + direction)))
      directions startIndex /\
  (0 <= currentLightboxIndex lb' <= last)%Z /\
  imageUrls !! Z.to_nat (currentLightboxIndex lb') = Some (lightboxImage_src lb') /\
  lightboxModal_hidden lb' = false /\
  lightboxModal_active lb' = true /\
  body_overflow_hidden lb' = true /\
  (lightboxPrevBtn els = true -> lightboxNextBtn els = true ->
   lightboxPrevBtn_hidden lb' = (currentLightboxIndex lb' =? 0)%Z /\
   lightboxNextBtn_hidden lb' = (currentLightboxIndex lb' =? last)%Z).
Proof.
  intros Hmodal Himg Hstart last lb'. subst lb'.
  unfold openLightbox. rewrite Hmodal, Himg. cbn [negb orb fst snd].
  match goal with
  | |- context [updateLightboxNavButtons els ?x] =>
      pose proof (updateLightboxNavButtons_frame els x) as Hu; cbn [currentLightboxImages
        currentLightboxIndex lightboxImage_src lightboxModal_hidden lightboxModal_active
        body_overflow_hidden] in Hu;
      destruct Hu as (Hi & Hx & Hs & Hh & Ha & Hb & Hbtn);
      set (opened := updateLightboxNavButtons els x) in *
  end.
  assert (Hin : (0 <= currentLightboxIndex opened
                 < Z.of_nat (length (currentLightboxImages opened)))%Z)
    by (rewrite Hi, Hx; exact Hstart).
  assert (Hsrc : lightboxImage_src opened =
                 element_at (currentLightboxImages opened) (currentLightboxIndex opened))
    by (rewrite Hi, Hx; exact Hs).
  assert (Hbtn' : lightboxPrevBtn els = true -> lightboxNextBtn els = true ->
    lightboxPrevBtn_hidden opened = (currentLightboxIndex opened =? 0)%Z /\
    lightboxNextBtn_hidden opened =
      (currentLightboxIndex opened =? Z.of_nat (length (currentLightboxImages opened)) - 1)%Z)
    by (rewrite Hi, Hx; exact Hbtn).
  pose proof (navigations_on_images els directions Himg opened Hin Hsrc Hbtn') as Hnav.
  cbn zeta in Hnav. rewrite Hi, Hx, Hh, Ha, Hb in Hnav. fold last in Hnav.
  destruct Hnav as (N1 & N2 & N3 & N4 & N5 & N6 & N7 & N8).
  split; [reflexivity |]. split; [exact N1 |]. split; [exact N2 |].
  split; [subst last; lia |].
  split; [rewrite N4; apply element_at_lookup; exact N3 |].
  repeat split; try assumption; apply N8; assumption.
Qed.

(** X13: on a page that lacks the lightbox's modal or its image,
    [openLightbox] shows a toast and leaves the lightbox as it was; the
    gallery of a flat without images cannot be brought onto an image:
    after any click the index is outside the (empty) array and the
    source written is [undefined]. *)
Theorem lightbox_without_its_parts (els : LightboxElements) (imageUrls : list JsValue)
    (startIndex direction : Z) (w : World) (lb : Lightbox) :
  (lightboxModal els = false \/ lightboxImage els = false ->
   openLightbox els imageUrls startIndex w lb =
     (set_toasts (toasts w ++ [("Lightbox not available.", "error")]) w, lb)) /\
  (lightboxImage els = false ->
   fst (navigateLightbox els direction lb) = Threw TypeError /\
   lightboxImage_src (snd (navigateLightbox els direction lb)) = lightboxImage_src lb) /\
  (lightboxImage els = true -> currentLightboxImages lb = [] ->
   let lb' := snd (navigateLightbox els direction lb) in
   lightboxImage_src lb' = JUndefined /\
   currentLightboxIndex lb' = (if (currentLightboxIndex lb + direction <? 0)%Z then 0 else -1)%Z).
Proof.
  split; [| split].
  - intros Hmissing. unfold openLightbox.
    assert (Hcond : negb (lightboxModal els) || negb (lightboxImage els) = true)
      by (destruct Hmissing as [-> | ->]; [reflexivity | apply orb_true_r]).
    rewrite Hcond. reflexivity.
  - intros Himg. unfold navigateLightbox. rewrite Himg. cbn. split; reflexivity.
  - intros Himg Hempty lb'. subst lb'. unfold navigateLightbox. rewrite Himg, Hempty.
    cbn [fst snd length Z.of_nat].
    assert (Hsrc : forall index : Z, element_at [] index = JUndefined).
    { intros index. unfold element_at.
      destruct (index <? 0)%Z; [reflexivity |]. destruct (Z.to_nat index); reflexivity. }
    rewrite Hsrc.
    match goal with
    | |- context [updateLightboxNavButtons els ?x] =>
        pose proof (updateLightboxNavButtons_frame els x) as Hu; cbn [currentLightboxImages
          currentLightboxIndex lightboxImage_src lightboxModal_hidden lightboxModal_active
          body_overflow_hidden] in Hu;
        destruct Hu as (_ & Hx & Hs & _)
    end.
    rewrite Hs, Hx. split; [reflexivity |]. change (Z.of_nat 0) with 0%Z.
    destruct (Z.ltb_spec (currentLightboxIndex lb + direction) 0) as [Hneg | Hnon];
      [reflexivity |].
    destruct (Z.geb_spec (currentLightboxIndex lb + direction) 0) as [_ | Hlt];
      [reflexivity | lia].
Qed.

(** ** Recently viewed flats *)

Lemma strict_eq_sym (a b : JsValue) : strict_eq a b = strict_eq b a.
Proof.
  destruct a as [| | x | [| x | x] | x | |], b as [| | y | [| y | y] | y | |];
    cbn; try reflexivity.
  - destruct x, y; reflexivity.
  - destruct x, y; reflexivity.
  - apply eq_true_iff_eq. rewrite !Qeq_bool_iff. split; intros H; symmetry; exact H.
  - apply String.eqb_sym.
Qed.

Lemma appendRecentCards_frame (R : JsRuntime) (w : World)
    (flats : list (gmap string JsValue)) :
  forall v : Viewed,
  recentlyViewed (snd (appendRecentCards w flats v)) = recentlyViewed v /\
  localStorage_recentlyViewed (snd (appendRecentCards w flats v)) =
    localStorage_recentlyViewed v.
Proof.
  induction flats as [| flat flats IH]; intros v; cbn [appendRecentCards].
  - split; reflexivity.
  - destruct (outcome (createFlatCard flat) w) as [card | e].
    + destruct (IH {| recentlyViewed := recentlyViewed v;
                      localStorage_recentlyViewed := localStorage_recentlyViewed v;
                      recentlyViewedList := recentlyViewedList v ++ [RecentCard card] |})
        as [H1 H2].
      split; [exact H1 | exact H2].
    + split; reflexivity.
Qed.

Lemma displayRecentlyViewed_frame (R : JsRuntime) (has_list : bool) (w : World)
    (v : Viewed) :
  let v' := snd (displayRecentlyViewed has_list w v) in
  localStorage_recentlyViewed v' = localStorage_recentlyViewed v /\
  recentlyViewed v' =
    if has_list then List.filter (fun flat => truthy (prop flat "id")) (recentlyViewed v)
    else recentlyViewed v.
Proof.
  unfold displayRecentlyViewed. destruct has_list; cbn [negb].
  - destruct (Nat.eqb_spec (length (recentlyViewed v)) 0) as [Hempty | Hsome].
    + apply length_zero_iff_nil in Hempty. cbn. rewrite Hempty. split; reflexivity.
    + match goal with
      | |- context [appendRecentCards w ?k ?x] =>
          destruct (appendRecentCards_frame R w k x) as [H1 H2]
      end.
      cbn zeta. split; [exact H2 | exact H1].
  - cbn. split; reflexivity.
Qed.

Lemma ForallOrdPairs_sublist {A} (P : A -> A -> Prop) (l k : list A) :
  sublist l k -> ForallOrdPairs P k -> ForallOrdPairs P l.
Proof.
  intros Hsub. induction Hsub as [| x l k Hsub IH | x l k Hsub IH]; intros Hk.
  - constructor.
  - inversion Hk as [| ? ? Hx Hrest]; subst. constructor.
    + rewrite List.Forall_forall in *. intros y Hy. apply Hx.
      apply list_elem_of_In. eapply elem_of_sublist; [| exact Hsub].
      apply list_elem_of_In. exact Hy.
    + apply IH. exact Hrest.
  - inversion Hk; subst. apply IH. assumption.
Qed.

Lemma filter_sublist_of {A} (f : A -> bool) (l : list A) : sublist (List.filter f l) l.
Proof.
  induction l as [| x l IH]; cbn.
  - constructor.
  - destruct (f x); [apply sublist_skip | apply sublist_cons]; exact IH.
Qed.

Lemma withRecent_shape (flat : gmap string JsValue) (l : list (gmap string JsValue)) :
  exists rest,
    withRecent flat l = flat :: rest /\
    sublist rest
      (List.filter (fun item => negb (strict_eq (prop item "id") (prop flat "id"))) l) /\
    length (withRecent flat l) <= recentlyViewedLimit.
Proof.
  unfold withRecent, recentlyViewedLimit.
  set (kept := List.filter _ l).
  destruct (Nat.ltb_spec 3 (length (flat :: kept))) as [Hlong | Hshort].
  - exists (take 2 kept). split; [reflexivity |]. split.
    + apply sublist_take.
    + rewrite length_take. lia.
  - exists kept. split; [reflexivity |]. split; [reflexivity | exact Hshort].
Qed.

(** X14: viewing a flat puts it first in the stored list, drops every
    earlier entry with its id, keeps the other entries in their order
    and keeps at most three entries; a list without repeated ids stays
    one.  The list in memory is the stored one, less the flats without
    an id when the page shows the list. *)
Theorem viewed_flat_goes_first (R : JsRuntime) (has_list : bool)
    (flat : gmap string JsValue) (w : World) (v : Viewed) :
  let v' := snd (addToRecentlyViewed has_list flat w v) in
  exists rest,
    localStorage_recentlyViewed v' = Some (flat :: rest) /\
    length (flat :: rest) <= recentlyViewedLimit /\
    sublist rest (recentlyViewed v) /\
    Forall (fun item => strict_eq (prop item "id") (prop flat "id") = false) rest /\
    recentlyViewed v' =
      (if has_list then List.filter (fun item => truthy (prop item "id")) (flat :: rest)
       else flat :: rest) /\
    (truthy (prop flat "id") = true -> head (recentlyViewed v') = Some flat) /\
    (distinct_ids (recentlyViewed v) ->
     distinct_ids (flat :: rest) /\ distinct_ids (recentlyViewed v')).
Proof.
  intros v'. subst v'. unfold addToRecentlyViewed.
  destruct (withRecent_shape flat (recentlyViewed v)) as (rest & Hshape & Hsub & Hlen).
  rewrite Hshape in *.
  match goal with
  | |- context [displayRecentlyViewed has_list w ?x] =>
      destruct (displayRecentlyViewed_frame R has_list w x) as [Hstore Hmem];
      set (v' := snd (displayRecentlyViewed has_list w x)) in *
  end.
  cbn [localStorage_recentlyViewed recentlyViewed] in Hstore, Hmem.
  assert (Hrest : Forall (fun item => strict_eq (prop item "id") (prop flat "id") = false) rest).
  { apply List.Forall_forall. intros item Hitem.
    apply list_elem_of_In in Hitem.
    eapply elem_of_sublist in Hitem; [| exact Hsub].
    apply list_elem_of_In, List.filter_In in Hitem. destruct Hitem as [_ Hne].
    apply negb_true_iff in Hne. exact Hne. }
  assert (Hold : sublist rest (recentlyViewed v))
    by (etransitivity; [exact Hsub | apply filter_sublist_of]).
  exists rest. split; [exact Hstore |]. split; [exact Hlen |]. split; [exact Hold |].
  split; [exact Hrest |]. split; [exact Hmem |]. split.
  - intros Hid. rewrite Hmem. destruct has_list; [| reflexivity].
    cbn [List.filter]. rewrite Hid. reflexivity.
  - intros Hdistinct.
    assert (Hnew : distinct_ids (flat :: rest)).
    { constructor.
      - eapply List.Forall_impl; [| exact Hrest].
        intros item Hitem. cbn beta in Hitem. rewrite strict_eq_sym. exact Hitem.
      - eapply ForallOrdPairs_sublist; [exact Hold | exact Hdistinct]. }
    split; [exact Hnew |]. rewrite Hmem. destruct has_list; [| exact Hnew].
    eapply ForallOrdPairs_sublist; [apply filter_sublist_of | exact Hnew].
Qed.

(** ** The relay beside the browser *)

Lemma omap_relay_clause_fieldFilters (f : Filters) :
  omap relay_clause (fieldFilters f) =
    (if negb (String.eqb (offerType f) "all")
     then [Relay.where_ "offerType" "==" (JStr (offerType f))] else []) ++
    (if negb (String.eqb (flatType f) "all")
     then [Relay.where_ "type" "==" (JStr (flatType f))] else []) ++
    (if negb (String.eqb (minPrice f) "")
     then [Relay.where_ "price" ">=" (JNum (parseFloat (minPrice f)))] else []) ++
    (if negb (String.eqb (maxPrice f) "")
     then [Relay.where_ "price" "<=" (JNum (parseFloat (maxPrice f)))] else []).
Proof.
  unfold fieldFilters. rewrite !omap_app.
  destruct (negb (String.eqb (offerType f) "all")),
    (negb (String.eqb (flatType f) "all")),
    (negb (String.eqb (minPrice f) "")),
    (negb (String.eqb (maxPrice f) "")); reflexivity.
Qed.

Lemma relay_wheres (f : Filters) (sort : option string) :
  offerType f <> "" ->
  flatType f <> "" ->
  Relay.flatsQuery
    {| Relay.query_offerType := Some (offerType f);
       Relay.query_flatType := Some (flatType f);
       Relay.query_minPrice := Some (minPrice f);
       Relay.query_maxPrice := Some (maxPrice f);
       Relay.query_sortBy := sort |} =
    omap relay_clause (fieldFilters f) ++
    Relay.flatsQuery
      {| Relay.query_offerType := None; Relay.query_flatType := None;
         Relay.query_minPrice := None; Relay.query_maxPrice := None;
         Relay.query_sortBy := sort |}.
Proof.
  intros Hoffer Htype. rewrite omap_relay_clause_fieldFilters.
  unfold Relay.flatsQuery.
  cbn [Relay.query_offerType Relay.query_flatType Relay.query_minPrice
       Relay.query_maxPrice Relay.query_sortBy truthy].
  apply String.eqb_neq in Hoffer, Htype. rewrite Hoffer, Htype. cbn [negb andb].
  destruct (negb (String.eqb (offerType f) "all")),
    (negb (String.eqb (flatType f) "all")),
    (negb (String.eqb (minPrice f) "")),
    (negb (String.eqb (maxPrice f) ""));
    cbn [app]; destruct sort as [sortBy |]; try reflexivity;
    destruct (negb (String.eqb sortBy "")); try reflexivity;
    destruct (Relay.fieldAndDirection sortBy); reflexivity.
Qed.

(** X15: for filters chosen from the page's controls (an offer and a
    flat type that are not empty, one of the four orderings), the query
    that the relay builds from the same values is the browser's query
    less its favourites filter, its cursor and its page size: the same
    [where] clauses in the same order, then the same ordering; what the
    relay answers is every document of that query, shaped as the
    browser shapes a page. *)
Theorem relay_builds_the_browser_query (A : RelayApi.AdminStore) (f : Filters)
    (favs : list string) (cursor : option DocSnap) (q : Query) :
  composeQuery f favs cursor = Some q ->
  offerType f <> "" ->
  flatType f <> "" ->
  In (sortBy f) ["price-asc"; "price-desc"; "area-asc"; "area-desc"] ->
  Relay.flatsQuery (request_of f) = omap relay_clause (constraints q) /\
  forall docs : list DocSnap,
    RelayApi.query_get (omap relay_clause (constraints q)) = Some docs ->
    RelayApi.getFlats (request_of f) =
      {| RelayApi.status := 200; RelayApi.body := RelayApi.FlatsBody (flat_of_doc <$> docs) |}.
Proof.
  intros Hq Hoffer Htype Hsort.
  assert (Hsame : Relay.flatsQuery (request_of f) = omap relay_clause (constraints q)).
  { destruct (composeQuery_constraints _ _ _ _ Hq) as [_ ->].
    rewrite !omap_app. unfold request_of. rewrite (relay_wheres f _ Hoffer Htype).
    f_equal.
    assert (Hfav : omap relay_clause
              (if showFavorites f then [Where DocumentId OpIn (JArr (JStr <$> favs))] else [])
            = []) by (destruct (showFavorites f); reflexivity).
    rewrite Hfav. cbn [app omap].
    assert (Htail : forall c x, relay_clause c = Some x ->
              omap relay_clause
                (c :: match cursor with Some d => [StartAfter d] | None => [] end ++
                 [Limit CONFIG.flatsPerPage]) = [x]).
    { intros c x Hc. change (omap relay_clause (c :: ?l)) with
        (match relay_clause c with Some y => y :: omap relay_clause l
                              | None => omap relay_clause l end).
      rewrite Hc. destruct cursor; reflexivity. }
    unfold orderConstraint.
    cbn in Hsort. destruct Hsort as [<- | [<- | [<- | [<- | []]]]];
      cbn [String.eqb Ascii.eqb Bool.eqb];
      (erewrite Htail; [| reflexivity]); reflexivity. }
  split; [exact Hsame |].
  intros docs Hdocs. unfold RelayApi.getFlats. rewrite Hsame, Hdocs. reflexivity.
Qed.

(** ** Inquiries *)

(** X16: the relay stores an inquiry exactly when it answers 201, and
    then it appends one document that carries the three fields of the
    body as they were sent and the store's timestamp; it answers 201
    only when the three fields are truthy, 400 only when one of them is
    not, and it never touches the inquiries stored before. *)
Theorem relay_stores_what_it_acknowledges (A : RelayApi.AdminStore)
    (req_body : JsValue) (stored : list Inquiry) :
  let response := fst (RelayApi.postInquiry req_body stored) in
  let stored' := snd (RelayApi.postInquiry req_body stored) in
  let inquiry :=
    {| inquiry_name := member req_body "name";
       inquiry_email := member req_body "email";
       inquiry_message := member req_body "message";
       inquiry_timestamp := ServerTimestamp |} in
  let complete :=
    truthy (member req_body "name") && truthy (member req_body "email") &&
    truthy (member req_body "message") in
  List.In (RelayApi.status response) [201; 400; 500]%nat /\
  (RelayApi.status response = 201%nat <->
   complete = true /\ RelayApi.add_fails inquiry = false) /\
  (RelayApi.status response = 400%nat <->
   complete = false /\ req_body <> JUndefined /\ req_body <> JNull) /\
  stored' = (if (RelayApi.status response =? 201)%nat then stored ++ [inquiry] else stored).
Proof.
  cbn zeta. unfold RelayApi.postInquiry.
  assert (Hin : forall n : nat, n = 201 \/ n = 400 \/ n = 500 -> List.In n [201; 400; 500]%nat)
    by (intros n [-> | [-> | ->]]; cbn; auto).
  destruct req_body as [| | b | n | s | items | props];
    try (cbn; split; [apply Hin; auto |];
         repeat split; try tauto; try discriminate; try (intros [H _]; discriminate H);
         try (intros (_ & H & _); congruence); fail).
  all: destruct (truthy (member _ "name")), (truthy (member _ "email")),
         (truthy (member _ "message")); cbn [negb orb andb fst snd RelayApi.status Nat.eqb];
       try (split; [apply Hin; auto |];
            repeat split; try tauto; try discriminate; try congruence;
            try (intros [H _]; discriminate H); fail).
  all: destruct (RelayApi.add_fails _); cbn [fst snd RelayApi.status Nat.eqb];
       (split; [apply Hin; auto |]);
       repeat split; try tauto; try discriminate; try congruence;
       try (intros [H _]; discriminate H); try (intros [_ H]; discriminate H).
Qed.

(** X17: the contact form stores an inquiry exactly when it says that
    the message has been sent: then one document with the three values
    as typed is appended and the inputs are reset; otherwise nothing is
    stored, the inputs keep what was typed and the message is red.  A
    toast is shown only when the store was asked, and nothing else of
    the page changes. *)
Theorem contact_form_sends_what_was_typed (defaults : string * string * string)
    (addDoc_fails : Inquiry -> bool) (form : ContactForm) (stored : list Inquiry)
    (w : World) :
  let result := handleContactFormSubmit defaults addDoc_fails form stored w in
  let form' := fst (fst result) in
  let stored' := snd (fst result) in
  let w' := snd result in
  let inquiry :=
    {| inquiry_name := JStr (contactName form);
       inquiry_email := JStr (contactEmail form);
       inquiry_message := JStr (contactMessage form);
       inquiry_timestamp := ClientDate |} in
  let complete :=
    contactName form <> "" /\ contactEmail form <> "" /\ contactMessage form <> "" in
  let sent := formMessage_text form' = "Your message has been sent!" in
  (sent <-> complete /\ addDoc_fails inquiry = false) /\
  (sent ->
   stored' = stored ++ [inquiry] /\
   (contactName form', contactEmail form', contactMessage form') = defaults /\
   formMessage_color form' = "green") /\
  (~ sent ->
   stored' = stored /\
   (contactName form', contactEmail form', contactMessage form') =
     (contactName form, contactEmail form, contactMessage form) /\
   formMessage_color form' = "red") /\
  (exists shown,
     w' = set_toasts (toasts w ++ shown) w /\
     (complete -> exists toast, shown = [toast]) /\
     (~ complete -> shown = [] /\ w' = w)).
Proof.
  cbn zeta. unfold handleContactFormSubmit. cbn [truthy].
  destruct (String.eqb_spec (contactName form) "") as [Hn | Hn];
    [| destruct (String.eqb_spec (contactEmail form) "") as [He | He];
       [| destruct (String.eqb_spec (contactMessage form) "") as [Hm | Hm]]];
    cbn [negb orb fst snd formMessage_text formMessage_color contactName contactEmail
         contactMessage].
  1-3: split; [split; [discriminate | tauto] |];
       split; [discriminate |];
       split; [intros _; repeat split |];
       exists []; (split; [destruct w; cbn; rewrite app_nil_r; reflexivity |]);
       (split; [tauto |]); intros _; split; reflexivity.
  destruct (addDoc_fails _) eqn:Hadd;
    cbn [fst snd formMessage_text formMessage_color contactName contactEmail contactMessage].
  - split; [split; [discriminate | intros [_ H]; discriminate H] |].
    split; [discriminate |].
    split; [intros _; repeat split |].
    exists [("Failed to send inquiry.", "error")].
    split; [reflexivity |]. split; [intros _; eexists; reflexivity | tauto].
  - split; [split; [intros _; repeat split; assumption | reflexivity] |].
    split; [intros _; destruct defaults as [[d1 d2] d3]; repeat split |].
    split; [intros Hnot; exfalso; apply Hnot; reflexivity |].
    exists [("Inquiry sent successfully!", "success")].
    split; [reflexivity |]. split; [intros _; eexists; reflexivity | tauto].
Qed.

(** X18: the form and the relay ask for the same fields: handed the
    three values of the form, the relay answers 400 exactly when the
    form asks to fill in all fields, and what either stores differs
    from what the other stores only in who dates it. *)
Theorem form_and_relay_require_the_same_fields (A : RelayApi.AdminStore)
    (defaults : string * string * string) (addDoc_fails : Inquiry -> bool)
    (form : ContactForm) (stored : list Inquiry) (w : World) :
  let req_body :=
    JObj [("name", JStr (contactName form)); ("email", JStr (contactEmail form));
          ("message", JStr (contactMessage form))] in
  let answer := RelayApi.postInquiry req_body stored in
  let result := handleContactFormSubmit defaults addDoc_fails form stored w in
  let dated stamp :=
    {| inquiry_name := JStr (contactName form);
       inquiry_email := JStr (contactEmail form);
       inquiry_message := JStr (contactMessage form);
       inquiry_timestamp := stamp |} in
  (RelayApi.status (fst answer) = 400%nat <->
   formMessage_text (fst (fst result)) = "Please fill in all fields.") /\
  (snd answer = stored \/ snd answer = stored ++ [dated ServerTimestamp]) /\
  (snd (fst result) = stored \/ snd (fst result) = stored ++ [dated ClientDate]) /\
  (RelayApi.add_fails (dated ServerTimestamp) = addDoc_fails (dated ClientDate) ->
   (snd answer = stored <-> snd (fst result) = stored)).
Proof.
  cbn zeta. unfold RelayApi.postInquiry, handleContactFormSubmit, member.
  cbn [omap list_omap fst snd String.eqb Ascii.eqb Bool.eqb last default truthy].
  cbn -[String.eqb].
  destruct (String.eqb (contactName form) ""), (String.eqb (contactEmail form) ""),
    (String.eqb (contactMessage form) "");
    cbn [negb orb fst snd RelayApi.status formMessage_text];
    try (split; [split; reflexivity |]; split; [left; reflexivity |];
         split; [left; reflexivity |]; intros _; split; reflexivity).
  destruct (RelayApi.add_fails _) eqn:Hrelay, (addDoc_fails _) eqn:Hform;
    cbn [fst snd RelayApi.status formMessage_text];
    (split; [split; discriminate |]);
    (split; [first [left; reflexivity | right; reflexivity] |]);
    (split; [first [left; reflexivity | right; reflexivity] |]);
    intros Hsame; try discriminate Hsame; split; try reflexivity;
    intros Heq; exfalso; apply (f_equal length) in Heq; rewrite length_app in Heq;
    cbn in Heq; lia.
Qed.

(** ** The sign-in form *)

(** X19: submitting the sign-in form asks the provider at most once,
    and only when an e-mail and a password were typed; the call carries
    both as typed and is the one that the submit button announces.  The
    error line is hidden afterwards exactly when the provider accepted;
    a refusal is told on the error line and in a toast with the same
    words, which are the same for an unknown user and a wrong password.
    What was typed, the mode and the labels are left as they were. *)
Theorem sign_in_asks_the_provider_once (provider : AuthCall -> AuthAnswer)
    (form : AuthForm) (w : World) :
  let result := handleAuth provider form w in
  let form' := fst (fst result) in
  let calls := snd (fst result) in
  let w' := snd result in
  let email := authEmailInput form in
  let password := authPasswordInput form in
  let complete := email <> "" /\ password <> "" in
  (~ complete ->
   calls = [] /\ w' = w /\ authErrorMessage_hidden form' = false /\
   authErrorMessage_text form' = "Email and password are required.") /\
  (complete ->
   exists call,
     calls = [call] /\
     (call = signInWithEmailAndPassword email password \/
      call = createUserWithEmailAndPassword email password) /\
     (labels_follow_mode form ->
      (authSubmitBtn_text form = "Login" /\
       call = signInWithEmailAndPassword email password) \/
      (authSubmitBtn_text form = "Register" /\
       call = createUserWithEmailAndPassword email password)) /\
     (authErrorMessage_hidden form' = true <-> provider call = Resolved) /\
     (forall code message, provider call = Rejected code message ->
      authErrorMessage_text form' = authFailureMessage code message /\
      w' = set_toasts (toasts w ++ [(authFailureMessage code message, "error")]) w)) /\
  (forall m1 m2,
     authFailureMessage (JStr "auth/user-not-found") m1 =
     authFailureMessage (JStr "auth/wrong-password") m2) /\
  (authMode form', authEmailInput form', authPasswordInput form') =
    (authMode form, email, password) /\
  (authModeToggle_text form', authSubmitBtn_text form', toggleAuthModeLink_html form') =
    (authModeToggle_text form, authSubmitBtn_text form, toggleAuthModeLink_html form).
Proof.
  cbn zeta. unfold handleAuth. cbn [truthy].
  destruct (String.eqb_spec (authEmailInput form) "") as [He | He];
    [| destruct (String.eqb_spec (authPasswordInput form) "") as [Hp | Hp]];
    cbn [negb orb fst snd].
  1-2: split; [intros _; repeat split |]; (split; [tauto |]);
       split; [reflexivity |]; split; reflexivity.
  split; [intros Hnot; exfalso; apply Hnot; split; assumption |].
  split; [| split; [reflexivity |]].
  - intros _.
    set (call := if String.eqb (authMode form) "login"
                 then signInWithEmailAndPassword (authEmailInput form) (authPasswordInput form)
                 else createUserWithEmailAndPassword (authEmailInput form)
                        (authPasswordInput form)).
    exists call.
    assert (Hcalls : snd (fst (match provider call with
              | Resolved =>
                  (set_authError "" true form, [call],
                   exec (showToast
                           (if String.eqb (authMode form) "login"
                            then "Logged in successfully!"
                            else "Registration successful! Welcome!") "success") w)
              | Rejected code message =>
                  (set_authError (authFailureMessage code message) false form, [call],
                   exec (showToast (authFailureMessage code message) "error") w)
              end)) = [call]) by (destruct (provider call); reflexivity).
    split; [exact Hcalls |]. split; [| split; [| split]].
    + subst call. destruct (String.eqb (authMode form) "login"); [left | right]; reflexivity.
    + intros [(Hmode & _ & Hbtn & _) | (Hmode & _ & Hbtn & _)]; subst call;
        rewrite Hmode; cbn [String.eqb Ascii.eqb Bool.eqb];
        [left | right]; split; (exact Hbtn || reflexivity).
    + destruct (provider call); cbn; split; (reflexivity || discriminate).
    + intros code message Hrej. rewrite Hrej. cbn [fst snd]. split; reflexivity.
  - destruct (provider _); split; reflexivity.
Qed.

(** X20: switching the mode always leaves labels that say the new mode,
    an empty password, a hidden and empty error line and the e-mail as
    typed; from labels that say the mode, the mode changes, and
    switching twice brings back the mode and the labels. *)
Theorem mode_switch_keeps_labels_in_step (form : AuthForm) :
  let form' := toggleAuthMode form in
  labels_follow_mode form' /\
  authEmailInput form' = authEmailInput form /\
  authPasswordInput form' = "" /\
  authErrorMessage_hidden form' = true /\
  authErrorMessage_text form' = "" /\
  (authMode form = "login" <-> authMode form' = "register") /\
  (labels_follow_mode form ->
   authMode form' <> authMode form /\
   let form'' := toggleAuthMode form' in
   (authMode form'', authModeToggle_text form'', authSubmitBtn_text form'',
    toggleAuthModeLink_html form'') =
   (authMode form, authModeToggle_text form, authSubmitBtn_text form,
    toggleAuthModeLink_html form)).
Proof.
  cbn zeta. unfold toggleAuthMode.
  destruct (String.eqb_spec (authMode form) "login") as [Hlogin | Hother]; cbn.
  - split; [right; repeat split |].
    do 4 (split; [reflexivity |]). split; [tauto |].
    intros [(_ & H1 & H2 & H3) | (Hreg & _)]; [| congruence].
    rewrite Hlogin, H1, H2, H3. split; [discriminate | reflexivity].
  - split; [left; repeat split |].
    do 4 (split; [reflexivity |]). split; [split; [tauto | discriminate] |].
    intros [(Hlog & _) | (Hreg & H1 & H2 & H3)]; [congruence |].
    rewrite Hreg, H1, H2, H3. split; [discriminate | reflexivity].
Qed.

(** ** Cards *)




(** ** The counter *)

Section Counter.

Local Open Scope Q_scope.






End Counter.

(** ** More examples *)

Module MoreExamples.
Import Reference ReferenceFacts Samples.

Lemma reset_replaces_the_records_witness :
  let w' := exec (fetchFlats (R := engine) (S := online) true) loaded in
  allFlatsData w' = flat_of_doc <$> dearest_page /\
  displayedFlatsCount w' = length dearest_page /\
  displayedFlatsCount w' = length (allFlatsData w').
Proof.
  apply (reset_replaces_the_records engine online loaded dearest_page). reflexivity.
Defined.

Lemma displayed_count_within_records_witness :
  let w' := exec (fetchFlats (R := engine) (S := online) false) rentals in
  displayedFlatsCount w' <= length (allFlatsData w').
Proof.
  apply (displayed_count_within_records engine online false rentals).
  vm_compute. lia.
Defined.

Lemma list_shows_the_last_page_witness :
  let w' := exec (fetchFlats (R := engine) (S := online) true) rentals in
  exists cards,
    flatsList w' = FlatCard <$> cards /\
    Forall2 (fun d card =>
               card_flat_id card = js_or (prop (flat_of_doc d) "id") (JStr "unknown") /\
               priceText (R := engine) (currentCurrency rentals)
                 (js_or (prop (flat_of_doc d) "price") (JNum (Finite 0)))
                 = Some (card_price card))
      rentals_page cards /\
    allFlatsData w' = [] ++ (flat_of_doc <$> rentals_page).
Proof.
  apply (list_shows_the_last_page engine online true rentals rentals_page). reflexivity.
Defined.

Lemma unrendered_page_is_merged_not_passed_witness :
  let w' := exec (fetchFlats (R := engine) (S := flawed) false) loaded in
  allFlatsData w' =
    allFlatsData loaded ++ (flat_of_doc <$> [flat "f1" "rent" "studio" 900 30; mislabelled]) /\
  lastVisibleFlat w' = lastVisibleFlat loaded /\
  displayedFlatsCount w' = displayedFlatsCount loaded /\
  flatsList w' = [] /\
  noFlatsMessage_hidden w' = false /\
  noFlatsMessage_text w' = "Error loading apartments." /\
  toasts w' = toasts loaded ++ [("Error loading apartments.", "error")] /\
  (false = false -> fetchQuery false w' = Some first_query).
Proof.
  apply (unrendered_page_is_merged_not_passed engine flawed false loaded first_query
           [flat "f1" "rent" "studio" 900 30; mislabelled]); reflexivity.
Defined.

Lemma composed_query_is_well_ordered_witness :
  StronglySorted le (constraint_rank <$> constraints chosen_query) /\
  last (constraints chosen_query) = Some (Limit 6) /\
  (exists field direction,
     List.filter (fun c => constraint_rank c =? 3)%nat (constraints chosen_query)
       = [OrderBy field direction] /\
     (field = "price" \/ field = "area") /\ (direction = "asc" \/ direction = "desc")) /\
  (In (Where DocumentId OpIn (JArr (JStr <$> ["f4"]))) (constraints chosen_query) <->
   showFavorites chosen = true).
Proof.
  apply (composed_query_is_well_ordered chosen ["f4"] None chosen_query). reflexivity.
Defined.

Lemma toggle_without_record_changes_nothing_witness :
  exec (toggleFavorite (R := engine) (S := offline) "f4") ann_signed_in =
    set_toasts
      (toasts ann_signed_in ++
         [match currentUser ann_signed_in with
          | None => ("Please log in to manage favorites.", "info")
          | Some _ => ("Error updating favorites. Please try again.", "error")
          end]) ann_signed_in.
Proof.
  apply (toggle_without_record_changes_nothing engine offline "f4" ann_signed_in).
  reflexivity.
Defined.

Lemma rejected_toggle_is_not_rolled_back_witness :
  let w' := exec (toggleFavorite (R := engine) (S := read_only) "f4") ann_signed_in in
  let removing := includes (default [] (users ann_signed_in !! "u1")) "f4" in
  favorites w' = (if removing
                  then List.filter (fun id => negb (String.eqb id "f4"))
                         (favorites ann_signed_in)
                  else favorites ann_signed_in ++ ["f4"]) /\
  users w' = users ann_signed_in /\
  localStorage_favorites w' = localStorage_favorites ann_signed_in /\
  requests w' = requests ann_signed_in /\
  last (toasts w') = Some ("Error updating favorites. Please try again.", "error").
Proof.
  apply (rejected_toggle_is_not_rolled_back engine read_only "u1" "f4" ann_signed_in);
    reflexivity.
Defined.

Lemma toggling_twice_restores_favorites_witness :
  let w'' := exec (toggleFavorite (R := engine) (S := online) "f2")
               (exec (toggleFavorite (R := engine) (S := online) "f2") ann_signed_in) in
  favorites w'' =
    (if includes (favorites ann_signed_in) "f2"
     then List.filter (fun id => negb (String.eqb id "f2")) (favorites ann_signed_in) ++ ["f2"]
     else favorites ann_signed_in) /\
  users w'' !! "u1" = Some (favorites w'') /\
  localStorage_favorites w'' = Some (favorites w'') /\
  favorites w'' ≡ₚ favorites ann_signed_in.
Proof.
  apply (toggling_twice_restores_favorites engine online "u1" "f2" ann_signed_in);
    try reflexivity.
  apply (bool_decide_unpack _). vm_compute. exact I.
Defined.

Lemma lightbox_stays_on_an_image_witness :
  let last := (Z.of_nat (length three_images) - 1)%Z in
  let lb' := navigations whole_lightbox [1; 1; 1; -1]%Z
               (snd (openLightbox whole_lightbox three_images 1 loaded closed_lightbox)) in
  fst (openLightbox whole_lightbox three_images 1 loaded closed_lightbox) = loaded /\
  currentLightboxImages lb' = three_images /\
  currentLightboxIndex lb' =
    fold_left (fun index direction => Z.max 0 (Z.min last (index + direction)))
      [1; 1; 1; -1]%Z 1%Z /\
  (0 <= currentLightboxIndex lb' <= last)%Z /\
  three_images !! Z.to_nat (currentLightboxIndex lb') = Some (lightboxImage_src lb') /\
  lightboxModal_hidden lb' = false /\
  lightboxModal_active lb' = true /\
  body_overflow_hidden lb' = true /\
  (lightboxPrevBtn whole_lightbox = true -> lightboxNextBtn whole_lightbox = true ->
   lightboxPrevBtn_hidden lb' = (currentLightboxIndex lb' =? 0)%Z /\
   lightboxNextBtn_hidden lb' = (currentLightboxIndex lb' =? last)%Z).
Proof.
  apply (lightbox_stays_on_an_image whole_lightbox three_images 1 [1; 1; 1; -1]%Z
           loaded closed_lightbox); [reflexivity | reflexivity | simpl; lia].
Defined.

(** Three steps forward from the second of three images stop at the
    third; one step back shows the second again, with both buttons. *)
Example lightbox_walk :
  let lb' := navigations whole_lightbox [1; 1; 1; -1]%Z
               (snd (openLightbox whole_lightbox three_images 1 loaded closed_lightbox)) in
  currentLightboxIndex lb' = 1%Z /\ lightboxImage_src lb' = JStr "b.jpg" /\
  lightboxPrevBtn_hidden lb' = false /\ lightboxNextBtn_hidden lb' = false.
Proof. vm_compute. repeat split. Qed.

Lemma relay_builds_the_browser_query_witness :
  Relay.flatsQuery (request_of chosen) = omap relay_clause (constraints chosen_query) /\
  forall docs : list DocSnap,
    RelayApi.query_get (AdminStore := admin) (omap relay_clause (constraints chosen_query))
      = Some docs ->
    RelayApi.getFlats (A := admin) (request_of chosen) =
      {| RelayApi.status := 200; RelayApi.body := RelayApi.FlatsBody (flat_of_doc <$> docs) |}.
Proof.
  apply (relay_builds_the_browser_query admin chosen ["f4"] None chosen_query);
    [reflexivity | discriminate | discriminate | vm_compute; tauto].
Defined.


(** The mislabelled flat has no card: its offer type is no text. *)
Example mislabelled_has_no_card :
  renders (R := engine) loaded (flat_of_doc mislabelled) = false /\
  renders (R := engine) loaded (flat_of_doc (flat "f1" "rent" "studio" 900 30))
    = true.
Proof. vm_compute. repeat split. Qed.


(** A quarter and a half of the way after half a second and a second;
    the frame after two seconds ends on the target and the last frame
    is not waited for. *)
Example counter_run :
  initCounter 120 [16; 516; 1016; 2016; 3000]%Q = [0; 30; 60; 120]%Q.
Proof. reflexivity. Qed.

(** The flat viewed goes first, its earlier entry goes, and the fourth
    entry falls off. *)
Example viewed_again :
  let ids l := (fun flat => prop flat "id") <$> l in
  let viewed := flat_of_doc <$> [flat "f1" "rent" "studio" 900 30;
                                 flat "f2" "rent" "1BR" 1200 45;
                                 flat "f3" "sale" "2BR" 250000 80] in
  ids (withRecent (flat_of_doc (flat "f3" "sale" "2BR" 250000 80)) viewed)
    = [JStr "f3"; JStr "f1"; JStr "f2"] /\
  ids (withRecent (flat_of_doc (flat "f4" "rent" "2BR" 1800 75)) viewed)
    = [JStr "f4"; JStr "f1"; JStr "f2"].
Proof. vm_compute. split; reflexivity. Qed.

(** An inquiry without a message is refused, one without a body fails,
    a whole one is stored. *)
Example inquiries_answered :
  let whole := JObj [("name", JStr "Ann"); ("email", JStr "ann@example.com");
                     ("message", JStr "Is f2 free in May?")] in
  RelayApi.status (fst (RelayApi.postInquiry (A := admin)
                          (JObj [("name", JStr "Ann"); ("email", JStr "ann@example.com");
                                 ("message", JStr "")]) [])) = 400%nat /\
  RelayApi.status (fst (RelayApi.postInquiry (A := admin) JUndefined [])) = 500%nat /\
  RelayApi.postInquiry (A := admin) whole [] =
    ({| RelayApi.status := 201;
        RelayApi.body := RelayApi.MessageBody "Inquiry submitted successfully" |},
     [{| inquiry_name := JStr "Ann"; inquiry_email := JStr "ann@example.com";
         inquiry_message := JStr "Is f2 free in May?";
         inquiry_timestamp := ServerTimestamp |}]).
Proof. repeat split. Qed.

End MoreExamples.
